(** * The tool-interrupt protocol of the I-CISK orchestrator agent

    A shallow embedding of the human-in-the-loop tool protocol:
    [BaseAgentTool] (required / validation / inference / confirmation
    pipeline), [BaseToolInterrupt], the tool handler node, the interrupt
    handler strategies and their dispatch node, together with the tools
    [CodeEditorTool], [CDSHistoricNotebookTool] and the validation table of
    [SPIForecastNotebookTool].

    Python objects are mutable; the embedding threads the instance fields of
    a tool and the outside world (language model, notebook store, clock)
    through a small state-and-exception monad.  Exceptions are outcomes: a
    [BaseToolInterrupt] is kept apart from every other exception because the
    tool handler catches only the former. *)

From Stdlib Require Import ZArith String Ascii List Bool Lia DecimalString.
From Stdlib Require Import Floats.PrimFloat Floats.SpecFloat Floats.FloatOps.
From stdpp Require Import base option list gmap strings.

Local Open Scope string_scope.
Local Open Scope Z_scope.

(** ** Python values *)

(** Members of the two [str]-mixin enumerations of the CDS historic tool. *)
Inductive InputHistoricCDSDataset :=
| reanalysis_era5_land_monthly_means
| reanalysis_era5_land.

Inductive InputHistoricVariable :=
| total_precipitation
| temperature.

Set Warnings "-register-all".

(** The universe of run-time values: what tool arguments, tool outputs and
    [ast.literal_eval] results are made of.  Dictionaries are keyed by
    strings (argument names) and keep insertion order. *)
Inductive value :=
| VNone
| VBool (b : bool)
| VInt (z : Z)
| VFloat (f : float)
| VStr (s : string)
| VList (l : list value)
| VTuple (l : list value)
| VDict (d : list (string * value))
| VDataset (m : InputHistoricCDSDataset)
| VVariable (m : InputHistoricVariable).

Definition dict (V : Type) : Type := list (string * V).
Definition pydict : Type := dict value.

(** [d.get(k)]. *)
Fixpoint dict_get {V : Type} (k : string) (d : dict V) : option V :=
  match d with
  | [] => None
  | (k', v) :: d' => if String.eqb k k' then Some v else dict_get k d'
  end.

(** [d[k] = v]: an existing key keeps its position, a new one is appended. *)
Fixpoint dict_set {V : Type} (k : string) (v : V) (d : dict V) : dict V :=
  match d with
  | [] => [(k, v)]
  | (k', v') :: d' =>
      if String.eqb k k' then (k', v) :: d' else (k', v') :: dict_set k v d'
  end.

(** [d.update(u)] for a dictionary [u]. *)
Definition dict_update {V : Type} (d u : dict V) : dict V :=
  fold_left (fun acc kv => dict_set (fst kv) (snd kv) acc) u d.

Definition dict_keys {V : Type} (d : dict V) : list string := map fst d.

Definition is_none (v : value) : bool :=
  match v with VNone => true | _ => false end.

(** ** Strings *)

(** [sub in s]. *)
Fixpoint contains (sub s : string) : bool :=
  String.prefix sub s ||
  match s with
  | EmptyString => false
  | String _ s' => contains sub s'
  end.

(** [s.replace(a, b)] for one-character [a] and [b]. *)
Fixpoint replace_char (a b : ascii) (s : string) : string :=
  match s with
  | EmptyString => EmptyString
  | String c s' => String (if Ascii.eqb c a then b else c) (replace_char a b s')
  end.

(** [s.endswith(suffix)]. *)
Fixpoint endswith (s suffix : string) : bool :=
  String.eqb s suffix ||
  match s with
  | EmptyString => false
  | String _ s' => endswith s' suffix
  end.

(** [a < b] and [a > b] on strings: lexicographic on code points. *)
Definition str_lt (a b : string) : bool :=
  match String.compare a b with Lt => true | _ => false end.
Definition str_gt (a b : string) : bool := str_lt b a.

(** The text before the first occurrence of [sep] ([s.split(sep)[0]]). *)
Fixpoint before (sep s : string) : string :=
  if String.prefix sep s then EmptyString
  else match s with
       | EmptyString => EmptyString
       | String c s' => String c (before sep s')
       end.

Fixpoint drop_string (n : nat) (s : string) : string :=
  match n, s with
  | O, _ => s
  | S n', String _ s' => drop_string n' s'
  | S _, EmptyString => EmptyString
  end.

Fixpoint join (sep : string) (l : list string) : string :=
  match l with
  | [] => EmptyString
  | [x] => x
  | x :: l' => x +:+ sep +:+ join sep l'
  end.

(** [repr] of a list of argument names, as an f-string prints it. *)
Definition repr_names (l : list string) : string :=
  "[" +:+ join ", " (map (fun s => "'" +:+ s +:+ "'") l) +:+ "]".

(** ** Exceptions and interrupts *)

(** Python exceptions other than the tool interrupt. *)
Inductive exn :=
| KeyError (key : string)
| IndexError
| TypeError
| ValueError
| AttributeError
| OverflowError
| ZeroDivisionError
| ValidationError.

(** One entry of [args_schema.model_fields]: a field without default is
    required ([FieldInfo.is_required()]). *)
Record FieldInfo := {
  is_required : bool;
  description : string;
  default_value : value
}.

Definition ArgsSchema : Type := dict FieldInfo.

(** [BaseToolInterrupt.BaseToolInterruptType]: plain string constants. *)
Definition PROVIDE_ARGS : string := "PROVIDE_ARGS".
Definition INVALID_ARGS : string := "INVALID_ARGS".
Definition CONFIRM_ARGS : string := "CONFIRM_ARGS".
Definition CONFIRM_OUTPUT : string := "CONFIRM_OUTPUT".

(** The [interrupt_data] dictionaries the base tool builds, one shape per
    raising site. *)
Inductive interrupt_payload :=
| MissingArgsData (missing_args : list string) (args_schema : ArgsSchema)
| InvalidArgsData (invalid_args : pydict) (args_schema : ArgsSchema)
| ConfirmArgsData (args : pydict) (args_schema : ArgsSchema)
| ConfirmOutputData (args : pydict) (output : value).

(** [BaseToolInterrupt]; the fields are those of [as_dict]. *)
Record BaseToolInterrupt := {
  interrupt_tool : string;
  interrupt_type : string;
  interrupt_reason : string;
  interrupt_data : interrupt_payload
}.

(** How a Python call ends. *)
Inductive outcome (A : Type) :=
| Return (a : A)
| Interrupted (i : BaseToolInterrupt)
| Raised (e : exn).
Arguments Return {A} a.
Arguments Interrupted {A} i.
Arguments Raised {A} e.

(** ** Numbers: [utils.floor_decimals] and [utils.ceil_decimals] *)

(** Python floats are binary64 values, here primitive floats. *)
Definition Z2F (z : Z) : float := SF2Prim (binary_normalize 53 1024 z 0 false).

(** [math.floor] and [math.ceil] of a float: an integer, [ValueError] on
    NaN and [OverflowError] on an infinity. *)
Definition float_floor (x : float) : outcome Z :=
  match Prim2SF x with
  | S754_zero _ => Return 0
  | S754_nan => Raised ValueError
  | S754_infinity _ => Raised OverflowError
  | S754_finite s m e =>
      let n := if s then Z.neg m else Z.pos m in
      Return (if 0 <=? e then n * 2 ^ e else n / 2 ^ (- e))
  end.

Definition float_ceil (x : float) : outcome Z :=
  match Prim2SF x with
  | S754_zero _ => Return 0
  | S754_nan => Raised ValueError
  | S754_infinity _ => Raised OverflowError
  | S754_finite s m e =>
      let n := if s then Z.neg m else Z.pos m in
      Return (if 0 <=? e then n * 2 ^ e else - ((- n) / 2 ^ (- e)))
  end.

(** [a / b] on integers: the correctly rounded quotient (round to nearest,
    ties to even), [OverflowError] when it exceeds the float range.  The
    quotient is computed with more than 53 significant bits and a sticky
    bit before rounding. *)
Definition int_true_divide (a b : Z) : outcome float :=
  if b =? 0 then Raised ZeroDivisionError
  else
    let n := Z.abs a in
    let d := Z.abs b in
    let s := Z.max 0 (64 + Z.log2_up d - Z.log2 n) in
    let q := (n * 2 ^ s) / d in
    let r := (n * 2 ^ s) mod d in
    let m := 2 * q + (if r =? 0 then 0 else 1) in
    let signed := if xorb (a <? 0) (b <? 0) then - m else m in
    match binary_normalize 53 1024 signed (- s - 1) false with
    | S754_infinity _ => Raised OverflowError
    | x => Return (SF2Prim x)
    end.

Fixpoint seq_repeat {A : Type} (n : nat) (l : list A) : list A :=
  match n with
  | O => []
  | S n' => l ++ seq_repeat n' l
  end.

Fixpoint str_repeat (n : nat) (s : string) : string :=
  match n with
  | O => EmptyString
  | S n' => s +:+ str_repeat n' s
  end.

(** The text of a [str]-mixin enumeration member is its value. *)
Definition dataset_value (m : InputHistoricCDSDataset) : string :=
  match m with
  | reanalysis_era5_land_monthly_means => "reanalysis-era5-land-monthly-means"
  | reanalysis_era5_land => "reanalysis-era5-land"
  end.

Definition variable_value (m : InputHistoricVariable) : string :=
  match m with
  | total_precipitation => "total_precipitation"
  | temperature => "temperature"
  end.

(** [number * factor] for an integer [factor]: arithmetic on numbers,
    repetition on sequences. *)
Definition py_mul_int (number : value) (factor : Z) : outcome value :=
  match number with
  | VBool b => Return (VInt (Z.b2z b * factor))
  | VInt z => Return (VInt (z * factor))
  | VFloat f => Return (VFloat (PrimFloat.mul f (Z2F factor)))
  | VStr s => Return (VStr (str_repeat (Z.to_nat factor) s))
  | VDataset m => Return (VStr (str_repeat (Z.to_nat factor) (dataset_value m)))
  | VVariable m => Return (VStr (str_repeat (Z.to_nat factor) (variable_value m)))
  | VList l => Return (VList (seq_repeat (Z.to_nat factor) l))
  | VTuple l => Return (VTuple (seq_repeat (Z.to_nat factor) l))
  | VNone | VDict _ => Raised TypeError
  end.

Definition math_floor (x : value) : outcome Z :=
  match x with
  | VBool b => Return (Z.b2z b)
  | VInt z => Return z
  | VFloat f => float_floor f
  | _ => Raised TypeError
  end.

Definition math_ceil (x : value) : outcome Z :=
  match x with
  | VBool b => Return (Z.b2z b)
  | VInt z => Return z
  | VFloat f => float_ceil f
  | _ => Raised TypeError
  end.

(** [math.floor(number * 10 ** decimals) / 10 ** decimals]. *)
Definition floor_decimals (number : value) (decimals : Z) : outcome value :=
  let factor := 10 ^ decimals in
  match py_mul_int number factor with
  | Return x =>
      match math_floor x with
      | Return k =>
          match int_true_divide k factor with
          | Return f => Return (VFloat f)
          | Interrupted i => Interrupted i
          | Raised e => Raised e
          end
      | Interrupted i => Interrupted i
      | Raised e => Raised e
      end
  | Interrupted i => Interrupted i
  | Raised e => Raised e
  end.

Definition ceil_decimals (number : value) (decimals : Z) : outcome value :=
  let factor := 10 ^ decimals in
  match py_mul_int number factor with
  | Return x =>
      match math_ceil x with
      | Return k =>
          match int_true_divide k factor with
          | Return f => Return (VFloat f)
          | Interrupted i => Interrupted i
          | Raised e => Raised e
          end
      | Interrupted i => Interrupted i
      | Raised e => Raised e
      end
  | Interrupted i => Interrupted i
  | Raised e => Raised e
  end.

(** ** Messages and conversation state *)

Record ToolCall := {
  call_name : string;
  call_args : pydict;
  call_id : string
}.

Inductive message :=
| AIMessage (id : string) (tool_calls : list ToolCall)
| HumanMessage (id : string) (content : string)
| ToolResponse (name : string) (content : value) (tool_call_id : string)
| SystemMessage (content : string)
| RemoveMessage (id : string).

(** What a node finds under its own name in [state['node_params']]. *)
Inductive node_param :=
| InterruptParams (tool_message : message) (tool_interrupt : BaseToolInterrupt)
    (tool_handler_node : string)
| UpdateMessagesParams (update_messages : list message).

(** [BaseGraphState]. *)
Record GraphState := {
  messages : list message;
  user_id : string;
  node_params : gmap string node_param
}.

(** The state patch of a node; a key that is absent is left alone. *)
Record state_update := {
  upd_messages : list message;
  upd_node_params : option (gmap string node_param);
  upd_requested_agent : option value
}.

Inductive node_return :=
| Command (goto : string) (update : state_update)
| StateUpdate (update : state_update).

Definition END : string := "__end__".
Definition CHATBOT_UPDATE_MESSAGES : string := "chatbot_update_messages".
Definition CODE_EDITOR_TOOL : string := "code_editor_tool".
Definition CODE_EDITOR_TOOL_HANDLER : string := "code_editor_tool_handler".
Definition CODE_EDITOR_TOOL_INTERRUPT : string := "code_editor_tool_interrupt".
Definition SPI_FORECAST_NOTEBOOK_TOOL : string := "spi_forecast_notebook_tool".
Definition SPI_CALCULATION_TOOL_HANDLER : string := "spi_calculation_tool_handler".
Definition SPI_CALCULATION_TOOL_INTERRUPT : string := "spi_calculation_tool_interrupt".
Definition CDS_HISTORIC_NOTEBOOK_TOOL : string := "cds_historic_notebook_tool".
Definition CDS_INGESTOR_TOOL_HANDLER : string := "cds_ingestor_tool_handler".
Definition CDS_INGESTOR_TOOL_INTERRUPT : string := "cds_ingestor_tool_interrupt".

(** ** Tool instances and the outside world *)

Record cell := {
  cell_type : string;
  source : string
}.

(** [DBS.Notebook]. *)
Record Notebook := {
  nb_name : value;
  nb_authors : string;
  nb_cells : list cell
}.

(** The mutable instance fields of a [BaseAgentTool]. *)
Record tool_state := {
  graph_state : option GraphState;
  execution_confirmed : bool;
  output_confirmed : bool;
  output : value;
  notebook : option Notebook
}.

Record datetime := {
  year : Z;
  month : Z;
  day : Z;
  time_of_day : Z
}.

(** The world a tool acts on: how many language-model calls were made, the
    clock, the notebook store behind [DBI], and two histories kept for the
    statements only: the notebooks saved and the argument sets the execution
    bodies were called with. *)
Record world := {
  llm_calls : nat;
  now : datetime;
  notebooks : gmap (string * string) Notebook;
  saved : list Notebook;
  executed : list (string * pydict)
}.

Definition set_execution_confirmed (b : bool) (st : tool_state) : tool_state :=
  {| graph_state := graph_state st; execution_confirmed := b;
     output_confirmed := output_confirmed st; output := output st;
     notebook := notebook st |}.

Definition set_output_confirmed (b : bool) (st : tool_state) : tool_state :=
  {| graph_state := graph_state st; execution_confirmed := execution_confirmed st;
     output_confirmed := b; output := output st; notebook := notebook st |}.

Definition set_output (v : value) (st : tool_state) : tool_state :=
  {| graph_state := graph_state st; execution_confirmed := execution_confirmed st;
     output_confirmed := output_confirmed st; output := v;
     notebook := notebook st |}.

Definition set_notebook (n : option Notebook) (st : tool_state) : tool_state :=
  {| graph_state := graph_state st; execution_confirmed := execution_confirmed st;
     output_confirmed := output_confirmed st; output := output st;
     notebook := n |}.

Definition set_graph_state (g : GraphState) (st : tool_state) : tool_state :=
  {| graph_state := Some g; execution_confirmed := execution_confirmed st;
     output_confirmed := output_confirmed st; output := output st;
     notebook := notebook st |}.

Definition count_llm_call (w : world) : world :=
  {| llm_calls := S (llm_calls w); now := now w; notebooks := notebooks w;
     saved := saved w; executed := executed w |}.

Definition record_execution (tool_name : string) (tool_args : pydict) (w : world) : world :=
  {| llm_calls := llm_calls w; now := now w; notebooks := notebooks w;
     saved := saved w; executed := executed w ++ [(tool_name, tool_args)] |}.

(** ** The monad of tool methods *)

Definition M (A : Type) : Type := tool_state -> world -> outcome A * tool_state * world.

Definition ret {A : Type} (a : A) : M A := fun st w => (Return a, st, w).

Definition bind {A B : Type} (m : M A) (k : A -> M B) : M B :=
  fun st w =>
    match m st w with
    | (Return a, st', w') => k a st' w'
    | (Interrupted i, st', w') => (Interrupted i, st', w')
    | (Raised e, st', w') => (Raised e, st', w')
    end.

Notation "'let*' x ':=' m 'in' k" := (bind m (fun x => k))
  (at level 10, x name, m at level 100, k at level 200).
Notation "'do' m 'then' k" := (bind m (fun _ => k))
  (at level 10, m at level 100, k at level 200).

Definition raise {A : Type} (e : exn) : M A := fun st w => (Raised e, st, w).
Definition raise_interrupt {A : Type} (i : BaseToolInterrupt) : M A :=
  fun st w => (Interrupted i, st, w).
Definition lift {A : Type} (o : outcome A) : M A := fun st w => (o, st, w).
Definition get_self : M tool_state := fun st w => (Return st, st, w).
Definition get_world : M world := fun st w => (Return w, st, w).
Definition modify_self (f : tool_state -> tool_state) : M unit :=
  fun st w => (Return tt, f st, w).
Definition modify_world (f : world -> world) : M unit :=
  fun st w => (Return tt, st, f w).

(** [d[k]]: [KeyError] on an absent key. *)
Definition getitem {V : Type} (d : dict V) (k : string) : M V :=
  match dict_get k d with
  | Some v => ret v
  | None => raise (KeyError k)
  end.

(** Binding a keyword parameter of [_execute( **tool_args)]: a missing
    keyword is a [TypeError]. *)
Definition keyword (d : pydict) (k : string) : M value :=
  match dict_get k d with
  | Some v => ret v
  | None => raise TypeError
  end.

(** ** External collaborators *)

(** The prompts sent to the language model, one constructor per call site,
    carrying the data the prompt text interpolates. *)
Inductive llm_query :=
| AskProvideArgs (reason : string) (args_description : list (string * string))
| InterpretProvidedArgs (reason : string) (response : value)
| AskInvalidArgs (reason : string) (args_description : list (string * string * value))
| InterpretValidArgs (reason : string) (args : pydict) (response : value)
| AskConfirmArgs (reason : string) (args : pydict)
| InterpretConfirmArgs (reason : string) (args : pydict) (response : value)
| AskConfirmOutput (reason : string) (output_description : pydict)
| ClassifyOutputConfirmation (reason : string) (args output_description : pydict)
    (response : value)
| InterpretOutputChanges (reason : string) (args : pydict) (response : value)
| InterpretCodeRequestChanges (reason : string) (args : pydict) (response : value)
| BoundingBoxOf (area : string)
| GenerateCode (code_request : value) (source_code : list string).

(** Library functions and services the repository calls but does not
    define: the chat model (its [n]-th answer may depend on [n]),
    [ast.literal_eval] ([None] when it raises), [str()] as used by
    f-strings, [datetime.strptime] ([None] on [ValueError]), [strftime],
    [isoformat(timespec='seconds')], the notebook templates and their
    renderer, and the layout of the description text a notebook tool
    writes next to its values. *)
Class External := {
  llm_invoke : nat -> llm_query -> string;
  literal_eval : string -> option value;
  py_str : value -> string;
  strptime : string -> string -> option datetime;
  strftime : datetime -> string -> string;
  isoformat : datetime -> string;
  write_notebook_template : list cell -> pydict -> value -> list cell;
  notebook_template : string -> list cell;
  dataset_var_description : pydict -> string
}.

(** ** [BaseAgentTool] *)

(** A validation rule or an inference function: a closure over the tool
    instance, called with the whole argument set as keywords. *)
Definition rule : Type := pydict -> M value.

(** What a subclass of [BaseAgentTool] fixes: its name and schema, the
    tables returned by [_set_args_validation_rules] and
    [_set_args_inference_rules], and the body [_execute]. *)
Record BaseAgentTool := {
  name : string;
  args_schema : ArgsSchema;
  _set_args_validation_rules : dict (list rule);
  _set_args_inference_rules : dict (option rule);
  _execute : pydict -> M value
}.

(** The defaults of the base class. *)
Definition base_validation_rules (schema : ArgsSchema) : dict (list rule) :=
  map (fun kv => (fst kv, [])) schema.
Definition base_inference_rules (schema : ArgsSchema) : dict (option rule) :=
  map (fun kv => (fst kv, None)) schema.
Definition base_execute : pydict -> M value := fun _ => ret VNone.

(** The instance fields right after [BaseAgentTool.__init__]. *)
Definition base_fields : tool_state :=
  {| graph_state := None; execution_confirmed := false;
     output_confirmed := false; output := VNone; notebook := None |}.

(** The list comprehension of [check_required_args]. *)
Fixpoint missing_args_of (fields : ArgsSchema) (tool_args : pydict) : outcome (list string) :=
  match fields with
  | [] => Return []
  | (arg, schema) :: rest =>
      if is_required schema then
        match dict_get arg tool_args with
        | None => Raised (KeyError arg)
        | Some v =>
            match missing_args_of rest tool_args with
            | Return l => Return (if is_none v then arg :: l else l)
            | o => o
            end
        end
      else missing_args_of rest tool_args
  end.

Definition check_required_args (self : BaseAgentTool) (tool_args : pydict) : M unit :=
  let* missing_args := lift (missing_args_of (args_schema self) tool_args) in
  if (0 <? length missing_args)%nat then
    do modify_self (set_execution_confirmed false) then
    raise_interrupt
      {| interrupt_tool := name self;
         interrupt_type := PROVIDE_ARGS;
         interrupt_reason :=
           "Missing required arguments: " +:+ repr_names missing_args +:+ ".";
         interrupt_data := MissingArgsData missing_args (args_schema self) |}
  else ret tt.

(** The inner loop of [check_validation_rules]: every rule of [arg] is
    called; a reason that is not [None] is stored under [arg]. *)
Fixpoint apply_rules (arg : string) (rules : list rule) (tool_args invalid_args : pydict)
  : M pydict :=
  match rules with
  | [] => ret invalid_args
  | rule :: rest =>
      let* invalid_reason := rule tool_args in
      apply_rules arg rest tool_args
        (if is_none invalid_reason then invalid_args
         else dict_set arg invalid_reason invalid_args)
  end.

(** The outer loop, over the schema's field names. *)
Fixpoint validate_fields (args_validation_rules : dict (list rule)) (fields : list string)
    (tool_args invalid_args : pydict) : M pydict :=
  match fields with
  | [] => ret invalid_args
  | arg :: rest =>
      let* invalid_args' :=
        apply_rules arg (default [] (dict_get arg args_validation_rules))
          tool_args invalid_args in
      validate_fields args_validation_rules rest tool_args invalid_args'
  end.

Definition check_validation_rules (self : BaseAgentTool) (tool_args : pydict) : M unit :=
  let* invalid_args :=
    validate_fields (_set_args_validation_rules self)
      (dict_keys (args_schema self)) tool_args [] in
  if (0 <? length invalid_args)%nat then
    do modify_self (set_execution_confirmed false) then
    raise_interrupt
      {| interrupt_tool := name self;
         interrupt_type := INVALID_ARGS;
         interrupt_reason :=
           "Invalid arguments: " +:+ repr_names (dict_keys invalid_args) +:+ ".";
         interrupt_data := InvalidArgsData invalid_args (args_schema self) |}
  else ret tt.

(** The loop of [infer_args]; the dictionary is updated in place, so a
    later inference function sees the values inferred before it. *)
Fixpoint infer_fields (args_inference_rules : dict (option rule)) (fields : list string)
    (tool_args : pydict) : M pydict :=
  match fields with
  | [] => ret tool_args
  | arg :: rest =>
      match dict_get arg args_inference_rules with
      | Some (Some infer) =>
          let* v := infer tool_args in
          infer_fields args_inference_rules rest (dict_set arg v tool_args)
      | _ => infer_fields args_inference_rules rest tool_args
      end
  end.

Definition infer_args (self : BaseAgentTool) (tool_args : pydict) : M pydict :=
  infer_fields (_set_args_inference_rules self) (dict_keys (args_schema self)) tool_args.

Definition confirm_args (self : BaseAgentTool) (tool_args : pydict) : M unit :=
  let* fields := get_self in
  if negb (execution_confirmed fields) then
    raise_interrupt
      {| interrupt_tool := name self;
         interrupt_type := CONFIRM_ARGS;
         interrupt_reason :=
           "Please confirm the execution of the tool with the provided arguments.";
         interrupt_data := ConfirmArgsData tool_args (args_schema self) |}
  else ret tt.

Definition confirm_ouputs (self : BaseAgentTool) (tool_args : pydict) : M unit :=
  let* fields := get_self in
  if negb (output_confirmed fields) then
    raise_interrupt
      {| interrupt_tool := name self;
         interrupt_type := CONFIRM_OUTPUT;
         interrupt_reason := "A user confirmation of the ouput is required.";
         interrupt_data := ConfirmOutputData tool_args (output fields) |}
  else ret tt.

(** The call [self._execute( **tool_args)], entered in the history of
    executions. *)
Definition call_execute (self : BaseAgentTool) (tool_args : pydict) : M value :=
  do modify_world (record_execution (name self) tool_args) then
  _execute self tool_args.

(** [BaseAgentTool._run]. *)
Definition _run (self : BaseAgentTool) (tool_args : pydict) : M value :=
  do check_required_args self tool_args then
  do check_validation_rules self tool_args then
  let* tool_args := infer_args self tool_args in
  do confirm_args self tool_args then
  let* result := call_execute self tool_args in
  do modify_self (set_output result) then
  do confirm_ouputs self tool_args then
  let* fields := get_self in
  ret (output fields).

(** [tool.invoke(args)]: the input is parsed against the schema (a field
    without default must be present, the others take their default) and
    the keywords reach the tool's own [_run], which rebuilds the full
    argument dictionary for [BaseAgentTool._run]. *)
Fixpoint parse_input (fields : ArgsSchema) (input : pydict) : outcome pydict :=
  match fields with
  | [] => Return []
  | (arg, schema) :: rest =>
      match dict_get arg input with
      | None =>
          if is_required schema then Raised ValidationError
          else match parse_input rest input with
               | Return d => Return ((arg, default_value schema) :: d)
               | o => o
               end
      | Some v =>
          match parse_input rest input with
          | Return d => Return ((arg, v) :: d)
          | o => o
          end
      end
  end.

Definition invoke (self : BaseAgentTool) (input : pydict) : M value :=
  let* tool_args := lift (parse_input (args_schema self) input) in
  _run self tool_args.

(** ** Interrupt handlers *)

(** A strategy object: [handle(tool, interupt_data)], given the three
    entries of [interupt_data] and the value the suspended [interrupt(...)]
    call resumes with.  It runs on the fields of the interrupted tool. *)
Record BaseToolInterruptHandler := {
  handle : message -> BaseToolInterrupt -> string -> pydict -> M node_return
}.

(** Reading [tool_interrupt['data'][key]]. *)
Definition data_args_schema (d : interrupt_payload) : M ArgsSchema :=
  match d with
  | MissingArgsData _ s | InvalidArgsData _ s | ConfirmArgsData _ s => ret s
  | ConfirmOutputData _ _ => raise (KeyError "args_schema")
  end.

Definition data_missing_args (d : interrupt_payload) : M (list string) :=
  match d with
  | MissingArgsData l _ => ret l
  | _ => raise (KeyError "missing_args")
  end.

Definition data_invalid_args (d : interrupt_payload) : M pydict :=
  match d with
  | InvalidArgsData l _ => ret l
  | _ => raise (KeyError "invalid_args")
  end.

Definition data_args (d : interrupt_payload) : M pydict :=
  match d with
  | ConfirmArgsData a _ | ConfirmOutputData a _ => ret a
  | _ => raise (KeyError "args")
  end.

(** [tool_interrupt['data']['output'].items()]. *)
Definition data_output_items (d : interrupt_payload) : M pydict :=
  match d with
  | ConfirmOutputData _ (VDict o) => ret o
  | ConfirmOutputData _ _ => raise AttributeError
  | _ => raise (KeyError "output")
  end.

(** One element of the iterable given to [dict.update]: a sequence of
    length two.  Keys are argument names; a pair whose first component is
    not a string has no counterpart among string-keyed dictionaries and is
    rejected here. *)
Definition update_pair (e : value) : outcome (string * value) :=
  match e with
  | VList [VStr k; v] | VTuple [VStr k; v] => Return (k, v)
  | VList [_; _] | VTuple [_; _] => Raised TypeError
  | VList _ | VTuple _ => Raised ValueError
  | VStr (String a (String b EmptyString)) =>
      Return (String a EmptyString, VStr (String b EmptyString))
  | VStr _ | VDataset _ | VVariable _ => Raised ValueError
  | VDict [(k1, _); (k2, _)] => Return (k1, VStr k2)
  | VDict _ => Raised ValueError
  | VNone | VBool _ | VInt _ | VFloat _ => Raised TypeError
  end.

Fixpoint update_pairs (d : pydict) (l : list value) : outcome pydict :=
  match l with
  | [] => Return d
  | e :: l' =>
      match update_pair e with
      | Return (k, v) => update_pairs (dict_set k v d) l'
      | Interrupted i => Interrupted i
      | Raised x => Raised x
      end
  end.

(** [d.update(v)] for an arbitrary value [v]: a mapping is merged, an
    iterable must yield pairs (the characters of a non-empty string do
    not), anything else is not iterable. *)
Definition dict_update_value (d : pydict) (v : value) : outcome pydict :=
  match v with
  | VDict u => Return (dict_update d u)
  | VList l | VTuple l => update_pairs d l
  | VStr EmptyString => Return d
  | VStr _ | VDataset _ | VVariable _ => Raised ValueError
  | VNone | VBool _ | VInt _ | VFloat _ => Raised TypeError
  end.

Fixpoint update_last_call (calls : list ToolCall) (v : value) : outcome (list ToolCall) :=
  match calls with
  | [] => Raised IndexError
  | [c] =>
      match dict_update_value (call_args c) v with
      | Return a =>
          Return [{| call_name := call_name c; call_args := a; call_id := call_id c |}]
      | Interrupted i => Interrupted i
      | Raised e => Raised e
      end
  | c :: rest =>
      match update_last_call rest v with
      | Return rest' => Return (c :: rest')
      | o => o
      end
  end.

(** [self.tool_message.tool_calls[-1]["args"].update(v)]; the message is
    the object held in the conversation state. *)
Definition update_tool_message (tool_message : message) (v : value) : M message :=
  match tool_message with
  | AIMessage id calls =>
      let* calls' := lift (update_last_call calls v) in
      ret (AIMessage id calls')
  | _ => raise AttributeError
  end.

(** [self.tool_message.id], as [RemoveMessage] needs it. *)
Definition message_id (m : message) : M string :=
  match m with
  | AIMessage id _ | HumanMessage id _ | RemoveMessage id => ret id
  | ToolResponse _ _ _ | SystemMessage _ => raise ValidationError
  end.

Definition exit_update (remove_tool_message system_message : message) : state_update :=
  {| upd_messages := [remove_tool_message; system_message];
     upd_node_params :=
       Some {[ CHATBOT_UPDATE_MESSAGES :=
                 UpdateMessagesParams [remove_tool_message; system_message] ]};
     upd_requested_agent := None |}.

Definition resume_update (tool_message : message) : state_update :=
  {| upd_messages := [tool_message];
     upd_node_params := None;
     upd_requested_agent := None |}.

Section Collaborators.
Context `{ext : External}.

(** The code inside a reply that opens with a Python fence. *)
Definition unfenced (content : string) : string :=
  if String.prefix "```python" content
  then before "```" (before "```python" (drop_string 9 content))
  else content.

(** What [utils.ask_llm] returns for the reply [content]: with
    [eval_output] the reply, stripped of a code fence, is evaluated as a
    literal; when that fails, and without [eval_output], the reply itself
    is returned. *)
Definition answer_of (content : string) (eval_output : bool) : value :=
  if eval_output then
    match literal_eval (unfenced content) with
    | Some v => v
    | None => VStr content
    end
  else VStr content.

(** [utils.ask_llm]. *)
Definition ask_llm (message : llm_query) (eval_output : bool) : M value :=
  let* w := get_world in
  let content := llm_invoke (llm_calls w) message in
  do modify_world count_llm_call then
  ret (answer_of content eval_output).

(** [interruption.get('response', ...)]. *)
Definition get_response (interruption : pydict) : value :=
  default (VStr "User did not provide any response.") (dict_get "response" interruption).

(** The branch every handler takes when the user leaves the tool process. *)
Definition exit_tool_process (tool_message : message) (response : value) : M node_return :=
  let* id := message_id tool_message in
  let remove_tool_message := RemoveMessage id in
  let system_message :=
    SystemMessage ("User choose to exit the tool process with this response: "
                   +:+ py_str response) in
  ret (Command END (exit_update remove_tool_message system_message)).

Definition provide_args_interrupt_message (tool_interrupt : BaseToolInterrupt) : M value :=
  let* schema := data_args_schema (interrupt_data tool_interrupt) in
  let* args_description :=
    match schema with
    | [] => ret []
    | _ =>
        let* missing := data_missing_args (interrupt_data tool_interrupt) in
        ret (map (fun kv => (fst kv, description (snd kv)))
               (List.filter (fun kv => existsb (String.eqb (fst kv)) missing) schema))
    end in
  ask_llm (AskProvideArgs (interrupt_reason tool_interrupt) args_description) false.

(** [BaseToolInterruptProvideArgsHandler.handle]. *)
Definition provide_args_handle (tool_message : message) (tool_interrupt : BaseToolInterrupt)
    (tool_handler_node : string) (interruption : pydict) : M node_return :=
  let* interrupt_message := provide_args_interrupt_message tool_interrupt in
  let response := get_response interruption in
  let* provided_args :=
    ask_llm (InterpretProvidedArgs (interrupt_reason tool_interrupt) response) true in
  if is_none provided_args then exit_tool_process tool_message response
  else
    let* tool_message' := update_tool_message tool_message provided_args in
    ret (Command tool_handler_node (resume_update tool_message')).

Fixpoint invalid_args_description (schema : ArgsSchema) (invalid_args : pydict)
  : list (string * string * value) :=
  match schema with
  | [] => []
  | (field, info) :: rest =>
      match dict_get field invalid_args with
      | Some why => (field, description info, why) :: invalid_args_description rest invalid_args
      | None => invalid_args_description rest invalid_args
      end
  end.

Definition invalid_args_interrupt_message (tool_interrupt : BaseToolInterrupt) : M value :=
  let* schema := data_args_schema (interrupt_data tool_interrupt) in
  let* args_description :=
    match schema with
    | [] => ret []
    | _ =>
        let* invalid_args := data_invalid_args (interrupt_data tool_interrupt) in
        ret (invalid_args_description schema invalid_args)
    end in
  ask_llm (AskInvalidArgs (interrupt_reason tool_interrupt) args_description) false.

Definition last_call_args (tool_message : message) : M pydict :=
  match tool_message with
  | AIMessage _ calls =>
      match last calls with
      | Some c => ret (call_args c)
      | None => raise IndexError
      end
  | _ => raise AttributeError
  end.

(** [BaseToolInterruptInvalidArgsHandler.handle]. *)
Definition invalid_args_handle (tool_message : message) (tool_interrupt : BaseToolInterrupt)
    (tool_handler_node : string) (interruption : pydict) : M node_return :=
  let* interrupt_message := invalid_args_interrupt_message tool_interrupt in
  let response := get_response interruption in
  let* current_args := last_call_args tool_message in
  let* provided_args :=
    ask_llm (InterpretValidArgs (interrupt_reason tool_interrupt) current_args response)
      true in
  if is_none provided_args then exit_tool_process tool_message response
  else
    let* tool_message' := update_tool_message tool_message provided_args in
    ret (Command tool_handler_node (resume_update tool_message')).

(** [BaseToolInterruptArgsConfirmationHandler.handle]. *)
Definition args_confirmation_handle (tool_message : message)
    (tool_interrupt : BaseToolInterrupt) (tool_handler_node : string)
    (interruption : pydict) : M node_return :=
  let* args_value := data_args (interrupt_data tool_interrupt) in
  let* interrupt_message :=
    ask_llm (AskConfirmArgs (interrupt_reason tool_interrupt) args_value) false in
  let response := get_response interruption in
  let* provided_args :=
    ask_llm (InterpretConfirmArgs (interrupt_reason tool_interrupt) args_value response)
      true in
  if is_none provided_args then exit_tool_process tool_message response
  else
    let* tool_message' := update_tool_message tool_message provided_args in
    do modify_self (set_execution_confirmed true) then
    ret (Command tool_handler_node (resume_update tool_message')).

(** [BaseToolInterruptOutputConfirmationHandler.handle]; a subclass may
    replace the prompt of [_generate_provided_output]. *)
Definition output_confirmation_handle
    (provided_output_query : string -> pydict -> value -> llm_query)
    (tool_message : message) (tool_interrupt : BaseToolInterrupt)
    (tool_handler_node : string) (interruption : pydict) : M node_return :=
  let* output_description := data_output_items (interrupt_data tool_interrupt) in
  let* interrupt_message :=
    ask_llm (AskConfirmOutput (interrupt_reason tool_interrupt) output_description) false in
  let response := get_response interruption in
  let* args_value := data_args (interrupt_data tool_interrupt) in
  let* provided_output :=
    ask_llm (ClassifyOutputConfirmation (interrupt_reason tool_interrupt)
               args_value output_description response) true in
  match provided_output with
  | VBool true =>
      do modify_self (set_output_confirmed true) then
      ret (Command tool_handler_node (resume_update tool_message))
  | VBool false =>
      let* update_inputs :=
        ask_llm (provided_output_query (interrupt_reason tool_interrupt)
                   args_value response) true in
      let* tool_message' := update_tool_message tool_message update_inputs in
      do modify_self (set_output_confirmed false) then
      ret (Command tool_handler_node (resume_update tool_message'))
  | _ => exit_tool_process tool_message response
  end.

Definition BaseToolInterruptProvideArgsHandler : BaseToolInterruptHandler :=
  {| handle := provide_args_handle |}.
Definition BaseToolInterruptInvalidArgsHandler : BaseToolInterruptHandler :=
  {| handle := invalid_args_handle |}.
Definition BaseToolInterruptArgsConfirmationHandler : BaseToolInterruptHandler :=
  {| handle := args_confirmation_handle |}.
Definition BaseToolInterruptOutputConfirmationHandler : BaseToolInterruptHandler :=
  {| handle := output_confirmation_handle InterpretOutputChanges |}.

(** The override of the code editor sub-flow. *)
Definition CodeEditorToolInterruptOutputConfirmationHandler : BaseToolInterruptHandler :=
  {| handle := output_confirmation_handle InterpretCodeRequestChanges |}.

End Collaborators.

(** ** The two nodes of a sub-flow *)

(** A tool object: what its class fixes and its current instance fields.
    The registry of a sub-flow maps tool names to tool objects. *)
Record tool_object := {
  tool_class : BaseAgentTool;
  fields : tool_state
}.

Definition with_fields (t : tool_object) (st : tool_state) : tool_object :=
  {| tool_class := tool_class t; fields := st |}.

(** [BaseToolHandlerNode]: the names of the two nodes and the additional
    output state. *)
Record BaseToolHandlerNode := {
  handler_node_name : string;
  handler_interrupt_node_name : string;
  additional_node_params : option (gmap string node_param);
  additional_requested_agent : option value
}.

(** [tool_handler_template]. *)
Definition tool_handler_template (self : BaseToolHandlerNode)
    (tools : gmap string tool_object) (state : GraphState) (w : world)
  : outcome node_return * gmap string tool_object * world :=
  match last (messages state) with
  | None => (Raised IndexError, tools, w)
  | Some (AIMessage id calls) =>
      let tool_message := AIMessage id calls in
      match last calls with
      | None => (Raised IndexError, tools, w)
      | Some tool_call =>
          match tools !! call_name tool_call with
          | None => (Raised (KeyError (call_name tool_call)), tools, w)
          | Some tool =>
              match invoke (tool_class tool) (call_args tool_call)
                      (set_graph_state state (fields tool)) w with
              | (Return result, st', w') =>
                  (Return (StateUpdate
                     {| upd_messages :=
                          [ToolResponse (call_name tool_call) result (call_id tool_call)];
                        upd_node_params := additional_node_params self;
                        upd_requested_agent := additional_requested_agent self |}),
                   <[call_name tool_call := with_fields tool st']> tools, w')
              | (Interrupted tool_interrupt, st', w') =>
                  (Return (Command (handler_interrupt_node_name self)
                     {| upd_messages := [];
                        upd_node_params :=
                          Some {[ handler_interrupt_node_name self :=
                                    InterruptParams tool_message tool_interrupt
                                      (handler_node_name self) ]};
                        upd_requested_agent := None |}),
                   <[call_name tool_call := with_fields tool st']> tools, w')
              | (Raised e, st', w') =>
                  (Raised e, <[call_name tool_call := with_fields tool st']> tools, w')
              end
          end
      end
  | Some _ => (Raised AttributeError, tools, w)
  end.

(** [BaseToolInterruptNode]: only the node names are per instance; the
    dispatch table [tool_interupt_handlers] is an attribute of the class. *)
Record BaseToolInterruptNode := {
  tool_handler_node_name : string;
  tool_interrupt_node_name : string
}.

(** [BaseToolInterruptNode.__init__]: the class dictionary is updated in
    place with the custom handlers; the result is the new content of the
    class attribute together with the instance. *)
Definition BaseToolInterruptNode_init (tool_handler_node_name tool_interrupt_node_name : string)
    (custom_tool_interupt_handlers : gmap string BaseToolInterruptHandler)
    (tool_interupt_handlers : gmap string BaseToolInterruptHandler)
  : BaseToolInterruptNode * gmap string BaseToolInterruptHandler :=
  ({| tool_handler_node_name := tool_handler_node_name;
      tool_interrupt_node_name := tool_interrupt_node_name |},
   custom_tool_interupt_handlers ∪ tool_interupt_handlers).

(** [self.tool_interupt_handlers[kind]] from any instance: a read of the
    class attribute. *)
Definition dispatch (self : BaseToolInterruptNode)
    (tool_interupt_handlers : gmap string BaseToolInterruptHandler) (kind : string)
  : option BaseToolInterruptHandler :=
  tool_interupt_handlers !! kind.

(** [tool_interrupt_node_template]; [interruption] is what the human
    answer resumes the suspended handler with. *)
Definition tool_interrupt_node_template (self : BaseToolInterruptNode)
    (tool_interupt_handlers : gmap string BaseToolInterruptHandler)
    (tools : gmap string tool_object) (state : GraphState) (interruption : pydict)
    (w : world)
  : outcome node_return * gmap string tool_object * world :=
  match node_params state !! tool_interrupt_node_name self with
  | None => (Raised (KeyError (tool_interrupt_node_name self)), tools, w)
  | Some (UpdateMessagesParams _) => (Raised (KeyError "tool_interrupt"), tools, w)
  | Some (InterruptParams tool_message tool_interrupt tool_handler_node) =>
      let tool_name := interrupt_tool tool_interrupt in
      match tools !! tool_name with
      | None => (Raised (KeyError tool_name), tools, w)
      | Some tool =>
          match dispatch self tool_interupt_handlers (interrupt_type tool_interrupt) with
          | None => (Raised (KeyError (interrupt_type tool_interrupt)), tools, w)
          | Some handler =>
              match handle handler tool_message tool_interrupt tool_handler_node
                      interruption (fields tool) w with
              | (Return command, st', w') =>
                  (Return command, <[tool_name := with_fields tool st']> tools, w')
              | (Interrupted i, st', w') =>
                  (Interrupted i, <[tool_name := with_fields tool st']> tools, w')
              | (Raised e, st', w') =>
                  (Raised e, <[tool_name := with_fields tool st']> tools, w')
              end
          end
      end
  end.

(** ** Applying a state patch *)

Definition has_id (id : string) (m : message) : bool :=
  match m with
  | AIMessage id' _ | HumanMessage id' _ | RemoveMessage id' => String.eqb id id'
  | ToolResponse _ _ _ | SystemMessage _ => false
  end.

Fixpoint replace_by_id (id : string) (m : message) (l : list message) : list message :=
  match l with
  | [] => []
  | x :: l' => if has_id id x then m :: l' else x :: replace_by_id id m l'
  end.

(** Modelled from the host framework: the [add_messages] reducer of the
    [messages] channel.  A [RemoveMessage] deletes the message carrying its
    id ([ValueError] when there is none), a message whose id is present
    replaces it in place, any other message is appended (a message
    without id receives a fresh one). *)
Definition add_message (merged : list message) (m : message) : outcome (list message) :=
  match m with
  | RemoveMessage id =>
      if existsb (has_id id) merged
      then Return (List.filter (fun x => negb (has_id id x)) merged)
      else Raised ValueError
  | AIMessage id _ | HumanMessage id _ =>
      if existsb (has_id id) merged
      then Return (replace_by_id id m merged)
      else Return (merged ++ [m])%list
  | ToolResponse _ _ _ | SystemMessage _ => Return (merged ++ [m])%list
  end.

Fixpoint add_messages (left right : list message) : outcome (list message) :=
  match right with
  | [] => Return left
  | m :: right' =>
      match add_message left m with
      | Return left' => add_messages left' right'
      | o => o
      end
  end.

(** The patch of a node applied to the conversation state: [messages] goes
    through its reducer, [node_params] is overwritten when present. *)
Definition apply_update (state : GraphState) (u : state_update) : outcome GraphState :=
  match add_messages (messages state) (upd_messages u) with
  | Return ms =>
      Return {| messages := ms;
                user_id := user_id state;
                node_params := default (node_params state) (upd_node_params u) |}
  | Interrupted i => Interrupted i
  | Raised e => Raised e
  end.

Definition update_of (r : node_return) : state_update :=
  match r with
  | Command _ u => u
  | StateUpdate u => u
  end.

(** ** The notebook store and the clock *)

(** [self.graph_state.get('user_id')]. *)
Definition current_user : M string :=
  let* self := get_self in
  match graph_state self with
  | Some g => ret (user_id g)
  | None => raise AttributeError
  end.

(** The store behind [DBI], an external package, after the two calls the
    tools make: [notebook_by_name] finds the notebook of an author by name
    or answers [None]; [save_notebook] stores it under its author and
    name. *)
Definition notebook_by_name (author : string) (notebook_name : value) : M (option Notebook) :=
  let* w := get_world in
  match notebook_name with
  | VStr n => ret (notebooks w !! (author, n))
  | _ => ret None
  end.

Definition store_notebook (nb : Notebook) (w : world) : world :=
  {| llm_calls := llm_calls w; now := now w;
     notebooks :=
       match nb_name nb with
       | VStr n => <[(nb_authors nb, n) := nb]> (notebooks w)
       | _ => notebooks w
       end;
     saved := saved w ++ [nb]; executed := executed w |}.

Definition save_notebook (nb : Notebook) : M unit := modify_world (store_notebook nb).

Definition dt_lt (a b : datetime) : bool :=
  (year a <? year b) ||
  ((year a =? year b) &&
   ((month a <? month b) ||
    ((month a =? month b) &&
     ((day a <? day b) ||
      ((day a =? day b) && (time_of_day a <? time_of_day b)))))).
Definition dt_gt (a b : datetime) : bool := dt_lt b a.
Definition dt_le (a b : datetime) : bool := negb (dt_lt b a).
Definition dt_ge (a b : datetime) : bool := negb (dt_lt a b).

(** [d.replace(day=1)]. *)
Definition replace_day_1 (d : datetime) : datetime :=
  {| year := year d; month := month d; day := 1; time_of_day := time_of_day d |}.

Definition is_leap (y : Z) : bool :=
  ((y mod 4 =? 0) && negb (y mod 100 =? 0)) || (y mod 400 =? 0).

Definition days_in_month (y m : Z) : Z :=
  if m =? 2 then (if is_leap y then 29 else 28)
  else if (m =? 4) || (m =? 6) || (m =? 9) || (m =? 11) then 30
  else 31.

(** [d - relativedelta(month=m)] and [d + relativedelta(month=m)]: the
    singular keyword sets the month, the day is clipped to its length. *)
Definition relativedelta_month (m : Z) (d : datetime) : datetime :=
  {| year := year d; month := m; day := Z.min (day d) (days_in_month (year d) m);
     time_of_day := time_of_day d |}.

(** [d + relativedelta(months=n)] for [n >= 0]. *)
Definition relativedelta_months (n : Z) (d : datetime) : datetime :=
  let total := (month d - 1) + n in
  let y := year d + total / 12 in
  let m := total mod 12 + 1 in
  {| year := y; month := m; day := Z.min (day d) (days_in_month y m);
     time_of_day := time_of_day d |}.

(** [datetime.now().date()]. *)
Definition to_date (d : datetime) : datetime :=
  {| year := year d; month := month d; day := day d; time_of_day := 0 |}.

(** The text of a value that is a [str] (the enumerations mix [str] in). *)
Definition text_of (v : value) : option string :=
  match v with
  | VStr s => Some s
  | VDataset m => Some (dataset_value m)
  | VVariable m => Some (variable_value m)
  | _ => None
  end.

(** [for x in v]: the elements of a list or tuple, the characters of a
    string, the keys of a dictionary. *)
Fixpoint characters (s : string) : list value :=
  match s with
  | EmptyString => []
  | String c s' => VStr (String c EmptyString) :: characters s'
  end.

Definition iterate (v : value) : outcome (list value) :=
  match v with
  | VList l | VTuple l => Return l
  | VStr s => Return (characters s)
  | VDataset m => Return (characters (dataset_value m))
  | VVariable m => Return (characters (variable_value m))
  | VDict d => Return (map (fun kv => VStr (fst kv)) d)
  | VNone | VBool _ | VInt _ | VFloat _ => Raised TypeError
  end.

(** [a > b] and [a < b] where the schema types both sides [None | str] and
    [None] has been excluded: strings compare, any other pairing is
    reported as the [TypeError] a string against a non-string gives. *)
Definition py_gt (a b : value) : outcome bool :=
  match text_of a, text_of b with
  | Some x, Some y => Return (str_gt x y)
  | _, _ => Raised TypeError
  end.
Definition py_lt (a b : value) : outcome bool := py_gt b a.

(** [v > z] for an integer [z]: numbers compare exactly, anything else is
    a [TypeError]. *)
Definition py_gt_int (v : value) (z : Z) : outcome bool :=
  match v with
  | VBool b => Return (z <? Z.b2z b)
  | VInt n => Return (z <? n)
  | VFloat f =>
      match Prim2SF f with
      | S754_nan => Return false
      | S754_infinity s => Return (negb s)
      | _ => match float_ceil f with
             | Return c => Return (z <? c)
             | Interrupted i => Interrupted i
             | Raised e => Raised e
             end
      end
  | _ => Raised TypeError
  end.

(** [v[i]] on a sequence. *)
Definition py_index (v : value) (i : nat) : outcome value :=
  match v with
  | VList l | VTuple l =>
      match l !! i with
      | Some x => Return x
      | None => Raised IndexError
      end
  | VStr s =>
      match characters s !! i with
      | Some x => Return x
      | None => Raised IndexError
      end
  | VDataset m =>
      match characters (dataset_value m) !! i with
      | Some x => Return x
      | None => Raised IndexError
      end
  | VVariable m =>
      match characters (variable_value m) !! i with
      | Some x => Return x
      | None => Raised IndexError
      end
  | VDict _ => Raised (KeyError "0")
  | VNone | VBool _ | VInt _ | VFloat _ => Raised TypeError
  end.

Definition lower_char (c : ascii) : ascii :=
  let n := nat_of_ascii c in
  if (65 <=? n)%nat && (n <=? 90)%nat then ascii_of_nat (n + 32) else c.

Fixpoint lower (s : string) : string :=
  match s with
  | EmptyString => EmptyString
  | String c s' => String (lower_char c) (lower s')
  end.

Definition newline : string := String (ascii_of_nat 10) EmptyString.

Section Tools.
Context `{ext : External}.

(** [utils.try_default(lambda: datetime.strptime(v, fmt), None)]: any
    exception, a non-string argument included, gives the default. *)
Definition try_strptime (v : value) (fmt : string) : option datetime :=
  match text_of v with
  | Some s => strptime s fmt
  | None => None
  end.

(** [datetime.strptime(v, fmt)] outside [try_default]. *)
Definition strptime_value (v : value) (fmt : string) : M datetime :=
  match text_of v with
  | Some s =>
      match strptime s fmt with
      | Some d => ret d
      | None => raise ValueError
      end
  | None => raise TypeError
  end.

(** *** [CodeEditorTool] *)

Definition code_editor_schema : ArgsSchema :=
  [ ("source",
     {| is_required := false;
        description := "The filename of the code file to be edited. It is only filename.ext, without any other parent path. It could be a python notebbok, a script.py. If not specified use None as default.";
        default_value := VNone |});
    ("code_request",
     {| is_required := true;
        description := "Meaning and usefulness of the requested code";
        default_value := VNone |}) ].

Definition code_editor_validation_rules : dict (list rule) :=
  [ ("source",
     [ fun ka =>
         let* author := current_user in
         let* source := getitem ka "source" in
         let* found := notebook_by_name author source in
         match found with
         | None =>
             ret (VStr ("Invalid source: " +:+ py_str source
                        +:+ ". It should be the name of a notebook uploaded on databse."))
         | Some _ => ret VNone
         end ]) ].

(** [get_source_code] inside [CodeEditorTool._execute]. *)
Definition get_source_code (nb : option Notebook) : M (list string) :=
  match nb with
  | Some n =>
      ret (map source
             (List.filter (fun c => String.eqb (cell_type c) "code"
                               && negb (String.eqb (source c) ""))
                (nb_cells n)))
  | None => raise AttributeError
  end.

(** [add_source_code]: the fence of a fenced answer is removed, the code is
    appended to the notebook as a new cell and the notebook is saved. *)
Definition add_source_code (source_code : value) : M unit :=
  match source_code with
  | VStr code =>
      let fence := "```python" +:+ newline in
      let code' :=
        if String.prefix fence code
        then before (newline +:+ "```") (before fence (drop_string 10 code))
        else code in
      let* self := get_self in
      match notebook self with
      | Some nb =>
          let nb' :=
            {| nb_name := nb_name nb; nb_authors := nb_authors nb;
               nb_cells := nb_cells nb ++ [{| cell_type := "code"; source := code' |}] |} in
          do modify_self (set_notebook (Some nb')) then
          save_notebook nb'
      | None => raise AttributeError
      end
  | _ => raise AttributeError
  end.

(** [CodeEditorTool._execute]. *)
Definition code_editor_execute (ka : pydict) : M value :=
  let* source := keyword ka "source" in
  let* code_request := keyword ka "code_request" in
  let* author := current_user in
  let* found := notebook_by_name author source in
  do modify_self (set_notebook found) then
  let* self := get_self in
  let* generated_code :=
    if negb (output_confirmed self) then
      let* source_code := get_source_code found in
      ask_llm (GenerateCode code_request source_code) false
    else
      let* generated_code :=
        match output self with
        | VDict o => getitem o "generated_code"
        | _ => raise TypeError
        end in
      do add_source_code generated_code then
      ret generated_code in
  do modify_self (set_output_confirmed false) then
  ret (VDict [("notebook", source); ("generated_code", generated_code)]).

Definition CodeEditorTool : BaseAgentTool :=
  {| name := CODE_EDITOR_TOOL;
     args_schema := code_editor_schema;
     _set_args_validation_rules := code_editor_validation_rules;
     _set_args_inference_rules := base_inference_rules code_editor_schema;
     _execute := code_editor_execute |}.

(** The instance fields after [CodeEditorTool.__init__]. *)
Definition code_editor_fields : tool_state := set_execution_confirmed true base_fields.

(** *** [CDSHistoricNotebookTool] *)

Definition dataset_of_name (s : string) : option InputHistoricCDSDataset :=
  if String.eqb s "reanalysis_era5_land_monthly_means"
  then Some reanalysis_era5_land_monthly_means
  else if String.eqb s "reanalysis_era5_land" then Some reanalysis_era5_land
  else None.

Definition variable_of_name (s : string) : option InputHistoricVariable :=
  if String.eqb s "total_precipitation" then Some total_precipitation
  else if String.eqb s "temperature" then Some temperature
  else None.

(** [InputHistoricCDSDataset.from_str] on the text of its argument. *)
Definition dataset_from_text (alias : string) : option InputHistoricCDSDataset :=
  match dataset_of_name alias with
  | Some m => Some m
  | None =>
      match dataset_of_name (replace_char "-" "_" alias) with
      | Some m => Some m
      | None =>
          if String.eqb alias "InputHistoricCDSDataset.reanalysis_era5_land_monthly_means"
          then Some reanalysis_era5_land_monthly_means
          else if contains "month" alias then Some reanalysis_era5_land_monthly_means
          else if String.eqb alias "InputHistoricCDSDataset.reanalysis_era5_land"
          then Some reanalysis_era5_land
          else if contains "hour" alias then Some reanalysis_era5_land
          else None
      end
  end.

(** [InputHistoricCDSDataset.from_str(alias, raise_error)]: the membership
    test needs a hashable alias, [replace] a string. *)
Definition dataset_from_str (alias : value) (raise_error : bool) : M value :=
  match alias with
  | VList _ | VDict _ => raise TypeError
  | VNone | VBool _ | VInt _ | VFloat _ | VTuple _ => raise AttributeError
  | VStr _ | VDataset _ | VVariable _ =>
      match dataset_from_text (default "" (text_of alias)) with
      | Some m => ret (VDataset m)
      | None => if raise_error then raise ValueError else ret VNone
      end
  end.

Definition variable_from_text (alias : string) : option InputHistoricVariable :=
  match variable_of_name alias with
  | Some m => Some m
  | None =>
      if contains "prec" alias then Some total_precipitation
      else if contains "temp" alias then Some temperature
      else None
  end.

Definition is_text (s : string) (v : value) : bool :=
  match text_of v with
  | Some s' => String.eqb s s'
  | None => false
  end.

(** [InputHistoricVariable.from_str(alias, raise_error)]: on a tuple the
    two [in] tests are membership tests. *)
Definition variable_from_str (alias : value) (raise_error : bool) : M value :=
  match alias with
  | VList _ | VDict _ | VNone | VBool _ | VInt _ | VFloat _ => raise TypeError
  | VTuple l =>
      if existsb (is_text "prec") l then ret (VVariable total_precipitation)
      else if existsb (is_text "temp") l then ret (VVariable temperature)
      else if raise_error then raise ValueError else ret VNone
  | VStr _ | VDataset _ | VVariable _ =>
      match variable_from_text (default "" (text_of alias)) with
      | Some m => ret (VVariable m)
      | None => if raise_error then raise ValueError else ret VNone
      end
  end.

Definition as_icisk (v : value) : M string :=
  match v with
  | VVariable total_precipitation => ret "tp"
  | VVariable temperature => ret "t2m"
  | _ => raise AttributeError
  end.

Fixpoint mapM {A B : Type} (f : A -> M B) (l : list A) : M (list B) :=
  match l with
  | [] => ret []
  | x :: l' =>
      let* y := f x in
      let* ys := mapM f l' in
      ret (y :: ys)
  end.

(** [[v for v in l if from_str(v) is None]]. *)
Fixpoint invalid_variables (l : list value) : M (list value) :=
  match l with
  | [] => ret []
  | v :: l' =>
      let* m := variable_from_str v false in
      let* rest := invalid_variables l' in
      ret (if is_none m then v :: rest else rest)
  end.

Definition no_default (text : string) : FieldInfo :=
  {| is_required := true; description := text; default_value := VNone |}.
Definition default_none (text : string) : FieldInfo :=
  {| is_required := false; description := text; default_value := VNone |}.

(** [CDSHistoricNotebookTool.InputSchema]; the descriptions are abridged
    to their first sentence. *)
Definition cds_historic_schema : ArgsSchema :=
  [ ("historic_dataset",
     no_default "The historic dataset to be used for the data retrieval.");
    ("historic_variables",
     no_default "List of historic variables to be retrieved from the CDS API.");
    ("area", no_default "The area of interest for the historic data.");
    ("start_time", default_none "The start datetime provided in UTC-0 YYYY-MM-DD.");
    ("end_time", default_none "The end date provided in UTC-0 YYYY-MM-DD.");
    ("zarr_output",
     default_none "The path to the output zarr file with the historic data.");
    ("jupyter_notebook",
     default_none "The path to the jupyter notebook that was used to build the data ingest procedure.") ].

Definition area_rule : rule := fun ka =>
  let* area := getitem ka "area" in
  match area with
  | VList l =>
      if negb (Nat.eqb (length l) 4) then
        ret (VStr ("Invalid area coordinates: " +:+ py_str area
                   +:+ ". It should be a list of 4 float values representing the bounding box [min_x, min_y, max_x, max_y]."))
      else ret VNone
  | _ => ret VNone
  end.

(** The first rule of a time argument: the text must parse as a date. *)
Definition format_rule (arg label : string) : rule := fun ka =>
  let* t := getitem ka arg in
  if negb (is_none t) &&
     match try_strptime t "%Y-%m-%d" with None => true | Some _ => false end
  then ret (VStr ("Invalid " +:+ label +:+ ": " +:+ py_str t
                  +:+ ". It should be in the format YYYY-MM-DD."))
  else ret VNone.

Definition cds_historic_validation_rules : dict (list rule) :=
  [ ("historic_dataset",
     [ fun ka =>
         let* alias := getitem ka "historic_dataset" in
         let* m := dataset_from_str alias false in
         if is_none m then
           ret (VStr ("Invalid historic dataset: " +:+ py_str alias
                      +:+ ". It should be a list of valid CDS historic dataset: [['reanalysis_era5_land_monthly_means', 'reanalysis_era5_land']]."))
         else ret VNone ]);
    ("historic_variables",
     [ fun ka =>
         let* hv := getitem ka "historic_variables" in
         let* l := lift (iterate hv) in
         let* bad := invalid_variables l in
         if (0 <? length bad)%nat then
           ret (VStr ("Invalid historic variables: " +:+ py_str (VList bad)
                      +:+ ". It should be a list of valid CDS historic variables: [['total_precipitation', 'temperature']]."))
         else ret VNone ]);
    ("area", [ area_rule ]);
    ("start_time",
     [ format_rule "start_time" "start time";
       fun ka =>
         let* t := getitem ka "start_time" in
         if is_none t then ret VNone
         else
           let* d := strptime_value t "%Y-%m-%d" in
           let* w := get_world in
           if dt_gt d (replace_day_1 (now w)) then
             ret (VStr ("Invalid start time: " +:+ py_str t
                        +:+ ". It should be in the past, at least in the previous month."))
           else ret VNone ]);
    ("end_time",
     [ format_rule "end_time" "end time";
       fun ka =>
         let* s := getitem ka "start_time" in
         if is_none s then ret VNone
         else
           let* e := getitem ka "end_time" in
           if is_none e then ret VNone
           else
             match try_strptime e "%Y-%m", try_strptime s "%Y-%m" with
             | Some de, Some ds =>
                 if dt_le de ds then
                   ret (VStr ("Invalid end time: " +:+ py_str e
                              +:+ ". It should be at least one month after the init time."))
                 else ret VNone
             | _, _ => ret VNone
             end;
       fun ka =>
         let* e := getitem ka "end_time" in
         if is_none e then ret VNone
         else
           let* d := strptime_value e "%Y-%m-%d" in
           let* w := get_world in
           if dt_ge d (replace_day_1 (now w)) then
             ret (VStr ("Invalid end time: " +:+ py_str e
                        +:+ ". It should be at least in the previous month with respect to the current date"))
           else ret VNone ]) ].

(** [bounding_box_from_location_name] inside [infer_area]. *)
Definition bounding_box_from_location_name (area : value) : M value :=
  match area with
  | VStr place =>
      let* box := ask_llm (BoundingBoxOf place) true in
      do modify_self (set_execution_confirmed false) then
      ret box
  | _ => ret area
  end.

(** [round_bounding_box] inside [infer_area]. *)
Definition round_bounding_box (area : value) : M value :=
  match area with
  | VList _ =>
      let* a0 := lift (py_index area 0) in
      let* x0 := lift (floor_decimals a0 1) in
      let* a1 := lift (py_index area 1) in
      let* x1 := lift (floor_decimals a1 1) in
      let* a2 := lift (py_index area 2) in
      let* x2 := lift (ceil_decimals a2 1) in
      let* a3 := lift (py_index area 3) in
      let* x3 := lift (ceil_decimals a3 1) in
      ret (VList [x0; x1; x2; x3])
  | _ => ret area
  end.

Definition infer_historic_dataset : rule := fun ka =>
  let* alias := getitem ka "historic_dataset" in
  dataset_from_str alias true.

(** The list of unique members is computed and dropped: the function
    returns the converted list itself. *)
Definition infer_historic_variables : rule := fun ka =>
  let* hv := getitem ka "historic_variables" in
  let* l := lift (iterate hv) in
  let* historic_variables := mapM (fun v => variable_from_str v true) l in
  let* hv' := getitem ka "historic_variables" in
  let* l' := lift (iterate hv') in
  let* result := mapM (fun v => variable_from_str v true) l' in
  ret (VList result).

Definition infer_area : rule := fun ka =>
  let* area := getitem ka "area" in
  let* area := bounding_box_from_location_name area in
  round_bounding_box area.

Definition infer_start_time : rule := fun ka =>
  let* start_time := getitem ka "start_time" in
  if is_none start_time then
    let* w := get_world in
    ret (VStr (strftime (relativedelta_month 2 (to_date (now w))) "%Y-%m-01"))
  else
    let* end_time := getitem ka "end_time" in
    if is_none end_time then ret start_time
    else
      let* later := lift (py_gt start_time end_time) in
      if later then ret end_time else ret start_time.

Definition infer_end_time : rule := fun ka =>
  let* end_time := getitem ka "end_time" in
  if is_none end_time then
    let* w := get_world in
    ret (VStr (strftime (relativedelta_month 1 (to_date (now w))) "%Y-%m-01"))
  else
    let* start_time := getitem ka "start_time" in
    if is_none start_time then ret end_time
    else
      let* earlier := lift (py_lt end_time start_time) in
      if earlier then ret start_time else ret end_time.

(** The name given to an output that has none. *)
Definition default_output_name (ka : pydict) (extension : string) : M value :=
  let* hv := getitem ka "historic_variables" in
  let* l := lift (iterate hv) in
  let* names := mapM as_icisk l in
  let* w := get_world in
  ret (VStr ("icisk-ai_cds-historic-" +:+ join "-" names +:+ "_"
             +:+ replace_char ":" "-" (isoformat (now w)) +:+ extension)).

(** [infer_zarr_output] and [infer_jupyter_notebook] differ in the
    argument and the extension only. *)
Definition infer_output_name (arg extension : string) : rule := fun ka =>
  let* current := getitem ka arg in
  if is_none current then default_output_name ka extension
  else
    match text_of current with
    | Some s =>
        if negb (endswith s extension) then ret (VStr (py_str current +:+ extension))
        else ret current
    | None => raise AttributeError
    end.

Definition cds_historic_inference_rules : dict (option rule) :=
  [ ("historic_dataset", Some infer_historic_dataset);
    ("historic_variables", Some infer_historic_variables);
    ("area", Some infer_area);
    ("start_time", Some infer_start_time);
    ("end_time", Some infer_end_time);
    ("zarr_output", Some (infer_output_name "zarr_output" ".zarr"));
    ("jupyter_notebook", Some (infer_output_name "jupyter_notebook" ".ipynb")) ].

(** [InputHistoricCDSDataset(v)] and [InputHistoricVariable(v)]: the member
    with that value. *)
Definition dataset_of_value (v : value) : M InputHistoricCDSDataset :=
  match text_of v with
  | Some s =>
      if String.eqb s (dataset_value reanalysis_era5_land_monthly_means)
      then ret reanalysis_era5_land_monthly_means
      else if String.eqb s (dataset_value reanalysis_era5_land)
      then ret reanalysis_era5_land
      else raise ValueError
  | None => raise ValueError
  end.

Definition variable_of_value (v : value) : M InputHistoricVariable :=
  match text_of v with
  | Some s =>
      if String.eqb s (variable_value total_precipitation) then ret total_precipitation
      else if String.eqb s (variable_value temperature) then ret temperature
      else raise ValueError
  | None => raise ValueError
  end.

Definition as_cds (m : InputHistoricVariable) : string :=
  match m with
  | total_precipitation => "total_precipitation"
  | temperature => "2m_temperature"
  end.

Definition icisk_name (m : InputHistoricVariable) : string :=
  match m with
  | total_precipitation => "tp"
  | temperature => "t2m"
  end.

(** [prepare_notebook]: the stored notebook of that name or a new one,
    extended with the cells of the template. *)
Definition prepare_notebook (template : string) (jupyter_notebook : value) : M Notebook :=
  let* author := current_user in
  let* found := notebook_by_name author jupyter_notebook in
  let nb :=
    default {| nb_name := jupyter_notebook; nb_authors := author; nb_cells := [] |} found in
  let nb' :=
    {| nb_name := nb_name nb; nb_authors := nb_authors nb;
       nb_cells := nb_cells nb ++ notebook_template template |} in
  do modify_self (set_notebook (Some nb')) then
  ret nb'.

(** [CDSHistoricNotebookTool._execute]. *)
Definition cds_historic_execute (ka : pydict) : M value :=
  let* historic_dataset := keyword ka "historic_dataset" in
  let* historic_variables := keyword ka "historic_variables" in
  let* area := keyword ka "area" in
  let* start_time := keyword ka "start_time" in
  let* end_time := keyword ka "end_time" in
  let* zarr_output := keyword ka "zarr_output" in
  let* jupyter_notebook := keyword ka "jupyter_notebook" in
  let* nb := prepare_notebook "nbt_cds_historic" jupyter_notebook in
  let* dataset := dataset_of_value historic_dataset in
  let mode := VStr (replace_char "_" "-" (dataset_value dataset)) in
  let* l := lift (iterate historic_variables) in
  let* members := mapM variable_of_value l in
  let* l' := lift (iterate historic_variables) in
  let* members' := mapM variable_of_value l' in
  let* l'' := lift (iterate historic_variables) in
  let* members'' := mapM variable_of_value l'' in
  let nb_values : pydict :=
    [ ("historic_dataset", mode);
      ("historic_variables", VList (map (fun m => VStr (as_cds m)) members));
      ("area", area);
      ("start_time", start_time);
      ("end_time", end_time);
      ("zarr_output", zarr_output);
      ("historic_variables_icisk", VList (map (fun m => VStr (icisk_name m)) members'));
      ("dataset_var_name",
       VStr ("dataset_cds_historic_" +:+ join "_" (map icisk_name members''))) ] in
  let nb_values :=
    dict_set "dataset_var_description" (VStr (dataset_var_description nb_values)) nb_values in
  let nb' :=
    {| nb_name := nb_name nb; nb_authors := nb_authors nb;
       nb_cells := write_notebook_template (nb_cells nb) nb_values mode |} in
  do modify_self (set_notebook (Some nb')) then
  do save_notebook nb' then
  do modify_self (set_execution_confirmed false) then
  ret (VDict [("data_source", zarr_output); ("notebook", jupyter_notebook)]).

Definition CDSHistoricNotebookTool : BaseAgentTool :=
  {| name := CDS_HISTORIC_NOTEBOOK_TOOL;
     args_schema := cds_historic_schema;
     _set_args_validation_rules := cds_historic_validation_rules;
     _set_args_inference_rules := cds_historic_inference_rules;
     _execute := cds_historic_execute |}.

(** The instance fields after [CDSHistoricNotebookTool.__init__]. *)
Definition cds_historic_fields : tool_state := set_output_confirmed true base_fields.

(** The dictionary [CDSHistoricNotebookTool._run] builds from its keyword
    arguments. *)
Definition cds_historic_tool_args
    (historic_dataset historic_variables area start_time end_time zarr_output
       jupyter_notebook : value) : pydict :=
  [ ("historic_dataset", historic_dataset);
    ("historic_variables", historic_variables);
    ("area", area);
    ("start_time", start_time);
    ("end_time", end_time);
    ("zarr_output", zarr_output);
    ("jupyter_notebook", jupyter_notebook) ].

(** *** [SPIForecastNotebookTool] *)

Definition spi_forecast_schema : ArgsSchema :=
  [ ("area", no_default "The area of interest for the forecast data.");
    ("reference_period",
     {| is_required := false;
        description := "Tuple of two integere representing the start and end year of the reference period. Default is (1981, 2010).";
        default_value := VTuple [VInt 1981; VInt 2010] |});
    ("init_time",
     default_none "The date of the forecast initialization provided in UTC-0 YYYY-MM-DD.");
    ("lead_time",
     default_none "The end date of the forecast lead time provided in UTC-0 YYYY-MM-DD.");
    ("jupyter_notebook",
     default_none "The path to the jupyter notebook that was used to build the data ingest procedure.") ].

(** [len(v)]. *)
Definition py_len (v : value) : outcome nat :=
  match v with
  | VList l | VTuple l => Return (length l)
  | VDict d => Return (length d)
  | VNone | VBool _ | VInt _ | VFloat _ => Raised TypeError
  | VStr _ | VDataset _ | VVariable _ =>
      Return (String.length (default "" (text_of v)))
  end.

Definition spi_forecast_validation_rules : dict (list rule) :=
  [ ("area", [ area_rule ]);
    ("reference_period",
     [ fun ka =>
         let* p := getitem ka "reference_period" in
         let wrong :=
           match p with
           | VTuple l | VList l => negb (Nat.eqb (length l) 2)
           | _ => true
           end in
         if wrong then
           ret (VStr ("Invalid reference_period: " +:+ py_str p
                      +:+ ". It should be a tuple of start and ending year as integers."))
         else ret VNone;
       fun ka =>
         let* p := getitem ka "reference_period" in
         let* last_year := lift (py_index p 1) in
         let* w := get_world in
         let* future := lift (py_gt_int last_year (year (now w))) in
         if future then
           ret (VStr ("Invalid reference_period: " +:+ py_str p
                      +:+ ". It should be in the past, at least in the previous year."))
         else ret VNone ]);
    ("init_time",
     [ format_rule "init_time" "initialization time";
       fun ka =>
         let* t := getitem ka "init_time" in
         if is_none t then ret VNone
         else
           let* d := strptime_value t "%Y-%m-%d" in
           let* w := get_world in
           if dt_gt d (now w) then
             ret (VStr ("Invalid initialization time: " +:+ py_str t
                        +:+ ". It should be in the past, at least in the previous month."))
           else ret VNone ]);
    ("lead_time",
     [ format_rule "lead_time" "lead time";
       fun ka =>
         let* i := getitem ka "init_time" in
         if is_none i then ret VNone
         else
           let* l := getitem ka "lead_time" in
           if is_none l then ret VNone
           else
             match try_strptime l "%Y-%m-%d", try_strptime i "%Y-%m-%d" with
             | Some dl, Some di =>
                 if dt_lt dl di then
                   ret (VStr ("Invalid lead time: " +:+ py_str l
                              +:+ ". It should be in the after the init time."))
                 else ret VNone
             | _, _ => ret VNone
             end;
       fun ka =>
         let* l := getitem ka "lead_time" in
         if is_none l then ret VNone
         else
           let* d := strptime_value l "%Y-%m-%d" in
           let* w := get_world in
           if dt_gt d (relativedelta_months 6 (replace_day_1 (now w))) then
             ret (VStr ("Invalid lead time: " +:+ py_str l
                        +:+ ". It should be no more than 6 months in the future."))
           else ret VNone ]);
    ("jupyter_notebook",
     [ fun ka =>
         let* n := getitem ka "jupyter_notebook" in
         if is_none n then ret VNone
         else
           match text_of n with
           | Some s =>
               if negb (endswith (lower s) ".ipynb") then
                 ret (VStr ("Invalid notebook path: " +:+ py_str n
                            +:+ ". It should be a valid jupyter notebook file path."))
               else ret VNone
           | None => raise AttributeError
           end ]) ].

Definition spi_forecast_inference_rules : dict (option rule) :=
  [ ("area",
     Some (fun ka =>
             let* area := getitem ka "area" in
             bounding_box_from_location_name area));
    ("init_time",
     Some (fun ka =>
             let* t := getitem ka "init_time" in
             if is_none t then
               let* w := get_world in
               ret (VStr (strftime (replace_day_1 (now w)) "%Y-%m-%d"))
             else ret t));
    ("lead_time",
     Some (fun ka =>
             let* t := getitem ka "lead_time" in
             if is_none t then
               let* w := get_world in
               ret (VStr (strftime (relativedelta_month 1 (replace_day_1 (now w)))
                            "%Y-%m-%d"))
             else ret t));
    ("jupyter_notebook",
     Some (fun ka =>
             let* n := getitem ka "jupyter_notebook" in
             if is_none n then
               let* w := get_world in
               ret (VStr ("icisk-ai_spi-forecast_"
                          +:+ replace_char ":" "-" (isoformat (now w)) +:+ ".ipynb"))
             else ret n)) ].

(** [SPIForecastNotebookTool._execute]. *)
Definition spi_forecast_execute (ka : pydict) : M value :=
  let* area := keyword ka "area" in
  let* reference_period := keyword ka "reference_period" in
  let* init_time := keyword ka "init_time" in
  let* lead_time := keyword ka "lead_time" in
  let* jupyter_notebook := keyword ka "jupyter_notebook" in
  let* nb := prepare_notebook "nbt_spi_forecast" jupyter_notebook in
  let nb_values : pydict :=
    [ ("area", area); ("reference_period", reference_period);
      ("init_time", init_time); ("lead_time", lead_time) ] in
  let nb' :=
    {| nb_name := nb_name nb; nb_authors := nb_authors nb;
       nb_cells := write_notebook_template (nb_cells nb) nb_values VNone |} in
  do modify_self (set_notebook (Some nb')) then
  do save_notebook nb' then
  do modify_self (set_execution_confirmed false) then
  ret (VDict [("notebook", jupyter_notebook)]).

Definition SPIForecastNotebookTool : BaseAgentTool :=
  {| name := SPI_FORECAST_NOTEBOOK_TOOL;
     args_schema := spi_forecast_schema;
     _set_args_validation_rules := spi_forecast_validation_rules;
     _set_args_inference_rules := spi_forecast_inference_rules;
     _execute := spi_forecast_execute |}.

(** The instance fields after [SPIForecastNotebookTool.__init__]. *)
Definition spi_forecast_fields : tool_state := set_output_confirmed true base_fields.

(** A tool that overrides nothing: the hooks of [BaseAgentTool] itself. *)
Definition plain_tool (tool_name : string) (schema : ArgsSchema) : BaseAgentTool :=
  {| name := tool_name;
     args_schema := schema;
     _set_args_validation_rules := base_validation_rules schema;
     _set_args_inference_rules := base_inference_rules schema;
     _execute := base_execute |}.

(** The class attribute [BaseToolInterruptNode.tool_interupt_handlers] as
    the class body defines it. *)
Definition default_tool_interupt_handlers : gmap string BaseToolInterruptHandler :=
  <[PROVIDE_ARGS := BaseToolInterruptProvideArgsHandler]>
  (<[INVALID_ARGS := BaseToolInterruptInvalidArgsHandler]>
  (<[CONFIRM_ARGS := BaseToolInterruptArgsConfirmationHandler]>
  (<[CONFIRM_OUTPUT := BaseToolInterruptOutputConfirmationHandler]> ∅))).

End Tools.


(** Every required field of the schema is a key of the argument
    dictionary, as in the dictionaries the tools' own [_run] build. *)
Definition covers_required (schema : ArgsSchema) (tool_args : pydict) : bool :=
  forallb (fun kv => negb (is_required (snd kv))
                     || match dict_get (fst kv) tool_args with
                        | Some _ => true
                        | None => false
                        end) schema.

(** ** Notions used in the statements *)

(** What the inner loop leaves in [invalid_args] when the rules of [arg]
    answer [results]. *)
Definition recorded (arg : string) (results : list value) (invalid_args : pydict) : pydict :=
  fold_left (fun acc v => if is_none v then acc else dict_set arg v acc)
    results invalid_args.

(** The result [r'] is the result [r] of a phase that did not return: the
    same interrupt or exception, the same tool fields, the same world. *)
Definition ends_as {A B : Type} (r : outcome A * tool_state * world)
    (r' : outcome B * tool_state * world) : Prop :=
  match r with
  | (Return _, _, _) => True
  | (Interrupted i, st, w) => r' = (Interrupted i, st, w)
  | (Raised e, st, w) => r' = (Raised e, st, w)
  end.

(** The execution body clears [execution_confirmed] before it returns. *)
Definition resets_execution (t : BaseAgentTool) : Prop :=
  forall ka st w v st' w',
    _execute t ka st w = (Return v, st', w') -> execution_confirmed st' = false.


(** An interrupt as the base tool raises it: the payload has the shape
    of its kind, and an unconfirmed output is a dictionary. *)
Definition raised_by_tool (i : BaseToolInterrupt) : Prop :=
  (interrupt_type i = PROVIDE_ARGS
   /\ exists l s, interrupt_data i = MissingArgsData l s)
  \/ (interrupt_type i = INVALID_ARGS
      /\ exists d s, interrupt_data i = InvalidArgsData d s)
  \/ (interrupt_type i = CONFIRM_ARGS
      /\ exists a s, interrupt_data i = ConfirmArgsData a s)
  \/ (interrupt_type i = CONFIRM_OUTPUT
      /\ exists a o, interrupt_data i = ConfirmOutputData a (VDict o)).

(** The question a handler puts to the language model to interpret the
    human's answer to an interrupt of each kind. *)
Definition interpretation_query (i : BaseToolInterrupt) (pending : ToolCall)
    (response : value) : llm_query :=
  match interrupt_data i with
  | MissingArgsData _ _ => InterpretProvidedArgs (interrupt_reason i) response
  | InvalidArgsData _ _ =>
      InterpretValidArgs (interrupt_reason i) (call_args pending) response
  | ConfirmArgsData a _ => InterpretConfirmArgs (interrupt_reason i) a response
  | ConfirmOutputData a o =>
      ClassifyOutputConfirmation (interrupt_reason i) a
        match o with VDict d => d | _ => [] end response
  end.

Section Statements.
Context `{ext : External}.

(** How the language model's second answer in a handler (the first one
    words the question for the human) is read. *)
Definition interpretation (i : BaseToolInterrupt) (pending : ToolCall)
    (interruption : pydict) (w : world) : value :=
  answer_of
    (llm_invoke (S (llm_calls w))
       (interpretation_query i pending (get_response interruption)))
    true.

(** The directive of the exit branch. *)
Definition exit_directive (id : string) (interruption : pydict) : node_return :=
  Command END
    (exit_update (RemoveMessage id)
       (SystemMessage ("User choose to exit the tool process with this response: "
                       +:+ py_str (get_response interruption)))).

End Statements.

(** The argument dictionary [CodeEditorTool._run] builds. *)
Definition code_editor_tool_args (source code_request : value) : pydict :=
  [ ("source", source); ("code_request", code_request) ].

(** The output of the code editor: the notebook and the generated code. *)
Definition code_editor_output (source : value) (generated_code : string) : value :=
  VDict [("notebook", source); ("generated_code", VStr generated_code)].

(** The notebook [nb] with one more code cell. *)
Definition with_code_cell (nb : Notebook) (code : string) : Notebook :=
  {| nb_name := nb_name nb; nb_authors := nb_authors nb;
     nb_cells := nb_cells nb ++ [{| cell_type := "code"; source := code |}] |}.

(** The code [add_source_code] appends for a generated text: a fenced
    text loses its fence. *)
Definition appended_code (code : string) : string :=
  if String.prefix ("```python" +:+ newline) code
  then before (newline +:+ "```") (before ("```python" +:+ newline) (drop_string 10 code))
  else code.

(** The float nearest to [k / 10]: what Python reads a one-decimal
    literal as, and what one-decimal rounding produces. *)
Definition tenths (k : Z) : float :=
  match int_true_divide k 10 with
  | Return f => f
  | _ => nan
  end.

(** A schema-typed optional string argument. *)
Definition optional_str (s : option string) : value :=
  match s with
  | Some x => VStr x
  | None => VNone
  end.

(** One-decimal rounding maps the float [tenths k] to itself: ten times
    it floors and ceils to [k]. *)
Definition tenth_is_fixed (k : Z) : bool :=
  match float_floor (PrimFloat.mul (tenths k) (Z2F 10)),
        float_ceil (PrimFloat.mul (tenths k) (Z2F 10)),
        int_true_divide k 10 with
  | Return a, Return b, Return _ => (a =? k) && (b =? k)
  | _, _, _ => false
  end.

(** The tenths of a degree from -360 to 360. *)
Definition degree_tenths : list Z :=
  map (fun n => Z.of_nat n - 3600) (seq 0 (Z.to_nat 7201)).

(** A bounding box of four one-decimal coordinates within 360 degrees. *)
Definition degrees_box (v : value) : Prop :=
  exists k0 k1 k2 k3,
    (-3600 <= k0 <= 3600) /\ (-3600 <= k1 <= 3600)
    /\ (-3600 <= k2 <= 3600) /\ (-3600 <= k3 <= 3600)
    /\ v = VList [VFloat (tenths k0); VFloat (tenths k1);
                  VFloat (tenths k2); VFloat (tenths k3)].

(** An area that inference has nothing left to do on: not a place name
    any more, and if a list then a box of degrees. *)
Definition settled_area (v : value) : Prop :=
  match v with
  | VStr _ => False
  | VList _ => degrees_box v
  | _ => True
  end.

Section InferenceStatements.
Context `{ext : External}.

(** The area once a place name has been put to the language model. *)
Definition resolved_area (area : value) (w : world) : value :=
  match area with
  | VStr place => answer_of (llm_invoke (llm_calls w) (BoundingBoxOf place)) true
  | _ => area
  end.

(** [round_bounding_box] succeeds on [v]. *)
Definition rounds (v : value) : Prop :=
  exists r, forall st w, round_bounding_box v st w = (Return r, st, w).

End InferenceStatements.

Section InferredValues.
Context `{ext : External}.

(** What [infer_start_time], [infer_end_time] and the two output names come
    to on schema-typed arguments.  The end time is inferred after the start
    time and so reads the inferred start. *)
Definition inferred_start (s e : option string) (w : world) : string :=
  match s with
  | None => strftime (relativedelta_month 2 (to_date (now w))) "%Y-%m-01"
  | Some x =>
      match e with
      | None => x
      | Some y => if str_gt x y then y else x
      end
  end.

Definition inferred_end (start : string) (e : option string) (w : world) : string :=
  match e with
  | None => strftime (relativedelta_month 1 (to_date (now w))) "%Y-%m-01"
  | Some y => if str_gt start y then start else y
  end.

Definition inferred_name (members : list InputHistoricVariable) (z : option string)
    (extension : string) (w : world) : string :=
  match z with
  | None =>
      "icisk-ai_cds-historic-" +:+ join "-" (map icisk_name members) +:+ "_"
      +:+ replace_char ":" "-" (isoformat (now w)) +:+ extension
  | Some x => if endswith x extension then x else py_str (VStr x) +:+ extension
  end.

(** The tool and the world after [infer_area]: a place name costs one call
    of the language model and clears [execution_confirmed]. *)
Definition after_area (area : value) (st : tool_state) : tool_state :=
  match area with
  | VStr _ => set_execution_confirmed false st
  | _ => st
  end.

Definition after_area_world (area : value) (w : world) : world :=
  match area with
  | VStr _ => count_llm_call w
  | _ => w
  end.

End InferredValues.
(** ** Collaborators and inputs of the examples *)

Definition digit_of (c : ascii) : option Z :=
  let n := Z.of_nat (nat_of_ascii c) in
  if (48 <=? n) && (n <=? 57) then Some (n - 48) else None.

Fixpoint number_of (acc : Z) (s : string) : option Z :=
  match s with
  | EmptyString => Some acc
  | String c s' =>
      match digit_of c with
      | Some d => number_of (10 * acc + d) s'
      | None => None
      end
  end.

Fixpoint split_on (sep : ascii) (s : string) : list string :=
  match s with
  | EmptyString => [EmptyString]
  | String c s' =>
      if Ascii.eqb c sep then EmptyString :: split_on sep s'
      else match split_on sep s' with
           | [] => [String c EmptyString]
           | x :: l => String c x :: l
           end
  end.

Definition number_field (min_len max_len : nat) (s : string) : option Z :=
  if (min_len <=? String.length s)%nat && (String.length s <=? max_len)%nat
  then number_of 0 s else None.

(** A reader of the two date formats the rules use: a four-digit year,
    a month and a day of one or two digits, and a date that exists. *)
Definition read_date (s fmt : string) : option datetime :=
  match split_on "-" s with
  | [y; m; d] =>
      if String.eqb fmt "%Y-%m-%d" then
        match number_field 4 4 y, number_field 1 2 m, number_field 1 2 d with
        | Some yy, Some mm, Some dd =>
            if (1 <=? yy) && (1 <=? mm) && (mm <=? 12) && (1 <=? dd)
               && (dd <=? days_in_month yy mm)
            then Some {| year := yy; month := mm; day := dd; time_of_day := 0 |}
            else None
        | _, _, _ => None
        end
      else None
  | [y; m] =>
      if String.eqb fmt "%Y-%m" then
        match number_field 4 4 y, number_field 1 2 m with
        | Some yy, Some mm =>
            if (1 <=? yy) && (1 <=? mm) && (mm <=? 12)
            then Some {| year := yy; month := mm; day := 1; time_of_day := 0 |}
            else None
        | _, _ => None
        end
      else None
  | _ => None
  end.

Set Warnings "-inexact-float".

(** The Python literals the examples let the language model answer with;
    no other reply used below is a literal. *)
Definition literals : dict value :=
  [ ("None", VNone);
    ("True", VBool true);
    ("False", VBool false);
    ("[6.6, 35.4]", VList [VFloat (tenths 66); VFloat (tenths 354)]);
    ("[6.61, 35.48, 18.52, 47.1]",
     VList [VFloat 6.61%float; VFloat 35.48%float; VFloat 18.52%float;
            VFloat 47.1%float]);
    ("{}", VDict []);
    ("{'code_request': 'plot the data'}",
     VDict [("code_request", VStr "plot the data")]) ].

(** A printer for the values the examples put into messages: numbers in
    decimal (a float as a placeholder), strings as they are at top level
    and quoted inside a sequence. *)
Fixpoint show_in (quoted : bool) (v : value) : string :=
  match v with
  | VNone => "None"
  | VBool true => "True"
  | VBool false => "False"
  | VInt z => NilZero.string_of_int (Z.to_int z)
  | VFloat _ => "<float>"
  | VStr s => if quoted then "'" +:+ s +:+ "'" else s
  | VDataset m => dataset_value m
  | VVariable m => variable_value m
  | VList l => "[" +:+ join ", " (map (show_in true) l) +:+ "]"
  | VTuple l => "(" +:+ join ", " (map (show_in true) l) +:+ ")"
  | VDict d =>
      "{" +:+ join ", " (map (fun kv => "'" +:+ fst kv +:+ "': " +:+ show_in true (snd kv)) d)
      +:+ "}"
  end.

Definition show (v : value) : string := show_in false v.

(** Collaborators around a given language model. *)
Definition collaborators (llm : nat -> llm_query -> string) : External :=
  {| llm_invoke := llm;
     literal_eval := fun s => dict_get s literals;
     py_str := show;
     strptime := read_date;
     strftime := fun d fmt => fmt;
     isoformat := fun d => "2025-06-15T10:30:00";
     write_notebook_template := fun cells values mode => cells;
     notebook_template := fun template => [{| cell_type := "code"; source := template |}];
     dataset_var_description := fun values => "" |}.

Definition mid_june_2025 : datetime :=
  {| year := 2025; month := 6; day := 15; time_of_day := 37800000000 |}.

Definition empty_world : world :=
  {| llm_calls := 0; now := mid_june_2025; notebooks := ∅; saved := [];
     executed := [] |}.

Definition ada_state (ms : list message) : GraphState :=
  {| messages := ms; user_id := "ada"; node_params := ∅ |}.


(** A language model that always answers [None]. *)
Definition silent : External := collaborators (fun _ _ => "None").

Definition cds_ingestor_tool_handler : BaseToolHandlerNode :=
  {| handler_node_name := CDS_INGESTOR_TOOL_HANDLER;
     handler_interrupt_node_name := CDS_INGESTOR_TOOL_INTERRUPT;
     additional_node_params := Some ∅;
     additional_requested_agent := Some VNone |}.

Definition cds_ingestor_tool_interrupt : BaseToolInterruptNode :=
  {| tool_handler_node_name := CDS_INGESTOR_TOOL_HANDLER;
     tool_interrupt_node_name := CDS_INGESTOR_TOOL_INTERRUPT |}.

Definition code_editor_tool_handler : BaseToolHandlerNode :=
  {| handler_node_name := CODE_EDITOR_TOOL_HANDLER;
     handler_interrupt_node_name := CODE_EDITOR_TOOL_INTERRUPT;
     additional_node_params := Some ∅;
     additional_requested_agent := Some VNone |}.

(** A call of a tool no registry knows. *)
Definition stray_call : ToolCall :=
  {| call_name := "weather_tool"; call_args := []; call_id := "call_0" |}.

(** An interrupt of a kind no strategy is registered for. *)
Definition odd_interrupt : BaseToolInterrupt :=
  {| interrupt_tool := CDS_HISTORIC_NOTEBOOK_TOOL;
     interrupt_type := "CONFIRM_COST";
     interrupt_reason := "Please confirm the cost.";
     interrupt_data := ConfirmArgsData [] [] |}.

Definition odd_state : GraphState :=
  {| messages := [AIMessage "m1" [stray_call]];
     user_id := "ada";
     node_params :=
       {[ CDS_INGESTOR_TOOL_INTERRUPT :=
            InterruptParams (AIMessage "m1" [stray_call]) odd_interrupt
              CDS_INGESTOR_TOOL_HANDLER ]} |}.

Definition cds_registry (ext : External) : gmap string tool_object :=
  {[ CDS_HISTORIC_NOTEBOOK_TOOL :=
       {| tool_class := @CDSHistoricNotebookTool ext; fields := cds_historic_fields |} ]}.

(** The custom handlers of the code editor sub-flow. *)
Definition code_editor_custom_handlers (ext : External)
  : gmap string BaseToolInterruptHandler :=
  {[ CONFIRM_OUTPUT := @CodeEditorToolInterruptOutputConfirmationHandler ext ]}.

(** The dataset is missing and the start time is not a date. *)
Definition no_dataset_bad_start : pydict :=
  cds_historic_tool_args VNone (VList [VStr "temperature"])
    (VList [VFloat (tenths 66); VFloat (tenths 354);
            VFloat (tenths 186); VFloat (tenths 471)])
    (VStr "tomorrow") VNone VNone VNone.

(** A reference period of three years, the second one in the future. *)
Definition three_year_period : pydict :=
  [ ("area", VList [VFloat (tenths 66); VFloat (tenths 354);
                    VFloat (tenths 186); VFloat (tenths 471)]);
    ("reference_period", VTuple [VInt 1990; VInt 2090; VInt 2100]);
    ("init_time", VNone);
    ("lead_time", VNone);
    ("jupyter_notebook", VNone) ].

(** Valid arguments but for a start time that is not a date. *)
Definition bad_start : pydict :=
  cds_historic_tool_args (VStr "reanalysis-era5-land") (VList [VStr "temperature"])
    (VList [VFloat (tenths 66); VFloat (tenths 354);
            VFloat (tenths 186); VFloat (tenths 471)])
    (VStr "tomorrow") VNone VNone VNone.

(** A language model that answers every question with an empty
    dictionary: nothing to change. *)
(** Arguments without an area, naming a dataset the tool does not know. *)
Definition no_area_unknown_dataset : pydict :=
  cds_historic_tool_args (VStr "era6") (VList [VStr "temperature"]) VNone VNone VNone
    VNone VNone.

(** The same arguments with the area given as a bounding box. *)
Definition unknown_dataset : pydict :=
  cds_historic_tool_args (VStr "era6") (VList [VStr "temperature"])
    (VList [VFloat 6.61%float; VFloat 35.48%float; VFloat 18.52%float;
            VFloat 47.1%float])
    VNone VNone VNone VNone.

Definition agreeable : External := collaborators (fun _ _ => "{}").

Definition plain_call : ToolCall :=
  {| call_name := "plain_tool"; call_args := []; call_id := "call_1" |}.

(** Valid arguments with the area given as a bounding box. *)
Definition alpine_box : pydict :=
  cds_historic_tool_args (VStr "reanalysis-era5-land") (VList [VStr "temperature"])
    (VList [VFloat 6.61%float; VFloat 35.48%float; VFloat 18.52%float;
            VFloat 47.1%float])
    (VStr "2024-01-01") (VStr "2024-03-01") (VStr "alps") (VStr "alps.ipynb").

(** The fields of a CDS historic tool bound to a conversation of the user
    [ada], after the user has confirmed the arguments. *)
Definition cds_confirmed_fields : tool_state :=
  set_execution_confirmed true (set_graph_state (ada_state []) cds_historic_fields).

(** A tool with the hooks of the base class that, like the notebook tools,
    sets [output_confirmed] at construction. *)
Definition plain_fields : tool_state := set_output_confirmed true base_fields.

Definition plain_message : message := AIMessage "m1" [plain_call].

(** The model asked for historic data without naming a dataset. *)
Definition cds_call_without_dataset : ToolCall :=
  {| call_name := CDS_HISTORIC_NOTEBOOK_TOOL;
     call_args :=
       [ ("historic_dataset", VNone);
         ("historic_variables", VList [VStr "temperature"]);
         ("area", VStr "Italy") ];
     call_id := "call_7" |}.

Definition cds_missing_dataset_interrupt : BaseToolInterrupt :=
  {| interrupt_tool := CDS_HISTORIC_NOTEBOOK_TOOL;
     interrupt_type := PROVIDE_ARGS;
     interrupt_reason := "Missing required arguments: ['historic_dataset'].";
     interrupt_data := MissingArgsData ["historic_dataset"] cds_historic_schema |}.

(** [Some x] unwrapped, for reading a registry in an example. *)
Definition fields_of (tools : gmap string tool_object) (tool_name : string) : tool_state :=
  default base_fields (fields <$> tools !! tool_name).

(** A language model whose every reply is a sentence, not a literal. *)
Definition puzzled : External := collaborators (fun _ _ => "I cannot tell").

Definition code_editor_call : ToolCall :=
  {| call_name := CODE_EDITOR_TOOL;
     call_args := [("source", VStr "analysis.ipynb"); ("code_request", VStr "plot the data")];
     call_id := "call_3" |}.

(** The interrupt the code editor raises to have its first answer
    confirmed. *)
Definition code_editor_output_interrupt (generated_code : string) : BaseToolInterrupt :=
  {| interrupt_tool := CODE_EDITOR_TOOL;
     interrupt_type := CONFIRM_OUTPUT;
     interrupt_reason := "A user confirmation of the ouput is required.";
     interrupt_data :=
       ConfirmOutputData (call_args code_editor_call)
         (VDict [("notebook", VStr "analysis.ipynb");
                 ("generated_code", VStr generated_code)]) |}.

(** A language model that writes the code, words the questions and reads
    the human's answer to an output confirmation as an approval. *)
Definition coder : External :=
  collaborators
    (fun _ q =>
       match q with
       | GenerateCode _ _ => "plot(data)"
       | ClassifyOutputConfirmation _ _ _ _ => "True"
       | _ => "Please confirm."
       end).

Definition analysis_notebook : Notebook :=
  {| nb_name := VStr "analysis.ipynb"; nb_authors := "ada";
     nb_cells := [{| cell_type := "code"; source := "data = load()" |}] |}.

Definition world_with_notebook : world :=
  {| llm_calls := 0; now := mid_june_2025;
     notebooks := {[ ("ada", "analysis.ipynb") := analysis_notebook ]};
     saved := []; executed := [] |}.

Definition code_editor_registry (ext : External) : gmap string tool_object :=
  {[ CODE_EDITOR_TOOL :=
       {| tool_class := @CodeEditorTool ext; fields := code_editor_fields |} ]}.

Definition code_editor_tool_interrupt : BaseToolInterruptNode :=
  {| tool_handler_node_name := CODE_EDITOR_TOOL_HANDLER;
     tool_interrupt_node_name := CODE_EDITOR_TOOL_INTERRUPT |}.

(** The state of the code editor sub-flow once its handler node has
    stashed the interrupt [i]. *)
Definition code_editor_suspended (i : BaseToolInterrupt) : GraphState :=
  {| messages := [AIMessage "m3" [code_editor_call]];
     user_id := "ada";
     node_params :=
       {[ CODE_EDITOR_TOOL_INTERRUPT :=
            InterruptParams (AIMessage "m3" [code_editor_call]) i
              CODE_EDITOR_TOOL_HANDLER ]} |}.

(** A language model that answers a request for a bounding box with two
    coordinates only. *)
Definition terse : External := collaborators (fun _ _ => "[6.6, 35.4]").

(** A language model that answers a request for a bounding box with a
    sentence, and the next one with [None]. *)
Definition chatty : External :=
  collaborators (fun n _ => if Nat.eqb n 0 then "Italy lies in southern Europe" else "None").

(** Valid, fully specified arguments with the area given by name. *)
Definition italy_by_name : pydict :=
  cds_historic_tool_args (VStr "reanalysis-era5-land") (VList [VStr "temperature"])
    (VStr "Italy") (VStr "2024-01-01") (VStr "2024-03-01") (VStr "italy.zarr")
    (VStr "italy.ipynb").

(** [alpine_box] after inference: the members, the box rounded outwards
    to one decimal, the extension added to the store's name. *)
Definition alpine_box_inferred : pydict :=
  cds_historic_tool_args (VDataset reanalysis_era5_land) (VList [VVariable temperature])
    (VList [VFloat (tenths 66); VFloat (tenths 354);
            VFloat (tenths 186); VFloat (tenths 471)])
    (VStr "2024-01-01") (VStr "2024-03-01") (VStr "alps.zarr") (VStr "alps.ipynb").

(** [italy_by_name] after an inference in which the language model
    answered the request for a bounding box with a sentence. *)
Definition italy_after_first : pydict :=
  cds_historic_tool_args (VDataset reanalysis_era5_land) (VList [VVariable temperature])
    (VStr "Italy lies in southern Europe") (VStr "2024-01-01") (VStr "2024-03-01")
    (VStr "italy.zarr") (VStr "italy.ipynb").

(** The dictionary [SPIForecastNotebookTool._run] builds from its keyword
    arguments. *)
Definition spi_forecast_tool_args (area reference_period init_time lead_time
                                     jupyter_notebook : value) : pydict :=
  [ ("area", area);
    ("reference_period", reference_period);
    ("init_time", init_time);
    ("lead_time", lead_time);
    ("jupyter_notebook", jupyter_notebook) ].

(** The world [w'] differs from [w] at most by more calls of the language
    model: the clock, the notebook store and the two histories are the
    same. *)
Definition only_asked (w w' : world) : Prop :=
  now w' = now w /\ notebooks w' = notebooks w /\ saved w' = saved w
  /\ executed w' = executed w /\ (llm_calls w <= llm_calls w')%nat.

(** A computation that does nothing to the world but ask the language
    model. *)
Definition only_asks {A : Type} (m : M A) : Prop :=
  forall st w, only_asked w (snd (m st w)).

(** The registry [tools'] has the tools of [tools], each of its class; only
    instance fields may differ. *)
Definition same_tools (tools tools' : gmap string tool_object) : Prop :=
  forall n,
    match tools !! n, tools' !! n with
    | Some t, Some t' => tool_class t' = tool_class t
    | None, None => True
    | _, _ => False
    end.

(** A computation that leaves the tool and the world as they are. *)
Definition reads_only {A : Type} (m : M A) : Prop :=
  forall st w, snd (fst (m st w)) = st /\ snd (m st w) = w.

(** ** The chatbot node *)

Definition CHATBOT : string := "chatbot".
Definition CDS_INGESTOR_SUBGRAPH : string := "cds_ingestor_subgraph".
Definition SPI_CALCULATION_SUBGRAPH : string := "spi_calculation_subgraph".
Definition CODE_EDITOR_SUBGRAPH : string := "code_editor_subgraph".
Definition CDS_FORECAST_NOTEBOOK_TOOL : string := "cds_forecast_notebook_tool".
Definition SPI_HISTORIC_NOTEBOOK_TOOL : string := "spi_historic_notebook_tool".

(** A patch that names no key. *)
Definition no_update : state_update :=
  {| upd_messages := []; upd_node_params := None; upd_requested_agent := None |}.

(** [chatbot_update_messages]: the messages left under the node's name by
    a handler that exited are handed to the reducer and [node_params] is
    emptied. *)
Definition chatbot_update_messages (state : GraphState) : node_return :=
  StateUpdate
    {| upd_messages :=
         match node_params state !! CHATBOT_UPDATE_MESSAGES with
         | Some (UpdateMessagesParams update_messages) => update_messages
         | _ => []
         end;
       upd_node_params := Some ∅;
       upd_requested_agent := None |}.

(** [chatbot].  [llm_with_tools] stands for the chat model bound to the
    tools, with the tool choice the state may hold: it answers with the
    identifier and the tool calls of an [AIMessage].  The result is the
    directive and the entries the node adds to [node_history]. *)
Definition chatbot (llm_with_tools : GraphState -> string * list ToolCall)
    (state : GraphState) : node_return * list string :=
  if (0 <? length (messages state))%nat then
    match node_params state !! CHATBOT_UPDATE_MESSAGES with
    | Some _ => (Command CHATBOT_UPDATE_MESSAGES no_update, [])
    | None =>
        let '(id, tool_calls) := llm_with_tools state in
        let finish (ai_message : message) :=
          (Command END
             {| upd_messages := [ai_message]; upd_node_params := Some ∅;
                upd_requested_agent := Some VNone |},
           [CHATBOT]) in
        match tool_calls with
        | tool_call :: _ =>
            let ai_message := AIMessage id [tool_call] in
            let enter (subgraph : string) :=
              (Command subgraph
                 {| upd_messages := [ai_message]; upd_node_params := None;
                    upd_requested_agent := None |},
               [CHATBOT; subgraph]) in
            if String.eqb (call_name tool_call) CDS_HISTORIC_NOTEBOOK_TOOL
               || String.eqb (call_name tool_call) CDS_FORECAST_NOTEBOOK_TOOL
            then enter CDS_INGESTOR_SUBGRAPH
            else if String.eqb (call_name tool_call) SPI_HISTORIC_NOTEBOOK_TOOL
                    || String.eqb (call_name tool_call) SPI_FORECAST_NOTEBOOK_TOOL
            then enter SPI_CALCULATION_SUBGRAPH
            else if String.eqb (call_name tool_call) CODE_EDITOR_TOOL
            then enter CODE_EDITOR_SUBGRAPH
            else finish ai_message
        | [] => finish (AIMessage id [])
        end
    end
  else
    (Command END
       {| upd_messages := []; upd_node_params := Some ∅;
          upd_requested_agent := Some VNone |},
     [CHATBOT]).

(** The sub-flows of the graph. *)
Definition subgraphs : list string :=
  [CDS_INGESTOR_SUBGRAPH; SPI_CALCULATION_SUBGRAPH; CODE_EDITOR_SUBGRAPH].

(** The tools each sub-flow is entered for. *)
Definition tools_of (subgraph : string) : list string :=
  if String.eqb subgraph CDS_INGESTOR_SUBGRAPH
  then [CDS_HISTORIC_NOTEBOOK_TOOL; CDS_FORECAST_NOTEBOOK_TOOL]
  else if String.eqb subgraph SPI_CALCULATION_SUBGRAPH
  then [SPI_HISTORIC_NOTEBOOK_TOOL; SPI_FORECAST_NOTEBOOK_TOOL]
  else if String.eqb subgraph CODE_EDITOR_SUBGRAPH then [CODE_EDITOR_TOOL]
  else [].

(** A language model that answers every question with a bounding box of
    two-decimal coordinates. *)
Definition surveyor : External := collaborators (fun _ _ => "[6.61, 35.48, 18.52, 47.1]").

(** The box of [alpine_box], rounded outwards to one decimal. *)
Definition alpine_degrees : value :=
  VList [VFloat (tenths 66); VFloat (tenths 354); VFloat (tenths 186); VFloat (tenths 471)].

(** Valid arguments with the period the wrong way round. *)
Definition alpine_box_inverted : pydict :=
  cds_historic_tool_args (VStr "reanalysis-era5-land") (VList [VStr "temperature"])
    (VList [VFloat 6.61%float; VFloat 35.48%float; VFloat 18.52%float;
            VFloat 47.1%float])
    (VStr "2024-03-01") (VStr "2024-01-01") (VStr "alps") (VStr "alps.ipynb").

(** Valid arguments without a period. *)
Definition alpine_box_open : pydict :=
  cds_historic_tool_args (VStr "reanalysis-era5-land") (VList [VStr "temperature"])
    (VList [VFloat 6.61%float; VFloat 35.48%float; VFloat 18.52%float;
            VFloat 47.1%float])
    VNone VNone (VStr "alps") (VStr "alps.ipynb").

(** A model bound to the tools that answers with two tool calls. *)
Definition two_calls (state : GraphState) : string * list ToolCall :=
  ("m9", [code_editor_call; plain_call]).

(** A conversation in which a handler left messages for the chatbot. *)
Definition state_after_exit : GraphState :=
  {| messages := [HumanMessage "h1" "ingest the alps"; AIMessage "m1" [plain_call]];
     user_id := "ada";
     node_params :=
       {[ CHATBOT_UPDATE_MESSAGES :=
            UpdateMessagesParams [RemoveMessage "m1"; SystemMessage "left"] ]} |}.

(** What inference makes of [alpine_box_inverted]. *)
Definition alpine_box_collapsed : pydict :=
  cds_historic_tool_args (VDataset reanalysis_era5_land) (VList [VVariable temperature])
    alpine_degrees (VStr "2024-01-01") (VStr "2024-01-01") (VStr "alps.zarr")
    (VStr "alps.ipynb").

(** What inference makes of [alpine_box_open] with the collaborators of
    the examples, whose [strftime] answers with the format itself. *)
Definition alpine_box_defaulted : pydict :=
  cds_historic_tool_args (VDataset reanalysis_era5_land) (VList [VVariable temperature])
    alpine_degrees (VStr "%Y-%m-01") (VStr "%Y-%m-01") (VStr "alps.zarr")
    (VStr "alps.ipynb").

(** Arguments of the SPI forecast tool with an initialization time only. *)
Definition spi_june : pydict :=
  spi_forecast_tool_args alpine_degrees (VTuple [VInt 1981; VInt 2010])
    (VStr "2025-06-01") VNone VNone.

(** A pending message with two tool calls. *)
Definition two_pending_calls : list ToolCall := [plain_call; code_editor_call].

(** ** The validation table of [CDSForecastNotebookTool] *)

Module CDSForecast.

(** The members of [InputForecastVariable]. *)
Inductive InputForecastVariable :=
| total_precipitation
| temperature
| glofas.

Definition is_glofas (m : option InputForecastVariable) : bool :=
  match m with
  | Some glofas => true
  | _ => false
  end.

Definition variable_of_name (s : string) : option InputForecastVariable :=
  if String.eqb s "total_precipitation" then Some total_precipitation
  else if String.eqb s "temperature" then Some temperature
  else if String.eqb s "glofas" then Some glofas
  else None.

(** [InputForecastVariable.from_str] on the text of its argument. *)
Definition variable_from_text (alias : string) : option InputForecastVariable :=
  match variable_of_name alias with
  | Some m => Some m
  | None =>
      if contains "prec" alias then Some total_precipitation
      else if contains "temp" alias then Some temperature
      else if contains "glofas" alias then Some glofas
      else if contains "discharge" alias then Some glofas
      else None
  end.

(** [InputForecastVariable.from_str(alias)], without [raise_error]: on a
    tuple the [in] tests are membership tests. *)
Definition variable_from_str (alias : value) : M (option InputForecastVariable) :=
  match alias with
  | VList _ | VDict _ | VNone | VBool _ | VInt _ | VFloat _ => raise TypeError
  | VTuple l =>
      if existsb (is_text "prec") l then ret (Some total_precipitation)
      else if existsb (is_text "temp") l then ret (Some temperature)
      else if existsb (is_text "glofas") l then ret (Some glofas)
      else if existsb (is_text "discharge") l then ret (Some glofas)
      else ret None
  | VStr _ | VDataset _ | VVariable _ =>
      ret (variable_from_text (default "" (text_of alias)))
  end.

(** [[from_str(v) for v in ka['forecast_variables']]]. *)
Definition members_of (ka : pydict) : M (list (option InputForecastVariable)) :=
  let* fv := getitem ka "forecast_variables" in
  let* l := lift (iterate fv) in
  mapM variable_from_str l.

(** [[v for v in ka['forecast_variables'] if from_str(v) is None]]. *)
Fixpoint invalid_variables (l : list value) : M (list value) :=
  match l with
  | [] => ret []
  | v :: l' =>
      let* m := variable_from_str v in
      let* rest := invalid_variables l' in
      ret (match m with None => v :: rest | Some _ => rest end)
  end.

Definition schema : ArgsSchema :=
  [ ("forecast_variables",
     no_default "List of forecast variables to be retrieved from the CDS API.");
    ("area", no_default "The area of interest for the forecast data.");
    ("init_time",
     default_none "The date of the forecast initialization provided in UTC-0 YYYY-MM-DD.");
    ("lead_time", default_none "The end date of the forecast provided in UTC-0 YYYY-MM-DD.");
    ("zarr_output",
     default_none "The path to the output zarr file with the forecast data.");
    ("jupyter_notebook",
     default_none "The path to the jupyter notebook that was used to build the data ingest procedure.") ].

(** The dictionary [CDSForecastNotebookTool._run] builds from its keyword
    arguments. *)
Definition tool_args (forecast_variables area init_time lead_time zarr_output
                        jupyter_notebook : value) : pydict :=
  [ ("forecast_variables", forecast_variables);
    ("area", area);
    ("init_time", init_time);
    ("lead_time", lead_time);
    ("zarr_output", zarr_output);
    ("jupyter_notebook", jupyter_notebook) ].

Section Rules.
Context `{ext : External}.

(** The two horizon rules of the lead time: six months for the seasonal
    data, one month when GloFAS is among the variables. *)
Definition horizon_rule (for_glofas : bool) (months : Z) (text : string) : rule := fun ka =>
  let* t := getitem ka "lead_time" in
  if is_none t then ret VNone
  else
    let* members := members_of ka in
    if negb (Bool.eqb (existsb is_glofas members) for_glofas) then ret VNone
    else
      let* d := strptime_value t "%Y-%m-%d" in
      let* w := get_world in
      if dt_gt d (relativedelta_months months (replace_day_1 (now w))) then
        ret (VStr ("Invalid lead time: " +:+ py_str t +:+ text))
      else ret VNone.

Definition validation_rules : dict (list rule) :=
  [ ("forecast_variables",
     [ fun ka =>
         let* fv := getitem ka "forecast_variables" in
         let* l := lift (iterate fv) in
         let* bad := invalid_variables l in
         if (0 <? length bad)%nat then
           ret (VStr ("Invalid forecast variables: " +:+ py_str (VList bad)
                      +:+ ". It should be a list of valid CDS forecast variables: [['total_precipitation', 'temperature', 'glofas']]."))
         else ret VNone;
       fun ka =>
         let* members := members_of ka in
         if existsb is_glofas members then
           let* fv := getitem ka "forecast_variables" in
           let* n := lift (py_len fv) in
           if (1 <? n)%nat then
             ret (VStr ("Invalid combination of variables: " +:+ py_str fv
                        +:+ ". By now, due to different data proveder settings, GLOFAS can't be used in the same tool with other variables."))
           else ret VNone
         else ret VNone ]);
    ("area", [ area_rule ]);
    ("init_time",
     [ format_rule "init_time" "initialization time";
       fun ka =>
         let* t := getitem ka "init_time" in
         if is_none t then ret VNone
         else
           let* d := strptime_value t "%Y-%m-%d" in
           let* w := get_world in
           if dt_gt d (now w) then
             ret (VStr ("Invalid initialization time: " +:+ py_str t
                        +:+ ". It should be in the past, at least in the previous month."))
           else ret VNone ]);
    ("lead_time",
     [ format_rule "lead_time" "lead time";
       fun ka =>
         let* i := getitem ka "init_time" in
         if is_none i then ret VNone
         else
           let* l := getitem ka "lead_time" in
           if is_none l then ret VNone
           else
             match try_strptime l "%Y-%m", try_strptime i "%Y-%m" with
             | Some dl, Some di =>
                 if dt_le dl di then
                   ret (VStr ("Invalid lead time: " +:+ py_str l
                              +:+ ". It should be at least one month after the init time."))
                 else ret VNone
             | _, _ => ret VNone
             end;
       horizon_rule false 6 ". It should be no more than 6 months in the future.";
       horizon_rule true 1
         ". It should be no more than 1 months in the future for the glofas data." ]) ].

End Rules.

End CDSForecast.

(** A tool with the name, the schema and the validation table of
    [CDSForecastNotebookTool] and the other hooks of the base class: what
    the validation phase of that tool runs on. *)
Definition forecast_checks (ext : External) : BaseAgentTool :=
  {| name := CDS_FORECAST_NOTEBOOK_TOOL;
     args_schema := CDSForecast.schema;
     _set_args_validation_rules := @CDSForecast.validation_rules ext;
     _set_args_inference_rules := base_inference_rules CDSForecast.schema;
     _execute := base_execute |}.
(** * Properties *)

(** ** The monad *)

Lemma bind_Return {A B : Type} (m : M A) (k : A -> M B) st w a st1 w1 :
  m st w = (Return a, st1, w1) -> bind m k st w = k a st1 w1.
Proof. intros H. unfold bind. rewrite H. reflexivity. Qed.

Lemma bind_Interrupted {A B : Type} (m : M A) (k : A -> M B) st w i st1 w1 :
  m st w = (Interrupted i, st1, w1) -> bind m k st w = (Interrupted i, st1, w1).
Proof. intros H. unfold bind. rewrite H. reflexivity. Qed.

Lemma bind_Raised {A B : Type} (m : M A) (k : A -> M B) st w e st1 w1 :
  m st w = (Raised e, st1, w1) -> bind m k st w = (Raised e, st1, w1).
Proof. intros H. unfold bind. rewrite H. reflexivity. Qed.

(** A sequence that returns went through both of its parts. *)
Lemma bind_Return_inv {A B : Type} (m : M A) (k : A -> M B) st w b st2 w2 :
  bind m k st w = (Return b, st2, w2) ->
  exists a st1 w1, m st w = (Return a, st1, w1) /\ k a st1 w1 = (Return b, st2, w2).
Proof.
  unfold bind. destruct (m st w) as [[[a | i | e] st1] w1]; intros H.
  - exists a, st1, w1. split; [reflexivity | exact H].
  - discriminate H.
  - discriminate H.
Qed.

Ltac bind_inv H :=
  let a := fresh "a" in
  let st := fresh "st" in
  let w := fresh "w" in
  let H1 := fresh "Hstep" in
  apply bind_Return_inv in H; destruct H as (a & st & w & H1 & H).

(** ** Dictionaries *)

Lemma dict_get_set_eq {V : Type} (k : string) (v : V) (d : dict V) :
  dict_get k (dict_set k v d) = Some v.
Proof.
  induction d as [| [k' v'] d IH]; simpl.
  - rewrite String.eqb_refl. reflexivity.
  - destruct (String.eqb k k') eqn:E; simpl; rewrite E; [reflexivity | exact IH].
Qed.

Lemma dict_get_set_ne {V : Type} (k k' : string) (v : V) (d : dict V) :
  k <> k' -> dict_get k' (dict_set k v d) = dict_get k' d.
Proof.
  intros Hne. induction d as [| [k0 v0] d IH]; simpl.
  - destruct (String.eqb k' k) eqn:E; [| reflexivity].
    apply String.eqb_eq in E. congruence.
  - destruct (String.eqb k k0) eqn:E; simpl.
    + apply String.eqb_eq in E. subst k0.
      destruct (String.eqb k' k) eqn:E'; [| reflexivity].
      apply String.eqb_eq in E'. congruence.
    + destruct (String.eqb k' k0); [reflexivity | exact IH].
Qed.

Lemma dict_set_set {V : Type} (k : string) (v1 v2 : V) (d : dict V) :
  dict_set k v2 (dict_set k v1 d) = dict_set k v2 d.
Proof.
  induction d as [| [k' v'] d IH]; simpl.
  - rewrite String.eqb_refl. reflexivity.
  - destruct (String.eqb k k') eqn:E; simpl; rewrite E; [reflexivity |].
    rewrite IH. reflexivity.
Qed.

Lemma is_none_true (v : value) : is_none v = true <-> v = VNone.
Proof. destruct v; simpl; split; intros H; congruence. Qed.

(** ** Configuration errors *)

(** C8: a pending tool call whose name is not in the registry makes the
    tool handler node end with the [KeyError] of the lookup, and a stashed
    interrupt whose tool or whose kind has no entry makes the interrupt
    node end with the [KeyError] of its lookup; in each case no interrupt
    is raised and nothing has run: the registry and the world are as
    before. *)
Theorem lookup_failure_is_fatal :
  (forall (self : BaseToolHandlerNode) (tools : gmap string tool_object)
          (state : GraphState) (w : world) id calls tool_call,
      last (messages state) = Some (AIMessage id calls) ->
      last calls = Some tool_call ->
      tools !! call_name tool_call = None ->
      tool_handler_template self tools state w
      = (Raised (KeyError (call_name tool_call)), tools, w))
  /\
  (forall (self : BaseToolInterruptNode)
          (handlers : gmap string BaseToolInterruptHandler)
          (tools : gmap string tool_object) (state : GraphState)
          (interruption : pydict) (w : world) tool_message tool_interrupt node,
      node_params state !! tool_interrupt_node_name self
      = Some (InterruptParams tool_message tool_interrupt node) ->
      (tools !! interrupt_tool tool_interrupt = None ->
       tool_interrupt_node_template self handlers tools state interruption w
       = (Raised (KeyError (interrupt_tool tool_interrupt)), tools, w))
      /\
      (forall tool,
          tools !! interrupt_tool tool_interrupt = Some tool ->
          handlers !! interrupt_type tool_interrupt = None ->
          tool_interrupt_node_template self handlers tools state interruption w
          = (Raised (KeyError (interrupt_type tool_interrupt)), tools, w))).
Proof.
  split.
  - intros self tools state w id calls tool_call Hlast Hcall Hnone.
    unfold tool_handler_template. rewrite Hlast, Hcall, Hnone. reflexivity.
  - intros self handlers tools state interruption w tm ti node Hparams. split.
    + intros Hnone. unfold tool_interrupt_node_template.
      rewrite Hparams, Hnone. reflexivity.
    + intros tool Htool Hkind. unfold tool_interrupt_node_template, dispatch.
      rewrite Hparams, Htool, Hkind. reflexivity.
Qed.

Lemma lookup_failure_is_fatal_witness :
  tool_handler_template cds_ingestor_tool_handler (cds_registry silent)
    (ada_state [AIMessage "m1" [stray_call]]) empty_world
  = (Raised (KeyError "weather_tool"), cds_registry silent, empty_world)
  /\ tool_interrupt_node_template cds_ingestor_tool_interrupt
       (@default_tool_interupt_handlers silent) (cds_registry silent) odd_state []
       empty_world
     = (Raised (KeyError "CONFIRM_COST"), cds_registry silent, empty_world).
Proof.
  split.
  - apply (proj1 lookup_failure_is_fatal cds_ingestor_tool_handler (cds_registry silent)
             (ada_state [AIMessage "m1" [stray_call]]) empty_world "m1" [stray_call]
             stray_call); reflexivity.
  - apply (proj2 (proj2 lookup_failure_is_fatal cds_ingestor_tool_interrupt
                    (@default_tool_interupt_handlers silent) (cds_registry silent)
                    odd_state [] empty_world (AIMessage "m1" [stray_call]) odd_interrupt
                    CDS_INGESTOR_TOOL_HANDLER eq_refl)
             {| tool_class := @CDSHistoricNotebookTool silent;
                fields := cds_historic_fields |});
      reflexivity.
Defined.

(** ** The shared dispatch table *)

(** C10: the dispatch table is one dictionary of the class: a read through
    any node instance sees it, and constructing a node with custom handlers
    rewrites it.  So after node [a] is built with a custom strategy for a
    kind, every node, built before [a] or after it with no custom handlers
    of its own, dispatches that kind to [a]'s strategy. *)
Theorem custom_handlers_are_shared :
  forall (handlers0 custom : gmap string BaseToolInterruptHandler)
         (before_a : BaseToolInterruptNode) (ha ia hb ib kind : string)
         (strategy : BaseToolInterruptHandler),
    custom !! kind = Some strategy ->
    let '(a, handlers1) := BaseToolInterruptNode_init ha ia custom handlers0 in
    let '(after_a, handlers2) := BaseToolInterruptNode_init hb ib ∅ handlers1 in
    dispatch before_a handlers1 kind = Some strategy
    /\ dispatch after_a handlers2 kind = Some strategy
    /\ dispatch a handlers2 kind = Some strategy.
Proof.
  intros handlers0 custom before_a ha ia hb ib kind strategy Hcustom.
  unfold BaseToolInterruptNode_init, dispatch.
  rewrite (left_id_L ∅ (∪)).
  assert ((custom ∪ handlers0) !! kind = Some strategy) as H
    by (apply lookup_union_Some_l; exact Hcustom).
  auto.
Qed.

Lemma custom_handlers_are_shared_witness :
  dispatch cds_ingestor_tool_interrupt
    (snd (BaseToolInterruptNode_init CODE_EDITOR_TOOL_HANDLER CODE_EDITOR_TOOL_INTERRUPT
            (code_editor_custom_handlers silent)
            (@default_tool_interupt_handlers silent)))
    CONFIRM_OUTPUT
  = Some (@CodeEditorToolInterruptOutputConfirmationHandler silent).
Proof.
  exact (proj1 (custom_handlers_are_shared (@default_tool_interupt_handlers silent)
                  (code_editor_custom_handlers silent) cds_ingestor_tool_interrupt
                  CODE_EDITOR_TOOL_HANDLER CODE_EDITOR_TOOL_INTERRUPT
                  CDS_INGESTOR_TOOL_HANDLER CDS_INGESTOR_TOOL_INTERRUPT
                  CONFIRM_OUTPUT (@CodeEditorToolInterruptOutputConfirmationHandler silent)
                  eq_refl)).
Defined.

(** ** The order of the phases of [_run] *)

Lemma missing_args_of_spec (fields : ArgsSchema) (tool_args : pydict) :
  covers_required fields tool_args = true ->
  exists l,
    missing_args_of fields tool_args = Return l
    /\ forall arg,
         In arg l <->
         exists info, In (arg, info) fields /\ is_required info = true
                      /\ dict_get arg tool_args = Some VNone.
Proof.
  induction fields as [| [arg0 info0] fields IH]; simpl; intros Hc.
  - exists []. split; [reflexivity |]. intros arg; split.
    + intros [].
    + intros (info & [] & _).
  - apply andb_prop in Hc. destruct Hc as [Hhead Htail].
    destruct (IH Htail) as (l & Hl & Hspec). clear IH.
    destruct (is_required info0) eqn:Hreq; simpl in Hhead.
    + destruct (dict_get arg0 tool_args) as [v |] eqn:Hget; [| discriminate Hhead].
      rewrite Hl. eexists. split; [reflexivity |].
      intros arg. destruct (is_none v) eqn:Hv.
      * apply is_none_true in Hv. subst v. simpl. rewrite Hspec. split.
        -- intros [-> | (info & Hin & Hr & Hg)].
           ++ exists info0. auto.
           ++ exists info. auto.
        -- intros (info & [Heq | Hin] & Hr & Hg).
           ++ inversion Heq. auto.
           ++ right. exists info. auto.
      * rewrite Hspec. split.
        -- intros (info & Hin & Hr & Hg). exists info. auto.
        -- intros (info & [Heq | Hin] & Hr & Hg).
           ++ inversion Heq; subst. rewrite Hget in Hg. inversion Hg; subst.
              discriminate Hv.
           ++ exists info. auto.
    + exists l. split; [exact Hl |]. intros arg. rewrite Hspec. split.
      * intros (info & Hin & Hr & Hg). exists info. auto.
      * intros (info & [Heq | Hin] & Hr & Hg).
        -- inversion Heq; subst. congruence.
        -- exists info. auto.
Qed.

(** A missing required argument stops [_run] in its first phase, whatever
    the later phases would have found. *)
Lemma missing_argument_stops_run (self : BaseAgentTool) (tool_args : pydict) st w
      missing info :
  covers_required (args_schema self) tool_args = true ->
  In (missing, info) (args_schema self) ->
  is_required info = true ->
  dict_get missing tool_args = Some VNone ->
  exists l,
    In missing l
    /\ _run self tool_args st w
       = (Interrupted
            {| interrupt_tool := name self;
               interrupt_type := PROVIDE_ARGS;
               interrupt_reason :=
                 "Missing required arguments: " +:+ repr_names l +:+ ".";
               interrupt_data := MissingArgsData l (args_schema self) |},
          set_execution_confirmed false st, w).
Proof.
  intros Hc Hin Hreq Hget.
  destruct (missing_args_of_spec _ _ Hc) as (l & Hl & Hspec).
  assert (In missing l) as Hm by (apply Hspec; exists info; auto).
  exists l. split; [exact Hm |].
  unfold _run, check_required_args.
  destruct l as [| x l]; [destruct Hm |].
  unfold bind at 1. unfold bind at 1. unfold lift. rewrite Hl. reflexivity.
Qed.

(** A phase that does not return ends the sequence it opens. *)
Lemma ends_as_bind {A B : Type} (m : M A) (k : A -> M B) st w :
  ends_as (m st w) (bind m k st w).
Proof.
  unfold ends_as, bind. destruct (m st w) as [[[a | i | e] st1] w1]; [exact I | |];
    reflexivity.
Qed.

Lemma dict_get_In {V : Type} (k : string) (d : dict V) (v : V) :
  dict_get k d = Some v -> In (k, v) d.
Proof.
  induction d as [| [k' v'] d IH]; simpl; [discriminate |].
  destruct (String.eqb k k') eqn:E.
  - apply String.eqb_eq in E. intros H. inversion H; subst. left. reflexivity.
  - intros H. right. apply IH. exact H.
Qed.

Lemma dict_set_keeps {V : Type} (k k' : string) (v : V) (d : dict V) :
  dict_get k d <> None -> dict_get k (dict_set k' v d) <> None.
Proof.
  intros H. destruct (String.eqb k' k) eqn:E.
  - apply String.eqb_eq in E. subst k'. rewrite dict_get_set_eq. discriminate.
  - apply String.eqb_neq in E. rewrite (dict_get_set_ne _ _ _ _ E). exact H.
Qed.

(** Rules that return and leave the tool and the world as they are: the
    inner loop returns in the same state, keeps what was recorded, and has
    a reason for the argument as soon as one rule gave one. *)
Lemma apply_rules_at (arg : string) (rules : list rule) (tool_args : pydict) st w :
  Forall (fun r : rule => exists v, r tool_args st w = (Return v, st, w)) rules ->
  forall invalid_args,
  exists invalid_args',
    apply_rules arg rules tool_args invalid_args st w = (Return invalid_args', st, w)
    /\ (forall k, dict_get k invalid_args <> None -> dict_get k invalid_args' <> None)
    /\ (forall r v, In r rules -> r tool_args st w = (Return v, st, w) ->
                    is_none v = false -> dict_get arg invalid_args' <> None).
Proof.
  induction 1 as [| r rules (v & Hr) _ IH]; intros invalid_args.
  - exists invalid_args. split; [reflexivity |]. split; [auto |]. intros r v [].
  - destruct (IH (if is_none v then invalid_args else dict_set arg v invalid_args))
      as (invalid_args' & Hrun & Hkeep & Hfound).
    exists invalid_args'. split; [| split].
    + cbn [apply_rules]. rewrite (bind_Return _ _ _ _ _ _ _ Hr). exact Hrun.
    + intros k Hk. apply Hkeep. destruct (is_none v); [exact Hk |].
      apply dict_set_keeps. exact Hk.
    + intros r' v' [<- | Hin] Hr' Hv'.
      * rewrite Hr in Hr'. inversion Hr'; subst v'. apply Hkeep. rewrite Hv'.
        rewrite dict_get_set_eq. discriminate.
      * apply (Hfound r' v' Hin Hr' Hv').
Qed.

Lemma validate_fields_at (table : dict (list rule)) (tool_args : pydict) st w :
  Forall (fun entry : string * list rule =>
            Forall (fun r : rule => exists v, r tool_args st w = (Return v, st, w))
              (snd entry)) table ->
  forall keys invalid_args,
  exists invalid_args',
    validate_fields table keys tool_args invalid_args st w = (Return invalid_args', st, w)
    /\ (forall k, dict_get k invalid_args <> None -> dict_get k invalid_args' <> None)
    /\ (forall arg rules r v,
           In arg keys -> dict_get arg table = Some rules -> In r rules ->
           r tool_args st w = (Return v, st, w) -> is_none v = false ->
           dict_get arg invalid_args' <> None).
Proof.
  intros Htable keys. induction keys as [| arg keys IH]; intros invalid_args.
  - exists invalid_args. split; [reflexivity |]. split; [auto |].
    intros arg rules r v [].
  - assert (Forall (fun r : rule => exists v, r tool_args st w = (Return v, st, w))
              (default [] (dict_get arg table))) as Hrules.
    { destruct (dict_get arg table) as [rules |] eqn:Hget; [| constructor].
      apply dict_get_In in Hget.
      apply (proj1 (List.Forall_forall _ _) Htable (arg, rules) Hget). }
    destruct (apply_rules_at arg _ tool_args st w Hrules invalid_args)
      as (invalid_args1 & Hrun1 & Hkeep1 & Hfound1).
    destruct (IH invalid_args1) as (invalid_args' & Hrun & Hkeep & Hfound).
    exists invalid_args'. split; [| split].
    + cbn [validate_fields]. rewrite (bind_Return _ _ _ _ _ _ _ Hrun1). exact Hrun.
    + intros k Hk. apply Hkeep. apply Hkeep1. exact Hk.
    + intros arg' rules r v [<- | Hin] Hget Hr Hret Hv.
      * apply Hkeep. rewrite Hget in Hfound1. apply (Hfound1 r v Hr Hret Hv).
      * apply (Hfound arg' rules r v Hin Hget Hr Hret Hv).
Qed.

(** An argument with a rule that gives a reason makes the validation phase
    raise INVALID_ARGS with a reason for that argument. *)
Lemma rejected_argument_stops_validation (self : BaseAgentTool) (tool_args : pydict) st w
      invalid info rules (check : rule) why :
  In (invalid, info) (args_schema self) ->
  dict_get invalid (_set_args_validation_rules self) = Some rules ->
  In check rules ->
  check tool_args st w = (Return why, st, w) ->
  is_none why = false ->
  Forall (fun entry : string * list rule =>
            Forall (fun r : rule => exists v, r tool_args st w = (Return v, st, w))
              (snd entry)) (_set_args_validation_rules self) ->
  exists reasons,
    dict_get invalid reasons <> None
    /\ check_validation_rules self tool_args st w
       = (Interrupted
            {| interrupt_tool := name self;
               interrupt_type := INVALID_ARGS;
               interrupt_reason :=
                 "Invalid arguments: " +:+ repr_names (dict_keys reasons) +:+ ".";
               interrupt_data := InvalidArgsData reasons (args_schema self) |},
          set_execution_confirmed false st, w).
Proof.
  intros Hin Hget Hcheck Hret Hwhy Htable.
  destruct (validate_fields_at _ tool_args st w Htable (dict_keys (args_schema self)) [])
    as (reasons & Hrun & _ & Hfound).
  assert (dict_get invalid reasons <> None) as Hreason.
  { apply (Hfound invalid rules check why); try assumption.
    unfold dict_keys. apply (in_map fst _ _ Hin). }
  exists reasons. split; [exact Hreason |].
  unfold check_validation_rules. rewrite (bind_Return _ _ _ _ _ _ _ Hrun).
  destruct reasons as [| kv reasons]; [contradiction Hreason; reflexivity |].
  reflexivity.
Qed.

(** What inference leaves in an argument that has an inference function is
    a value that function returned. *)
Lemma infer_fields_writes (table : dict (option rule)) (arg : string) (infer : rule)
      (P : value -> Prop) :
  dict_get arg table = Some (Some infer) ->
  (forall ka st w u st' w', infer ka st w = (Return u, st', w') -> P u) ->
  forall keys tool_args st w tool_args' st' w',
    In arg keys \/ (exists u, dict_get arg tool_args = Some u /\ P u) ->
    infer_fields table keys tool_args st w = (Return tool_args', st', w') ->
    exists u, dict_get arg tool_args' = Some u /\ P u.
Proof.
  intros Hget HP keys.
  induction keys as [| f keys IH]; intros tool_args st w tool_args' st' w' Hinv Hrun.
  - cbn [infer_fields] in Hrun. unfold ret in Hrun. inversion Hrun; subst.
    destruct Hinv as [[] | Hinv]. exact Hinv.
  - cbn [infer_fields] in Hrun.
    destruct (String.eqb f arg) eqn:E.
    + apply String.eqb_eq in E. subst f. rewrite Hget in Hrun.
      apply bind_Return_inv in Hrun. destruct Hrun as (u & st1 & w1 & Hu & Hrun).
      apply (IH _ _ _ _ _ _ (or_intror
               (ex_intro _ u (conj (dict_get_set_eq arg u tool_args) (HP _ _ _ _ _ _ Hu))))
               Hrun).
    + apply String.eqb_neq in E.
      assert (In arg keys \/ (exists u, dict_get arg tool_args = Some u /\ P u)) as Hinv'.
      { destruct Hinv as [[Heq | Hin] | Hinv]; [contradiction | left; exact Hin |
                                                right; exact Hinv]. }
      destruct (dict_get f table) as [[g |] |].
      * apply bind_Return_inv in Hrun. destruct Hrun as (u & st1 & w1 & Hu & Hrun).
        apply (IH _ _ _ _ _ _) in Hrun; [exact Hrun |].
        destruct Hinv' as [Hin | (u' & Hu' & Pu')]; [left; exact Hin |].
        right. exists u'. split; [| exact Pu'].
        rewrite (dict_get_set_ne _ _ _ _ E). exact Hu'.
      * apply (IH _ _ _ _ _ _ Hinv' Hrun).
      * apply (IH _ _ _ _ _ _ Hinv' Hrun).
Qed.

(** C2.  [_run] goes through its phases in the order required-check,
    validation, inference, confirm-args, execute, confirm-output: each
    phase starts in the state the phases before it have left, the phases
    after inference work on the inferred arguments, and a phase that does
    not return ends the run with its own interrupt or exception.
    - A required argument that is missing (its value is [None]) ends the
      run in the first phase with a PROVIDE_ARGS interrupt listing it,
      whatever the validation rules make of the arguments: the interrupt is
      neither INVALID_ARGS nor CONFIRM_ARGS, the world is untouched and of
      the tool only [execution_confirmed] was cleared.
    - An argument that one of its rules rejects makes the validation phase
      raise INVALID_ARGS with a reason for it, and this is how the run ends
      when no required argument is missing.
    - What inference leaves in an argument with an inference function is a
      value of that function.
    - With [execution_confirmed] unset the run ends in CONFIRM_ARGS on the
      inferred arguments and the body is not called; otherwise the body is
      called on them, once, and its result is stored and either offered in
      a CONFIRM_OUTPUT interrupt or returned. *)
Theorem provide_args_precedes_invalid_args :
  forall (self : BaseAgentTool) (tool_args : pydict) (st : tool_state) (w : world),
    let run := _run self tool_args st w in
    (forall (missing : string) (info : FieldInfo),
        covers_required (args_schema self) tool_args = true ->
        In (missing, info) (args_schema self) ->
        is_required info = true ->
        dict_get missing tool_args = Some VNone ->
        exists i,
          run = (Interrupted i, set_execution_confirmed false st, w)
          /\ interrupt_type i = PROVIDE_ARGS
          /\ interrupt_type i <> INVALID_ARGS
          /\ interrupt_type i <> CONFIRM_ARGS
          /\ exists l,
               interrupt_data i = MissingArgsData l (args_schema self) /\ In missing l)
    /\ (forall (invalid : string) (info : FieldInfo) (rules : list rule) (check : rule)
               (why : value),
           In (invalid, info) (args_schema self) ->
           dict_get invalid (_set_args_validation_rules self) = Some rules ->
           In check rules ->
           check tool_args st w = (Return why, st, w) ->
           is_none why = false ->
           Forall (fun entry : string * list rule =>
                     Forall (fun r : rule =>
                               exists v, r tool_args st w = (Return v, st, w))
                       (snd entry)) (_set_args_validation_rules self) ->
           exists i reasons,
             check_validation_rules self tool_args st w
             = (Interrupted i, set_execution_confirmed false st, w)
             /\ interrupt_type i = INVALID_ARGS
             /\ interrupt_data i = InvalidArgsData reasons (args_schema self)
             /\ dict_get invalid reasons <> None
             /\ (missing_args_of (args_schema self) tool_args = Return [] ->
                 run = (Interrupted i, set_execution_confirmed false st, w)))
    /\ (forall (arg : string) (info : FieldInfo) (infer : rule) (P : value -> Prop),
           In (arg, info) (args_schema self) ->
           dict_get arg (_set_args_inference_rules self) = Some (Some infer) ->
           (forall ka st0 w0 u st0' w0', infer ka st0 w0 = (Return u, st0', w0') -> P u) ->
           forall st2 w2 tool_args' st3 w3,
             infer_args self tool_args st2 w2 = (Return tool_args', st3, w3) ->
             exists u, dict_get arg tool_args' = Some u /\ P u)
    /\ ends_as (check_required_args self tool_args st w) run
    /\ (forall st1 w1,
           check_required_args self tool_args st w = (Return tt, st1, w1) ->
           ends_as (check_validation_rules self tool_args st1 w1) run
           /\ forall st2 w2,
               check_validation_rules self tool_args st1 w1 = (Return tt, st2, w2) ->
               ends_as (infer_args self tool_args st2 w2) run
               /\ forall tool_args' st3 w3,
                   infer_args self tool_args st2 w2 = (Return tool_args', st3, w3) ->
                   (execution_confirmed st3 = false ->
                    exists i,
                      run = (Interrupted i, st3, w3)
                      /\ interrupt_type i = CONFIRM_ARGS
                      /\ interrupt_data i = ConfirmArgsData tool_args' (args_schema self))
                   /\ (execution_confirmed st3 = true ->
                       let execution :=
                         _execute self tool_args' st3
                           (record_execution (name self) tool_args' w3) in
                       ends_as execution run
                       /\ forall result st4 w4,
                           execution = (Return result, st4, w4) ->
                           (output_confirmed st4 = false ->
                            exists i,
                              run = (Interrupted i, set_output result st4, w4)
                              /\ interrupt_type i = CONFIRM_OUTPUT
                              /\ interrupt_data i = ConfirmOutputData tool_args' result)
                           /\ (output_confirmed st4 = true ->
                               run = (Return result, set_output result st4, w4)))).
Proof.
  intros self tool_args st w run.
  split; [| split; [| split; [| split]]].
  - intros missing info Hc Hin Hreq Hget.
    destruct (missing_argument_stops_run self tool_args st w missing info Hc Hin Hreq Hget)
      as (l & Hm & Hrun).
    eexists. split; [exact Hrun |]. simpl.
    split; [reflexivity |].
    split; [discriminate |].
    split; [discriminate |].
    exists l. split; [reflexivity | exact Hm].
  - intros invalid info rules check why Hin Hget Hcheck Hret Hwhy Htable.
    destruct (rejected_argument_stops_validation self tool_args st w invalid info rules
                check why Hin Hget Hcheck Hret Hwhy Htable) as (reasons & Hreason & Hval).
    eexists. exists reasons. split; [exact Hval |]. cbn [interrupt_type interrupt_data].
    split; [reflexivity |]. split; [reflexivity |]. split; [exact Hreason |].
    intros Hnone. unfold run, _run.
    assert (check_required_args self tool_args st w = (Return tt, st, w)) as Hreq.
    { unfold check_required_args, bind, lift. rewrite Hnone. reflexivity. }
    rewrite (bind_Return _ _ _ _ _ _ _ Hreq).
    apply (bind_Interrupted _ _ _ _ _ _ _ Hval).
  - intros arg info infer P Hin Hget HP st2 w2 tool_args' st3 w3 Hrun.
    apply (infer_fields_writes _ arg infer P Hget HP _ _ _ _ _ _ _
             (or_introl (in_map fst _ _ Hin)) Hrun).
  - apply ends_as_bind.
  - intros st1 w1 Hreq. unfold run, _run.
    rewrite (bind_Return _ _ _ _ _ _ _ Hreq).
    split; [apply ends_as_bind |].
    intros st2 w2 Hval. rewrite (bind_Return _ _ _ _ _ _ _ Hval).
    split; [apply ends_as_bind |].
    intros tool_args' st3 w3 Hinf. rewrite (bind_Return _ _ _ _ _ _ _ Hinf).
    split.
    + intros Hec.
      assert (confirm_args self tool_args' st3 w3
              = (Interrupted
                   {| interrupt_tool := name self;
                      interrupt_type := CONFIRM_ARGS;
                      interrupt_reason :=
                        "Please confirm the execution of the tool with the provided arguments.";
                      interrupt_data := ConfirmArgsData tool_args' (args_schema self) |},
                 st3, w3)) as Hconfirm.
      { unfold confirm_args, bind, get_self. rewrite Hec. reflexivity. }
      rewrite (bind_Interrupted _ _ _ _ _ _ _ Hconfirm).
      eexists. split; [reflexivity |]. split; reflexivity.
    + intros Hec.
      assert (confirm_args self tool_args' st3 w3 = (Return tt, st3, w3)) as Hconfirm.
      { unfold confirm_args, bind, get_self. rewrite Hec. reflexivity. }
      rewrite (bind_Return _ _ _ _ _ _ _ Hconfirm).
      assert (call_execute self tool_args' st3 w3
              = _execute self tool_args' st3
                  (record_execution (name self) tool_args' w3)) as Hcall
        by reflexivity.
      cbv zeta. rewrite <- Hcall.
      split; [apply ends_as_bind |].
      intros result st4 w4 Hexec. rewrite (bind_Return _ _ _ _ _ _ _ Hexec).
      unfold bind, modify_self, confirm_ouputs, get_self, raise_interrupt, ret.
      destruct st4 as [gs ec oc out nbk]. cbn.
      split; intros Hoc; cbn in Hoc; subst oc; cbn.
      * eexists. split; [reflexivity |]. split; reflexivity.
      * reflexivity.
Qed.

Lemma provide_args_precedes_invalid_args_witness :
  let unconfirmed := set_graph_state (ada_state []) cds_historic_fields in
  let editor_args := code_editor_tool_args (VStr "analysis.ipynb") (VStr "plot the data") in
  let editor_fields := set_graph_state (ada_state []) code_editor_fields in
  (exists i,
      _run (@CDSHistoricNotebookTool silent) no_area_unknown_dataset cds_historic_fields
        empty_world
      = (Interrupted i, set_execution_confirmed false cds_historic_fields, empty_world)
      /\ interrupt_type i = PROVIDE_ARGS
      /\ interrupt_type i <> INVALID_ARGS
      /\ interrupt_type i <> CONFIRM_ARGS
      /\ exists l,
           interrupt_data i
           = MissingArgsData l (args_schema (@CDSHistoricNotebookTool silent))
           /\ In "area" l)
  /\ (exists i reasons,
         check_validation_rules (@CDSHistoricNotebookTool silent) no_area_unknown_dataset
           cds_historic_fields empty_world
         = (Interrupted i, set_execution_confirmed false cds_historic_fields, empty_world)
         /\ interrupt_type i = INVALID_ARGS
         /\ interrupt_data i
            = InvalidArgsData reasons (args_schema (@CDSHistoricNotebookTool silent))
         /\ dict_get "historic_dataset" reasons <> None)
  /\ (exists i reasons,
         _run (@CDSHistoricNotebookTool silent) unknown_dataset cds_historic_fields
           empty_world
         = (Interrupted i, set_execution_confirmed false cds_historic_fields, empty_world)
         /\ interrupt_type i = INVALID_ARGS
         /\ interrupt_data i
            = InvalidArgsData reasons (args_schema (@CDSHistoricNotebookTool silent))
         /\ dict_get "historic_dataset" reasons <> None)
  /\ (exists u,
         dict_get "historic_variables" alpine_box_inferred = Some u
         /\ exists l, u = VList l)
  /\ (exists i,
         _run (@CDSHistoricNotebookTool agreeable) alpine_box unconfirmed empty_world
         = (Interrupted i, unconfirmed, empty_world)
         /\ interrupt_type i = CONFIRM_ARGS
         /\ interrupt_data i
            = ConfirmArgsData alpine_box_inferred
                (args_schema (@CDSHistoricNotebookTool agreeable)))
  /\ (exists result st' w',
         _run (@CDSHistoricNotebookTool agreeable) alpine_box cds_confirmed_fields
           empty_world
         = (Return result, set_output result st', w')
         /\ executed w' = [(CDS_HISTORIC_NOTEBOOK_TOOL, alpine_box_inferred)])
  /\ (exists i result st' w',
         _run (@CodeEditorTool coder) editor_args editor_fields world_with_notebook
         = (Interrupted i, set_output result st', w')
         /\ interrupt_type i = CONFIRM_OUTPUT
         /\ interrupt_data i = ConfirmOutputData editor_args result
         /\ executed w' = [(CODE_EDITOR_TOOL, editor_args)]).
Proof.
  cbv zeta.
  split; [| split; [| split; [| split; [| split; [| split]]]]].
  - destruct (provide_args_precedes_invalid_args (@CDSHistoricNotebookTool silent)
                no_area_unknown_dataset cds_historic_fields empty_world)
      as (Hmissing & _).
    apply (Hmissing "area" (no_default "The area of interest for the historic data.")).
    + reflexivity.
    + simpl. right. right. left. reflexivity.
    + reflexivity.
    + reflexivity.
  - destruct (provide_args_precedes_invalid_args (@CDSHistoricNotebookTool silent)
                no_area_unknown_dataset cds_historic_fields empty_world)
      as (_ & Hinvalid & _).
    destruct (Hinvalid "historic_dataset"
                (no_default "The historic dataset to be used for the data retrieval.")
                (default [] (dict_get "historic_dataset"
                               (@cds_historic_validation_rules silent)))
                (nth 0 (default [] (dict_get "historic_dataset"
                                      (@cds_historic_validation_rules silent)))
                   (fun _ => ret VNone))
                (VStr "Invalid historic dataset: era6. It should be a list of valid CDS historic dataset: [['reanalysis_era5_land_monthly_means', 'reanalysis_era5_land']]."))
      as (i & reasons & Hval & Htype & Hdata & Hreason & _).
    + simpl. left. reflexivity.
    + reflexivity.
    + simpl. left. reflexivity.
    + vm_compute. reflexivity.
    + reflexivity.
    + repeat constructor; eexists; vm_compute; reflexivity.
    + exists i, reasons. auto.
  - destruct (provide_args_precedes_invalid_args (@CDSHistoricNotebookTool silent)
                unknown_dataset cds_historic_fields empty_world)
      as (_ & Hinvalid & _).
    destruct (Hinvalid "historic_dataset"
                (no_default "The historic dataset to be used for the data retrieval.")
                (default [] (dict_get "historic_dataset"
                               (@cds_historic_validation_rules silent)))
                (nth 0 (default [] (dict_get "historic_dataset"
                                      (@cds_historic_validation_rules silent)))
                   (fun _ => ret VNone))
                (VStr "Invalid historic dataset: era6. It should be a list of valid CDS historic dataset: [['reanalysis_era5_land_monthly_means', 'reanalysis_era5_land']]."))
      as (i & reasons & _ & Htype & Hdata & Hreason & Hrun).
    + simpl. left. reflexivity.
    + reflexivity.
    + simpl. left. reflexivity.
    + vm_compute. reflexivity.
    + reflexivity.
    + repeat constructor; eexists; vm_compute; reflexivity.
    + exists i, reasons. split; [apply Hrun; reflexivity | auto].
  - destruct (provide_args_precedes_invalid_args (@CDSHistoricNotebookTool agreeable)
                alpine_box cds_confirmed_fields empty_world)
      as (_ & _ & Hinfer & _).
    apply (Hinfer "historic_variables"
             (no_default "List of historic variables to be retrieved from the CDS API.")
             infer_historic_variables (fun u => exists l, u = VList l)
             ltac:(simpl; right; left; reflexivity) eq_refl)
      with (st2 := cds_confirmed_fields) (w2 := empty_world)
           (st3 := cds_confirmed_fields) (w3 := empty_world).
    + intros ka st0 w0 u st0' w0' H. unfold infer_historic_variables in H.
      repeat (cbv beta in H; bind_inv H).
      unfold ret in H. inversion H. eexists. reflexivity.
    + vm_compute. reflexivity.
  - destruct (provide_args_precedes_invalid_args (@CDSHistoricNotebookTool agreeable)
                alpine_box (set_graph_state (ada_state []) cds_historic_fields) empty_world)
      as (_ & _ & _ & _ & Hrequired).
    destruct (Hrequired _ _ ltac:(vm_compute; reflexivity)) as (_ & Hvalid).
    destruct (Hvalid _ _ ltac:(vm_compute; reflexivity)) as (_ & Hinferred).
    destruct (Hinferred alpine_box_inferred _ _ ltac:(vm_compute; reflexivity))
      as (Hunconfirmed & _).
    apply Hunconfirmed. reflexivity.
  - destruct (provide_args_precedes_invalid_args (@CDSHistoricNotebookTool agreeable)
                alpine_box cds_confirmed_fields empty_world)
      as (_ & _ & _ & _ & Hrequired).
    destruct (Hrequired _ _ ltac:(vm_compute; reflexivity)) as (_ & Hvalid).
    destruct (Hvalid _ _ ltac:(vm_compute; reflexivity)) as (_ & Hinferred).
    destruct (Hinferred alpine_box_inferred _ _ ltac:(vm_compute; reflexivity))
      as (_ & Hconfirmed).
    destruct (Hconfirmed eq_refl) as (_ & Hexecuted).
    eexists. eexists. eexists. split.
    + eapply Hexecuted; [vm_compute; reflexivity | reflexivity].
    + reflexivity.
  - destruct (provide_args_precedes_invalid_args (@CodeEditorTool coder)
                (code_editor_tool_args (VStr "analysis.ipynb") (VStr "plot the data"))
                (set_graph_state (ada_state []) code_editor_fields) world_with_notebook)
      as (_ & _ & _ & _ & Hrequired).
    destruct (Hrequired _ _ ltac:(vm_compute; reflexivity)) as (_ & Hvalid).
    destruct (Hvalid _ _ ltac:(vm_compute; reflexivity)) as (_ & Hinferred).
    destruct (Hinferred _ _ _ ltac:(vm_compute; reflexivity)) as (_ & Hconfirmed).
    destruct (Hconfirmed eq_refl) as (_ & Hexecuted).
    edestruct Hexecuted as (Hasked & _); [vm_compute; reflexivity |].
    destruct (Hasked eq_refl) as (i & Hrun & Htype & Hdata).
    exists i. eexists. eexists. eexists.
    split; [exact Hrun |]. split; [exact Htype |]. split; [exact Hdata |]. reflexivity.
Defined.

(** ** Validation: which reason is recorded *)

Lemma apply_rules_recorded (arg : string) (rules : list rule) (results : list value)
      (tool_args : pydict) :
  Forall2 (fun (r : rule) v => forall st w, r tool_args st w = (Return v, st, w))
    rules results ->
  forall invalid_args st w,
    apply_rules arg rules tool_args invalid_args st w
    = (Return (recorded arg results invalid_args), st, w).
Proof.
  induction 1 as [| r v rules results Hr _ IH]; intros invalid_args st w; simpl.
  - reflexivity.
  - rewrite (bind_Return _ _ _ _ _ _ _ (Hr st w)). apply IH.
Qed.

Lemma recorded_all_none (arg : string) (results : list value) (invalid_args : pydict) :
  Forall (fun v => is_none v = true) results ->
  recorded arg results invalid_args = invalid_args.
Proof.
  intros H. revert invalid_args.
  induction H as [| v results Hv _ IH]; intros invalid_args; simpl.
  - reflexivity.
  - unfold recorded in *. simpl. rewrite Hv. apply IH.
Qed.

(** Every rule of an argument is consulted, and the reason kept for the
    argument is the one of the last rule that gave one. *)
Lemma last_reason_is_recorded (arg : string) (rules : list rule)
      (before_it after_it : list value) (why : value) (tool_args invalid_args : pydict)
      st w :
  Forall2 (fun (r : rule) v => forall st w, r tool_args st w = (Return v, st, w))
    rules (before_it ++ why :: after_it) ->
  is_none why = false ->
  Forall (fun v => is_none v = true) after_it ->
  exists invalid_args',
    apply_rules arg rules tool_args invalid_args st w = (Return invalid_args', st, w)
    /\ dict_get arg invalid_args' = Some why.
Proof.
  intros Hrules Hwhy Hafter.
  eexists. split; [apply (apply_rules_recorded _ _ _ _ Hrules) |].
  unfold recorded. rewrite fold_left_app. simpl. rewrite Hwhy.
  fold (recorded arg before_it invalid_args).
  fold (recorded arg after_it (dict_set arg why (recorded arg before_it invalid_args))).
  rewrite (recorded_all_none _ _ _ Hafter). apply dict_get_set_eq.
Qed.

(** C3, on the code: both rules of [reference_period] reject a period of
    three years whose second year lies ahead, and the INVALID_ARGS
    interrupt carries the reason of the second rule, not of the first. *)
Theorem second_reason_replaces_first :
  let first_reason :=
    VStr "Invalid reference_period: (1990, 2090, 2100). It should be a tuple of start and ending year as integers." in
  let second_reason :=
    VStr "Invalid reference_period: (1990, 2090, 2100). It should be in the past, at least in the previous year." in
  let rules :=
    default [] (dict_get "reference_period" (@spi_forecast_validation_rules silent)) in
  (exists first_rule second_rule,
      rules = [first_rule; second_rule]
      /\ first_rule three_year_period spi_forecast_fields empty_world
         = (Return first_reason, spi_forecast_fields, empty_world)
      /\ second_rule three_year_period spi_forecast_fields empty_world
         = (Return second_reason, spi_forecast_fields, empty_world))
  /\ check_validation_rules (@SPIForecastNotebookTool silent) three_year_period
       spi_forecast_fields empty_world
     = (Interrupted
          {| interrupt_tool := SPI_FORECAST_NOTEBOOK_TOOL;
             interrupt_type := INVALID_ARGS;
             interrupt_reason := "Invalid arguments: ['reference_period'].";
             interrupt_data :=
               InvalidArgsData [("reference_period", second_reason)]
                 spi_forecast_schema |},
        set_execution_confirmed false spi_forecast_fields, empty_world).
Proof.
  split.
  - eexists. eexists. split; [reflexivity |]. split; reflexivity.
  - reflexivity.
Qed.

(** The second rule of the start time parses without a guard what the
    first rule has just found unparsable: the run ends in a [ValueError]
    and no INVALID_ARGS interrupt is raised. *)
Lemma unparsable_start_time_raises :
  _run (@CDSHistoricNotebookTool silent) bad_start cds_historic_fields empty_world
  = (Raised ValueError, cds_historic_fields, empty_world).
Proof. reflexivity. Qed.

(** ** The flags at the end of a run *)

Ltac step_inv H :=
  cbv beta zeta in H;
  let a := fresh "a" in
  let st := fresh "st" in
  let w := fresh "w" in
  let H1 := fresh "Hstep" in
  apply bind_Return_inv in H; destruct H as (a & st & w & H1 & H).

Lemma modify_self_inv (f : tool_state -> tool_state) st w u st' w' :
  modify_self f st w = (Return u, st', w') -> st' = f st /\ w' = w.
Proof. unfold modify_self. intros H. inversion H. auto. Qed.

Lemma confirm_ouputs_inv (self : BaseAgentTool) tool_args st w u st' w' :
  confirm_ouputs self tool_args st w = (Return u, st', w') ->
  st' = st /\ w' = w /\ output_confirmed st = true.
Proof.
  unfold confirm_ouputs, bind, get_self. destruct (output_confirmed st); simpl.
  - unfold ret. intros H. inversion H. auto.
  - unfold raise_interrupt. discriminate.
Qed.

Lemma run_returns_flags (self : BaseAgentTool) tool_args st w out st' w' :
  resets_execution self ->
  _run self tool_args st w = (Return out, st', w') ->
  execution_confirmed st' = false /\ output_confirmed st' = true /\ out = output st'.
Proof.
  intros Hreset H. unfold _run in H.
  do 4 step_inv H. step_inv H.
  unfold call_execute in Hstep3. step_inv Hstep3.
  apply Hreset in Hstep3.
  step_inv H. apply modify_self_inv in Hstep5. destruct Hstep5 as [-> ->].
  step_inv H. apply confirm_ouputs_inv in Hstep5. destruct Hstep5 as (-> & -> & Hout).
  step_inv H. unfold get_self in Hstep5. inversion Hstep5; subst.
  unfold ret in H. inversion H; subst.
  simpl in *. auto.
Qed.

Section NotebookTools.
Context `{ext : External}.

Lemma cds_historic_resets_execution : resets_execution CDSHistoricNotebookTool.
Proof.
  intros ka st w v st' w' H. simpl in H. unfold cds_historic_execute in H.
  do 18 step_inv H.
  apply modify_self_inv in Hstep16. destruct Hstep16 as [-> ->].
  cbv beta zeta in H. unfold ret in H. inversion H; subst. reflexivity.
Qed.

Lemma spi_forecast_resets_execution : resets_execution SPIForecastNotebookTool.
Proof.
  intros ka st w v st' w' H. simpl in H. unfold spi_forecast_execute in H.
  do 9 step_inv H.
  apply modify_self_inv in Hstep7. destruct Hstep7 as [-> ->].
  cbv beta zeta in H. unfold ret in H. inversion H; subst. reflexivity.
Qed.

(** C5, as the code has it: [_run] itself resets nothing.  For the
    notebook tools, whose execution body clears [execution_confirmed] as
    its last act, a run that returns leaves [execution_confirmed] false
    and [output_confirmed] true: the two values these tools have after
    construction.  The value returned is the stored output. *)
Theorem notebook_tool_flags_after_return :
  forall (self : BaseAgentTool) (tool_args : pydict) (st : tool_state) (w : world)
         (out : value) (st' : tool_state) (w' : world),
    self = CDSHistoricNotebookTool \/ self = SPIForecastNotebookTool ->
    _run self tool_args st w = (Return out, st', w') ->
    execution_confirmed st' = execution_confirmed cds_historic_fields
    /\ output_confirmed st' = output_confirmed cds_historic_fields
    /\ execution_confirmed st' = execution_confirmed spi_forecast_fields
    /\ output_confirmed st' = output_confirmed spi_forecast_fields
    /\ out = output st'.
Proof.
  intros self tool_args st w out st' w' Hself Hrun.
  assert (resets_execution self) as Hreset.
  { destruct Hself as [-> | ->].
    - apply cds_historic_resets_execution.
    - apply spi_forecast_resets_execution. }
  destruct (run_returns_flags _ _ _ _ _ _ _ Hreset Hrun) as (He & Ho & Hout).
  simpl. auto.
Qed.

End NotebookTools.

Lemma notebook_tool_flags_after_return_witness :
  let result := _run (@CDSHistoricNotebookTool agreeable) alpine_box cds_confirmed_fields
                  empty_world in
  fst (fst result)
  = Return (VDict [("data_source", VStr "alps.zarr"); ("notebook", VStr "alps.ipynb")])
  /\ execution_confirmed (snd (fst result)) = false
  /\ output_confirmed (snd (fst result)) = true.
Proof.
  set (result := _run (@CDSHistoricNotebookTool agreeable) alpine_box cds_confirmed_fields
                   empty_world).
  cbv zeta.
  split; [reflexivity |].
  destruct (@notebook_tool_flags_after_return agreeable
              (@CDSHistoricNotebookTool agreeable) alpine_box cds_confirmed_fields
              empty_world
              (VDict [("data_source", VStr "alps.zarr"); ("notebook", VStr "alps.ipynb")])
              (snd (fst result)) (snd result) (or_introl eq_refl))
    as (He & Ho & _).
  - reflexivity.
  - split; [exact He | exact Ho].
Defined.

(** C5 as stated fails on the base class: a tool that keeps the hooks of
    [BaseAgentTool] and declares [output_confirmed] at construction asks
    for a confirmation of its arguments, the user agrees, the next run
    returns, and [execution_confirmed] is still true although the tool
    was constructed with it false. *)
Lemma plain_tool_stays_confirmed :
  let first := _run (plain_tool "plain_tool" []) [] plain_fields empty_world in
  let confirmation :=
    @args_confirmation_handle agreeable plain_message
      {| interrupt_tool := "plain_tool";
         interrupt_type := CONFIRM_ARGS;
         interrupt_reason :=
           "Please confirm the execution of the tool with the provided arguments.";
         interrupt_data := ConfirmArgsData [] [] |}
      "plain_tool_handler" [("response", VStr "yes, go on")]
      (snd (fst first)) (snd first) in
  let second :=
    _run (plain_tool "plain_tool" []) [] (snd (fst confirmation)) (snd confirmation) in
  fst (fst first)
  = Interrupted
      {| interrupt_tool := "plain_tool";
         interrupt_type := CONFIRM_ARGS;
         interrupt_reason :=
           "Please confirm the execution of the tool with the provided arguments.";
         interrupt_data := ConfirmArgsData [] [] |}
  /\ fst (fst confirmation)
     = Return (Command "plain_tool_handler" (resume_update plain_message))
  /\ fst (fst second) = Return VNone
  /\ execution_confirmed (snd (fst second)) = true
  /\ execution_confirmed plain_fields = false.
Proof. cbv zeta. repeat split; vm_compute; reflexivity. Qed.

(** ** The interrupt handlers *)

Section Handlers.
Context `{ext : External}.

Lemma ask_llm_eq (q : llm_query) (eval_output : bool) st w :
  ask_llm q eval_output st w
  = (Return (answer_of (llm_invoke (llm_calls w) q) eval_output), st, count_llm_call w).
Proof. reflexivity. Qed.

Ltac run_handler :=
  cbv [bind ret lift get_world get_self modify_world modify_self ask_llm count_llm_call];
  cbn [llm_calls].

Lemma default_handlers_lookup :
  default_tool_interupt_handlers !! PROVIDE_ARGS = Some BaseToolInterruptProvideArgsHandler
  /\ default_tool_interupt_handlers !! INVALID_ARGS = Some BaseToolInterruptInvalidArgsHandler
  /\ default_tool_interupt_handlers !! CONFIRM_ARGS
     = Some BaseToolInterruptArgsConfirmationHandler
  /\ default_tool_interupt_handlers !! CONFIRM_OUTPUT
     = Some BaseToolInterruptOutputConfirmationHandler.
Proof. repeat split; reflexivity. Qed.

(** When the interpretation of the human's answer is [None], each of the
    four handlers returns the exit directive; the fields of the tool are
    not touched. *)
Lemma handlers_exit_on_none (i : BaseToolInterrupt) (handler : BaseToolInterruptHandler)
      (id : string) (calls : list ToolCall) (pending : ToolCall) (node : string)
      (interruption : pydict) st w :
  raised_by_tool i ->
  default_tool_interupt_handlers !! interrupt_type i = Some handler ->
  last calls = Some pending ->
  interpretation i pending interruption w = VNone ->
  handle handler (AIMessage id calls) i node interruption st w
  = (Return (exit_directive id interruption), st, count_llm_call (count_llm_call w)).
Proof.
  intros Hwf Hh Hlast Hnone. unfold interpretation, interpretation_query in Hnone.
  destruct i as [tool kind reason data]. unfold raised_by_tool in Hwf.
  cbn [interrupt_type interrupt_data interrupt_reason] in *.
  destruct default_handlers_lookup as (H1 & H2 & H3 & H4).
  destruct Hwf as [[-> (l & s & ->)] | [[-> (d & s & ->)] | [[-> (a & s & ->)]
                  | [-> (a & o & ->)]]]];
    [rewrite H1 in Hh | rewrite H2 in Hh | rewrite H3 in Hh | rewrite H4 in Hh];
    inversion Hh; subst handler; clear Hh H1 H2 H3 H4;
    unfold BaseToolInterruptProvideArgsHandler, BaseToolInterruptInvalidArgsHandler,
      BaseToolInterruptArgsConfirmationHandler,
      BaseToolInterruptOutputConfirmationHandler;
    cbn [handle].
  - unfold provide_args_handle, provide_args_interrupt_message.
    cbn [interrupt_data interrupt_reason data_args_schema data_missing_args].
    destruct s; run_handler; rewrite Hnone; reflexivity.
  - unfold invalid_args_handle, invalid_args_interrupt_message, last_call_args.
    cbn [interrupt_data interrupt_reason data_args_schema data_invalid_args].
    rewrite Hlast.
    destruct s; run_handler; rewrite Hnone; reflexivity.
  - unfold args_confirmation_handle.
    cbn [interrupt_data interrupt_reason data_args].
    run_handler; rewrite Hnone; reflexivity.
  - unfold output_confirmation_handle.
    cbn [interrupt_data interrupt_reason data_args data_output_items].
    run_handler; rewrite Hnone; reflexivity.
Qed.

Lemma exit_update_applied (state : GraphState) (id text : string) :
  existsb (has_id id) (messages state) = true ->
  apply_update state (exit_update (RemoveMessage id) (SystemMessage text))
  = Return
      {| messages :=
           List.filter (fun m => negb (has_id id m)) (messages state) ++ [SystemMessage text];
         user_id := user_id state;
         node_params :=
           {[ CHATBOT_UPDATE_MESSAGES :=
                UpdateMessagesParams [RemoveMessage id; SystemMessage text] ]} |}.
Proof.
  intros Hex. unfold apply_update, exit_update.
  cbn [upd_messages upd_node_params add_messages add_message].
  rewrite Hex. reflexivity.
Qed.

(** C6, as the code has it.  For each of the four interrupt kinds, when
    the human's answer is interpreted as the exit sentinel [None], the
    handler routes to [END] with a patch that removes the message carrying
    the pending tool call, appends exactly one system message and
    overwrites [node_params] with an entry for the chatbot only, so that
    the suspend context of the interrupt node is gone.  The tool itself is
    not touched: [execution_confirmed] and [output_confirmed] keep the
    values they had when the interrupt was raised. *)
Theorem exit_cleans_conversation_not_flags :
  forall (i : BaseToolInterrupt) (handler : BaseToolInterruptHandler) (id : string)
         (calls : list ToolCall) (pending : ToolCall) (node : string)
         (interruption : pydict) (st : tool_state) (w : world) (state : GraphState)
         (interrupt_node : string),
    raised_by_tool i ->
    default_tool_interupt_handlers !! interrupt_type i = Some handler ->
    last calls = Some pending ->
    interpretation i pending interruption w = VNone ->
    In (AIMessage id calls) (messages state) ->
    interrupt_node <> CHATBOT_UPDATE_MESSAGES ->
    exists (text : string) (state' : GraphState),
      handle handler (AIMessage id calls) i node interruption st w
      = (Return (Command END (exit_update (RemoveMessage id) (SystemMessage text))),
         st, count_llm_call (count_llm_call w))
      /\ apply_update state (exit_update (RemoveMessage id) (SystemMessage text))
         = Return state'
      /\ (forall m, In m (messages state') -> has_id id m = false)
      /\ messages state'
         = (List.filter (fun m => negb (has_id id m)) (messages state)
            ++ [SystemMessage text])%list
      /\ node_params state' !! interrupt_node = None.
Proof.
  intros i handler id calls pending node interruption st w state interrupt_node
         Hwf Hh Hlast Hnone Hin Hne.
  assert (existsb (has_id id) (messages state) = true) as Hex.
  { apply existsb_exists. exists (AIMessage id calls). split; [exact Hin |].
    simpl. apply String.eqb_refl. }
  eexists. eexists.
  split; [apply (handlers_exit_on_none i handler id calls pending node interruption st w
                   Hwf Hh Hlast Hnone) |].
  split; [apply (exit_update_applied state id _ Hex) |].
  cbn [messages node_params].
  split; [| split; [reflexivity |]].
  - intros m Hm. apply in_app_or in Hm. destruct Hm as [Hm | Hm].
    + apply filter_In in Hm. destruct Hm as [_ Hm].
      apply negb_true_iff in Hm. exact Hm.
    + destruct Hm as [<- | []]. reflexivity.
  - apply lookup_singleton_ne. congruence.
Qed.

Lemma update_last_call_dict (calls : list ToolCall) (pending : ToolCall) (d : pydict) :
  last calls = Some pending ->
  exists calls', update_last_call calls (VDict d) = Return calls'.
Proof.
  induction calls as [| c calls IH]; intros Hlast.
  - discriminate Hlast.
  - destruct calls as [| c' calls].
    + simpl. eexists. reflexivity.
    + destruct (IH Hlast) as (calls' & Hc).
      change (update_last_call (c :: c' :: calls) (VDict d))
        with (match update_last_call (c' :: calls) (VDict d) with
              | Return rest' => Return (c :: rest')
              | o => o
              end).
      rewrite Hc. eexists. reflexivity.
Qed.

(** The merge of an arbitrary value into the pending call either succeeds
    or raises; it never suspends. *)
Lemma update_pair_outcome (e : value) :
  (exists p, update_pair e = Return p) \/ (exists x, update_pair e = Raised x).
Proof.
  unfold update_pair.
  repeat match goal with
         | |- context [match ?x with _ => _ end] => destruct x
         end; eauto.
Qed.

Lemma update_pairs_outcome (l : list value) (d : pydict) :
  (exists d', update_pairs d l = Return d') \/ (exists x, update_pairs d l = Raised x).
Proof.
  revert d. induction l as [| e l IH]; intros d; simpl.
  - left. eexists. reflexivity.
  - destruct (update_pair_outcome e) as [((k & v) & ->) | (x & ->)].
    + apply IH.
    + right. eexists. reflexivity.
Qed.

Lemma dict_update_value_outcome (d : pydict) (v : value) :
  (exists d', dict_update_value d v = Return d')
  \/ (exists x, dict_update_value d v = Raised x).
Proof.
  destruct v as [| b | z | f | s | l | l | u | ds | vr]; simpl;
    try (right; eexists; reflexivity);
    try (left; eexists; reflexivity);
    try apply update_pairs_outcome.
  destruct s; [left | right]; eexists; reflexivity.
Qed.

Lemma update_last_call_cons (c c' : ToolCall) (calls : list ToolCall) (v : value) :
  update_last_call (c :: c' :: calls) v
  = match update_last_call (c' :: calls) v with
    | Return rest' => Return (c :: rest')
    | o => o
    end.
Proof. reflexivity. Qed.

Lemma update_last_call_outcome (calls : list ToolCall) (v : value) :
  (exists calls', update_last_call calls v = Return calls')
  \/ (exists x, update_last_call calls v = Raised x).
Proof.
  induction calls as [| c calls IH].
  - right. eexists. reflexivity.
  - destruct calls as [| c' calls].
    + simpl. destruct (dict_update_value_outcome (call_args c) v) as [(d' & ->) | (x & ->)];
        [left | right]; eexists; reflexivity.
    + rewrite update_last_call_cons.
      destruct IH as [(calls' & ->) | (x & ->)]; [left | right]; eexists; reflexivity.
Qed.

(** Merging a non-empty text into the pending call raises [ValueError]. *)
Lemma update_last_call_text (calls : list ToolCall) (pending : ToolCall) (content : string) :
  last calls = Some pending ->
  content <> "" ->
  update_last_call calls (VStr content) = Raised ValueError.
Proof.
  intros Hlast Hne. induction calls as [| c calls IH].
  - discriminate Hlast.
  - destruct calls as [| c' calls].
    + simpl. destruct content; [contradiction Hne; reflexivity | reflexivity].
    + rewrite update_last_call_cons. rewrite (IH Hlast). reflexivity.
Qed.

(** The three handlers that ask for arguments, as one equation. *)
Lemma argument_handlers_equation (i : BaseToolInterrupt)
      (handler : BaseToolInterruptHandler) (id : string) (calls : list ToolCall)
      (pending : ToolCall) (node : string) (interruption : pydict) st w :
  raised_by_tool i ->
  default_tool_interupt_handlers !! interrupt_type i = Some handler ->
  last calls = Some pending ->
  interrupt_type i <> CONFIRM_OUTPUT ->
  handle handler (AIMessage id calls) i node interruption st w
  = if is_none (interpretation i pending interruption w)
    then (Return (exit_directive id interruption), st, count_llm_call (count_llm_call w))
    else
      match update_last_call calls (interpretation i pending interruption w) with
      | Return calls' =>
          (Return (Command node (resume_update (AIMessage id calls'))),
           (if String.eqb (interrupt_type i) CONFIRM_ARGS
            then set_execution_confirmed true st else st),
           count_llm_call (count_llm_call w))
      | Interrupted i' => (Interrupted i', st, count_llm_call (count_llm_call w))
      | Raised e => (Raised e, st, count_llm_call (count_llm_call w))
      end.
Proof.
  intros Hwf Hh Hlast Hkind. unfold interpretation, interpretation_query.
  destruct i as [tool kind reason data]. unfold raised_by_tool in Hwf.
  cbn [interrupt_type interrupt_data interrupt_reason] in *.
  destruct default_handlers_lookup as (H1 & H2 & H3 & H4).
  destruct Hwf as [[-> (l & s & ->)] | [[-> (d' & s & ->)] | [[-> (a & s & ->)]
                  | [-> _]]]];
    [rewrite H1 in Hh | rewrite H2 in Hh | rewrite H3 in Hh | congruence];
    inversion Hh; subst handler; clear Hh H1 H2 H3 H4;
    unfold BaseToolInterruptProvideArgsHandler, BaseToolInterruptInvalidArgsHandler,
      BaseToolInterruptArgsConfirmationHandler;
    cbn [handle].
  - unfold provide_args_handle, provide_args_interrupt_message, update_tool_message.
    cbn [interrupt_data interrupt_reason data_args_schema data_missing_args].
    destruct s; run_handler;
      (destruct (is_none _); [reflexivity |]);
      destruct (update_last_call calls _); reflexivity.
  - unfold invalid_args_handle, invalid_args_interrupt_message, last_call_args,
      update_tool_message.
    cbn [interrupt_data interrupt_reason data_args_schema data_invalid_args].
    rewrite Hlast.
    destruct s; run_handler;
      (destruct (is_none _); [reflexivity |]);
      destruct (update_last_call calls _); reflexivity.
  - unfold args_confirmation_handle, update_tool_message.
    cbn [interrupt_data interrupt_reason data_args].
    run_handler.
    destruct (is_none _); [reflexivity |].
    destruct (update_last_call calls _); reflexivity.
Qed.

(** C7, as the code has it.  A reply that cannot be evaluated reaches the
    handler as the reply text itself.  The three handlers that ask for
    arguments take the exit branch exactly when the interpretation is
    [None]; every other interpretation is merged into the pending call:
    when the merge succeeds, as it does for every mapping, the call goes
    back to the tool handler node (with the execution confirmed in the
    CONFIRM_ARGS case), and when it raises, as it does for every non-empty
    reply text, the handler raises the same exception.  In the
    output-confirmation handler every interpretation that is neither [True]
    nor [False], a reply text included, takes the exit branch.  No handler
    puts a question to the human again: a handler either leaves to [END],
    or hands the call back to the tool handler node, or raises. *)
Theorem interpretation_outcomes :
  forall (i : BaseToolInterrupt) (handler : BaseToolInterruptHandler) (id : string)
         (calls : list ToolCall) (pending : ToolCall) (node : string)
         (interruption : pydict) (st : tool_state) (w : world),
    raised_by_tool i ->
    default_tool_interupt_handlers !! interrupt_type i = Some handler ->
    last calls = Some pending ->
    let v := interpretation i pending interruption w in
    let result := handle handler (AIMessage id calls) i node interruption st w in
    let asked := count_llm_call (count_llm_call w) in
    (forall content,
        literal_eval (unfenced content) = None -> answer_of content true = VStr content)
    /\ (interrupt_type i <> CONFIRM_OUTPUT ->
        (v = VNone -> result = (Return (exit_directive id interruption), st, asked))
        /\ (v <> VNone ->
            (exists calls',
                update_last_call calls v = Return calls'
                /\ result
                   = (Return (Command node (resume_update (AIMessage id calls'))),
                      (if String.eqb (interrupt_type i) CONFIRM_ARGS
                       then set_execution_confirmed true st else st),
                      asked))
            \/ (exists e,
                   update_last_call calls v = Raised e /\ result = (Raised e, st, asked)))
        /\ (fst (fst result) = Return (exit_directive id interruption) -> v = VNone)
        /\ (forall d, v = VDict d -> exists calls', update_last_call calls v = Return calls')
        /\ (forall content,
               v = VStr content -> content <> "" -> result = (Raised ValueError, st, asked)))
    /\ (interrupt_type i = CONFIRM_OUTPUT ->
        (forall b, v <> VBool b) ->
        result = (Return (exit_directive id interruption), st, asked))
    /\ ((exists update st' w', result = (Return (Command END update), st', w'))
        \/ (exists update st' w', result = (Return (Command node update), st', w'))
        \/ (exists e st' w', result = (Raised e, st', w'))).
Proof.
  intros i handler id calls pending node interruption st w Hwf Hh Hlast v result asked.
  assert (interrupt_type i <> CONFIRM_OUTPUT ->
          (v = VNone /\ result = (Return (exit_directive id interruption), st, asked))
          \/ (v <> VNone
              /\ exists calls',
                  update_last_call calls v = Return calls'
                  /\ result
                     = (Return (Command node (resume_update (AIMessage id calls'))),
                        (if String.eqb (interrupt_type i) CONFIRM_ARGS
                         then set_execution_confirmed true st else st),
                        asked))
          \/ (v <> VNone
              /\ exists e,
                  update_last_call calls v = Raised e /\ result = (Raised e, st, asked)))
    as Hargs.
  { intros Hkind. unfold result.
    rewrite (argument_handlers_equation i handler id calls pending node interruption st w
               Hwf Hh Hlast Hkind).
    fold v. fold asked.
    destruct (is_none v) eqn:Hnone.
    - left. split; [apply is_none_true; exact Hnone | reflexivity].
    - assert (v <> VNone) as Hv.
      { intros Heq. apply is_none_true in Heq. congruence. }
      destruct (update_last_call_outcome calls v) as [(calls' & Hc) | (e & Hc)].
      + right. left. split; [exact Hv |]. exists calls'. rewrite Hc.
        split; reflexivity.
      + right. right. split; [exact Hv |]. exists e. rewrite Hc. split; reflexivity. }
  split; [| split; [| split]].
  - intros content Hfail. unfold answer_of. rewrite Hfail. reflexivity.
  - intros Hkind.
    destruct (Hargs Hkind)
      as [(Hv & Hr) | [(Hv & calls' & Hc & Hr) | (Hv & e & Hc & Hr)]].
    + split; [intros _; exact Hr |]. split; [intros Hne; contradiction |].
      split; [intros _; exact Hv |].
      split; [intros d Hd; rewrite Hd in Hv; discriminate Hv |].
      intros content Hc _. rewrite Hc in Hv. discriminate Hv.
    + split; [intros Hn; contradiction |].
      split; [intros _; left; exists calls'; split; [exact Hc | exact Hr] |].
      split; [rewrite Hr; cbn [fst]; unfold exit_directive, resume_update, exit_update;
              intros Heq; discriminate Heq |].
      split; [intros d _; exists calls'; exact Hc |].
      intros content Hs Hne. rewrite Hs in Hc.
      rewrite (update_last_call_text calls pending content Hlast Hne) in Hc.
      discriminate Hc.
    + split; [intros Hn; contradiction |].
      split; [intros _; right; exists e; split; [exact Hc | exact Hr] |].
      split; [rewrite Hr; cbn [fst]; intros Heq; discriminate Heq |].
      split.
      * intros d Hd. rewrite Hd in Hc.
        destruct (update_last_call_dict calls pending d Hlast) as (calls' & Hc').
        rewrite Hc' in Hc. discriminate Hc.
      * intros content Hs Hne. rewrite Hs in Hc.
        rewrite (update_last_call_text calls pending content Hlast Hne) in Hc.
        injection Hc as <-. exact Hr.
  - intros Hkind Hnot. unfold result, asked. unfold v in Hnot.
    unfold interpretation, interpretation_query in Hnot.
    destruct i as [tool kind reason data]. unfold raised_by_tool in Hwf.
    cbn [interrupt_type interrupt_data interrupt_reason] in *.
    destruct default_handlers_lookup as (_ & _ & _ & H4).
    destruct Hwf as [[-> _] | [[-> _] | [[-> _] | [-> (a & o & ->)]]]];
      try discriminate Hkind.
    rewrite H4 in Hh. inversion Hh; subst handler; clear Hh H4.
    unfold BaseToolInterruptOutputConfirmationHandler; cbn [handle].
    unfold output_confirmation_handle.
    cbn [interrupt_data interrupt_reason data_args data_output_items].
    run_handler.
    destruct (answer_of _ true) as [| b | | | | | | | |] eqn:Hans;
      try reflexivity.
    exfalso. apply (Hnot b). reflexivity.
  - destruct (String.eqb (interrupt_type i) CONFIRM_OUTPUT) eqn:Hkind.
    + apply String.eqb_eq in Hkind. unfold result. clear Hargs.
      destruct i as [tool kind reason data]. unfold raised_by_tool in Hwf.
      cbn [interrupt_type interrupt_data interrupt_reason] in *.
      destruct default_handlers_lookup as (_ & _ & _ & H4).
      destruct Hwf as [[-> _] | [[-> _] | [[-> _] | [-> (a & o & ->)]]]];
        try discriminate Hkind.
      rewrite H4 in Hh. inversion Hh; subst handler; clear Hh H4.
      unfold BaseToolInterruptOutputConfirmationHandler; cbn [handle].
      unfold output_confirmation_handle, update_tool_message.
      cbn [interrupt_data interrupt_reason data_args data_output_items].
      run_handler.
      destruct (answer_of _ true) as [| [|] | | | | | | | |];
        try (left; eexists; eexists; eexists;
             unfold exit_tool_process, message_id; run_handler; reflexivity).
      * right. left. eexists. eexists. eexists. reflexivity.
      * cbn [llm_calls].
        match goal with
        | |- context [update_last_call calls ?u] =>
            destruct (update_last_call_outcome calls u) as [(calls' & ->) | (e & ->)]
        end.
        -- right. left. eexists. eexists. eexists. reflexivity.
        -- right. right. eexists. eexists. eexists. reflexivity.
    + assert (interrupt_type i <> CONFIRM_OUTPUT) as Hne.
      { intros Heq. apply String.eqb_neq in Hkind. contradiction. }
      destruct (Hargs Hne) as [(_ & Hr) | [(_ & calls' & _ & Hr) | (_ & e & _ & Hr)]];
        rewrite Hr.
      * left. eexists. eexists. eexists. reflexivity.
      * right. left. eexists. eexists. eexists. reflexivity.
      * right. right. eexists. eexists. eexists. reflexivity.
Qed.

End Handlers.

Lemma exit_cleans_conversation_not_flags_witness :
  exists (text : string) (state' : GraphState),
    handle (@BaseToolInterruptProvideArgsHandler silent)
      (AIMessage "m1" [cds_call_without_dataset]) cds_missing_dataset_interrupt
      CDS_INGESTOR_TOOL_HANDLER [("response", VStr "forget it")]
      (set_execution_confirmed false cds_historic_fields) empty_world
    = (Return (Command END (exit_update (RemoveMessage "m1") (SystemMessage text))),
       set_execution_confirmed false cds_historic_fields,
       count_llm_call (count_llm_call empty_world))
    /\ apply_update (ada_state [AIMessage "m1" [cds_call_without_dataset]])
         (exit_update (RemoveMessage "m1") (SystemMessage text))
       = Return state'
    /\ (forall m, In m (messages state') -> has_id "m1" m = false)
    /\ messages state'
       = (List.filter (fun m => negb (has_id "m1" m))
            (messages (ada_state [AIMessage "m1" [cds_call_without_dataset]]))
          ++ [SystemMessage text])%list
    /\ node_params state' !! CDS_INGESTOR_TOOL_INTERRUPT = None.
Proof.
  apply (@exit_cleans_conversation_not_flags silent cds_missing_dataset_interrupt
           (@BaseToolInterruptProvideArgsHandler silent) "m1" [cds_call_without_dataset]
           cds_call_without_dataset CDS_INGESTOR_TOOL_HANDLER
           [("response", VStr "forget it")]
           (set_execution_confirmed false cds_historic_fields) empty_world
           (ada_state [AIMessage "m1" [cds_call_without_dataset]])
           CDS_INGESTOR_TOOL_INTERRUPT).
  - left. split; [reflexivity |]. eexists. eexists. reflexivity.
  - reflexivity.
  - reflexivity.
  - reflexivity.
  - simpl. left. reflexivity.
  - discriminate.
Defined.

(** C6 as stated fails on the flags: the CDS historic tool is asked
    without a dataset, the handler node stashes a PROVIDE_ARGS interrupt,
    the human's answer is read as the exit sentinel, the interrupt node
    routes to [END], and the tool still has [output_confirmed] true. *)
Lemma exit_leaves_output_confirmed :
  let state0 := ada_state [AIMessage "m1" [cds_call_without_dataset]] in
  let suspended :=
    tool_handler_template cds_ingestor_tool_handler (cds_registry silent) state0
      empty_world in
  let state1 :=
    {| messages := messages state0; user_id := user_id state0;
       node_params :=
         {[ CDS_INGESTOR_TOOL_INTERRUPT :=
              InterruptParams (AIMessage "m1" [cds_call_without_dataset])
                cds_missing_dataset_interrupt CDS_INGESTOR_TOOL_HANDLER ]} |} in
  let left_process :=
    tool_interrupt_node_template cds_ingestor_tool_interrupt
      (@default_tool_interupt_handlers silent) (snd (fst suspended)) state1
      [("response", VStr "forget it")] (snd suspended) in
  fst (fst suspended)
  = Return (Command CDS_INGESTOR_TOOL_INTERRUPT
              {| upd_messages := [];
                 upd_node_params := Some (node_params state1);
                 upd_requested_agent := None |})
  /\ apply_update state0 (update_of (Command CDS_INGESTOR_TOOL_INTERRUPT
                                       {| upd_messages := [];
                                          upd_node_params := Some (node_params state1);
                                          upd_requested_agent := None |}))
     = Return state1
  /\ fst (fst left_process) = Return (@exit_directive silent "m1" [("response", VStr "forget it")])
  /\ output_confirmed (fields_of (snd (fst left_process)) CDS_HISTORIC_NOTEBOOK_TOOL)
     = true.
Proof. cbv zeta. repeat split; vm_compute; reflexivity. Qed.

Lemma interpretation_outcomes_witness :
  handle (@BaseToolInterruptProvideArgsHandler puzzled)
    (AIMessage "m1" [cds_call_without_dataset]) cds_missing_dataset_interrupt
    CDS_INGESTOR_TOOL_HANDLER [("response", VStr "the monthly one")]
    (set_execution_confirmed false cds_historic_fields) empty_world
  = (Raised ValueError, set_execution_confirmed false cds_historic_fields,
     count_llm_call (count_llm_call empty_world))
  /\ handle (@BaseToolInterruptProvideArgsHandler agreeable)
       (AIMessage "m1" [cds_call_without_dataset]) cds_missing_dataset_interrupt
       CDS_INGESTOR_TOOL_HANDLER [("response", VStr "the monthly one")]
       (set_execution_confirmed false cds_historic_fields) empty_world
     = (Return (Command CDS_INGESTOR_TOOL_HANDLER
                  (resume_update (AIMessage "m1" [cds_call_without_dataset]))),
        set_execution_confirmed false cds_historic_fields,
        count_llm_call (count_llm_call empty_world))
  /\ handle (@BaseToolInterruptOutputConfirmationHandler puzzled)
       (AIMessage "m3" [code_editor_call]) (code_editor_output_interrupt "plot(data)")
       CODE_EDITOR_TOOL_HANDLER [("response", VStr "hmm")] code_editor_fields empty_world
     = (Return (@exit_directive puzzled "m3" [("response", VStr "hmm")]), code_editor_fields,
        count_llm_call (count_llm_call empty_world)).
Proof.
  split; [| split].
  - pose proof (@interpretation_outcomes puzzled cds_missing_dataset_interrupt
                  (@BaseToolInterruptProvideArgsHandler puzzled) "m1"
                  [cds_call_without_dataset] cds_call_without_dataset
                  CDS_INGESTOR_TOOL_HANDLER [("response", VStr "the monthly one")]
                  (set_execution_confirmed false cds_historic_fields) empty_world
                  (or_introl (conj eq_refl (ex_intro _ _ (ex_intro _ _ eq_refl))))
                  eq_refl eq_refl) as H.
    cbv zeta in H. destruct H as (_ & Hargs & _).
    destruct Hargs as (_ & _ & _ & _ & Htext); [discriminate |].
    apply (Htext "I cannot tell"); [reflexivity | discriminate].
  - pose proof (@interpretation_outcomes agreeable cds_missing_dataset_interrupt
                  (@BaseToolInterruptProvideArgsHandler agreeable) "m1"
                  [cds_call_without_dataset] cds_call_without_dataset
                  CDS_INGESTOR_TOOL_HANDLER [("response", VStr "the monthly one")]
                  (set_execution_confirmed false cds_historic_fields) empty_world
                  (or_introl (conj eq_refl (ex_intro _ _ (ex_intro _ _ eq_refl))))
                  eq_refl eq_refl) as H.
    cbv zeta in H. destruct H as (_ & Hargs & _).
    destruct Hargs as (_ & Hmerge & _); [discriminate |].
    destruct Hmerge as [(calls' & Hc & Hr) | (e & Hc & _)].
    + vm_compute. discriminate.
    + vm_compute in Hc. injection Hc as <-. exact Hr.
    + vm_compute in Hc. discriminate Hc.
  - apply (proj1 (proj2 (proj2 (@interpretation_outcomes puzzled
                         (code_editor_output_interrupt "plot(data)")
                         (@BaseToolInterruptOutputConfirmationHandler puzzled) "m3"
                         [code_editor_call] code_editor_call CODE_EDITOR_TOOL_HANDLER
                         [("response", VStr "hmm")] code_editor_fields empty_world
                         (or_intror (or_intror (or_intror
                            (conj eq_refl
                               (ex_intro _ _ (ex_intro _ _ eq_refl))))))
                         eq_refl eq_refl)))).
    + reflexivity.
    + intros b. vm_compute. discriminate.
Defined.

(** C7 as stated fails: with a reply that is no literal, the handler of a
    PROVIDE_ARGS interrupt neither asks again nor leaves the tool process;
    merging the reply text into the arguments raises [ValueError] out of
    the interrupt node.  The handler of a CONFIRM_OUTPUT interrupt takes
    the exit branch on the same reply. *)
Lemma unparsable_reply_raises_or_exits :
  let state1 :=
    {| messages := [AIMessage "m1" [cds_call_without_dataset]];
       user_id := "ada";
       node_params :=
         {[ CDS_INGESTOR_TOOL_INTERRUPT :=
              InterruptParams (AIMessage "m1" [cds_call_without_dataset])
                cds_missing_dataset_interrupt CDS_INGESTOR_TOOL_HANDLER ]} |} in
  @answer_of puzzled "I cannot tell" true = VStr "I cannot tell"
  /\ fst (fst (tool_interrupt_node_template cds_ingestor_tool_interrupt
                 (@default_tool_interupt_handlers puzzled) (cds_registry puzzled) state1
                 [("response", VStr "the monthly one")] empty_world))
     = Raised ValueError
  /\ fst (fst (handle (@BaseToolInterruptOutputConfirmationHandler puzzled)
                 (AIMessage "m3" [code_editor_call])
                 (code_editor_output_interrupt "plot(data)") CODE_EDITOR_TOOL_HANDLER
                 [("response", VStr "looks fine")] code_editor_fields empty_world))
     = Return (@exit_directive puzzled "m3" [("response", VStr "looks fine")]).
Proof. cbv zeta. repeat split; vm_compute; reflexivity. Qed.

(** ** Output confirmation in the code editor *)

Section CodeEditor.
Context `{ext : External}.

Local Arguments bind {A B} m k st w /.
Local Arguments ret {A} a st w /.
Local Arguments lift {A} o st w /.
Local Arguments raise {A} e st w /.
Local Arguments raise_interrupt {A} i st w /.
Local Arguments get_self st w /.
Local Arguments get_world st w /.
Local Arguments modify_self f st w /.
Local Arguments modify_world f st w /.
Local Arguments getitem {V} d k /.
Local Arguments keyword d k /.
Local Arguments current_user /.
Local Arguments notebook_by_name author notebook_name /.
Local Arguments save_notebook nb /.
Local Arguments ask_llm {ext} message eval_output /.
Local Arguments answer_of : simpl never.

Ltac unfold_run :=
  unfold _run, check_required_args, check_validation_rules, infer_args, confirm_args,
    call_execute, confirm_ouputs.

(** The first pass: the code is generated and offered for confirmation;
    nothing is saved. *)
Lemma code_editor_first_pass (g : GraphState) (nb : Notebook) (src : string)
      (code_request : value) (st : tool_state) (w : world) :
  graph_state st = Some g ->
  notebooks w !! (user_id g, src) = Some nb ->
  is_none code_request = false ->
  execution_confirmed st = true ->
  output_confirmed st = false ->
  let tool_args := code_editor_tool_args (VStr src) code_request in
  let code :=
    llm_invoke (llm_calls w)
      (GenerateCode code_request
         (map source
            (List.filter (fun c => String.eqb (cell_type c) "code"
                                   && negb (String.eqb (source c) ""))
               (nb_cells nb)))) in
  _run CodeEditorTool tool_args st w
  = (Interrupted
       {| interrupt_tool := CODE_EDITOR_TOOL;
          interrupt_type := CONFIRM_OUTPUT;
          interrupt_reason := "A user confirmation of the ouput is required.";
          interrupt_data :=
            ConfirmOutputData tool_args (code_editor_output (VStr src) code) |},
     set_output (code_editor_output (VStr src) code) (set_notebook (Some nb) st),
     count_llm_call (record_execution CODE_EDITOR_TOOL tool_args w)).
Proof.
  intros Hg Hnb Hreq He Ho.
  destruct st as [gs ec oc out nbk]. destruct w as [calls clock nbs sv ex].
  simpl in Hg, Hnb, He, Ho. subst gs ec oc.
  unfold_run. cbn. rewrite Hreq. cbn. rewrite Hnb. cbn. rewrite Hnb. cbn.
  reflexivity.
Qed.

(** The pass after the confirmation: the stored code is appended to the
    notebook, the notebook is saved, and the same output is stored. *)
Lemma code_editor_second_pass (g : GraphState) (nb : Notebook) (src code : string)
      (code_request : value) (st : tool_state) (w : world) :
  graph_state st = Some g ->
  notebooks w !! (user_id g, src) = Some nb ->
  is_none code_request = false ->
  execution_confirmed st = true ->
  output_confirmed st = true ->
  output st = code_editor_output (VStr src) code ->
  let tool_args := code_editor_tool_args (VStr src) code_request in
  let nb' := with_code_cell nb (appended_code code) in
  _run CodeEditorTool tool_args st w
  = (Interrupted
       {| interrupt_tool := CODE_EDITOR_TOOL;
          interrupt_type := CONFIRM_OUTPUT;
          interrupt_reason := "A user confirmation of the ouput is required.";
          interrupt_data :=
            ConfirmOutputData tool_args (code_editor_output (VStr src) code) |},
     set_output (code_editor_output (VStr src) code)
       (set_output_confirmed false (set_notebook (Some nb') st)),
     store_notebook nb' (record_execution CODE_EDITOR_TOOL tool_args w)).
Proof.
  intros Hg Hnb Hreq He Ho Hout.
  destruct st as [gs ec oc out nbk]. destruct w as [calls clock nbs sv ex].
  simpl in Hg, Hnb, He, Ho, Hout. subst gs ec oc out.
  unfold_run. cbn. rewrite Hreq. cbn. rewrite Hnb. cbn. rewrite Hnb. cbn.
  reflexivity.
Qed.

(** C1, as the code has it.  [_run] has no short cut: after the human has
    confirmed the output of the code editor, the re-entry calls the
    execution body a second time.  The first pass asks the language model
    for the code, stores it in the output and saves nothing.  The second
    pass does not ask the language model: it takes the generated code from
    the stored output, appends that code, without its fence, as a new cell
    to the notebook and saves the notebook, the one save of the two passes.
    The second pass stores the output of the first and ends in a
    CONFIRM_OUTPUT interrupt as well. *)
Theorem confirmed_output_reruns_body :
  forall (g : GraphState) (nb : Notebook) (src : string) (code_request : value)
         (st : tool_state) (w resumed : world),
    graph_state st = Some g ->
    notebooks w !! (user_id g, src) = Some nb ->
    notebooks resumed !! (user_id g, src) = Some nb ->
    is_none code_request = false ->
    execution_confirmed st = true ->
    output_confirmed st = false ->
    let tool_args := code_editor_tool_args (VStr src) code_request in
    let first := _run CodeEditorTool tool_args st w in
    let st1 := snd (fst first) in
    let second := _run CodeEditorTool tool_args (set_output_confirmed true st1) resumed in
    let generated_code :=
      llm_invoke (llm_calls w)
        (GenerateCode code_request
           (map source
              (List.filter (fun c => String.eqb (cell_type c) "code"
                                     && negb (String.eqb (source c) ""))
                 (nb_cells nb)))) in
    (exists i,
        fst (fst first) = Interrupted i
        /\ interrupt_type i = CONFIRM_OUTPUT
        /\ interrupt_data i = ConfirmOutputData tool_args (output st1))
    /\ output st1 = code_editor_output (VStr src) generated_code
    /\ llm_calls (snd first) = S (llm_calls w)
    /\ executed (snd first) = (executed w ++ [(CODE_EDITOR_TOOL, tool_args)])%list
    /\ saved (snd first) = saved w
    /\ (exists i,
           fst (fst second) = Interrupted i
           /\ interrupt_type i = CONFIRM_OUTPUT
           /\ interrupt_data i = ConfirmOutputData tool_args (output st1))
    /\ executed (snd second) = (executed resumed ++ [(CODE_EDITOR_TOOL, tool_args)])%list
    /\ llm_calls (snd second) = llm_calls resumed
    /\ saved (snd second)
       = (saved resumed ++ [with_code_cell nb (appended_code generated_code)])%list
    /\ notebook (snd (fst second)) = Some (with_code_cell nb (appended_code generated_code))
    /\ output (snd (fst second)) = output st1.
Proof.
  intros g nb src code_request st w resumed Hg Hnb Hnb' Hreq He Ho.
  cbv zeta.
  rewrite (code_editor_first_pass g nb src code_request st w Hg Hnb Hreq He Ho).
  cbn [fst snd].
  match goal with
  | |- context [set_output (code_editor_output (VStr src) ?c) _] => set (code := c)
  end.
  rewrite (code_editor_second_pass g nb src code code_request _ resumed);
    [| reflexivity || (simpl; assumption) ..].
  cbn [fst snd].
  split; [eexists; split; [reflexivity | split; reflexivity] |].
  do 4 (split; [reflexivity |]).
  split; [eexists; split; [reflexivity | split; reflexivity] |].
  repeat split; reflexivity.
Qed.

End CodeEditor.

Lemma confirmed_output_reruns_body_witness :
  let tool_args := code_editor_tool_args (VStr "analysis.ipynb") (VStr "plot the data") in
  let st := set_graph_state (ada_state []) code_editor_fields in
  let first := _run (@CodeEditorTool coder) tool_args st world_with_notebook in
  let second :=
    _run (@CodeEditorTool coder) tool_args (set_output_confirmed true (snd (fst first)))
      (snd first) in
  output (snd (fst first)) = code_editor_output (VStr "analysis.ipynb") "plot(data)"
  /\ saved (snd first) = []
  /\ executed (snd second)
     = [(CODE_EDITOR_TOOL, tool_args); (CODE_EDITOR_TOOL, tool_args)]
  /\ llm_calls (snd second) = llm_calls (snd first)
  /\ saved (snd second) = [with_code_cell analysis_notebook "plot(data)"]
  /\ output (snd (fst second)) = output (snd (fst first)).
Proof.
  cbv zeta.
  destruct (@confirmed_output_reruns_body coder (ada_state []) analysis_notebook
              "analysis.ipynb" (VStr "plot the data")
              (set_graph_state (ada_state []) code_editor_fields) world_with_notebook
              (snd (_run (@CodeEditorTool coder)
                      (code_editor_tool_args (VStr "analysis.ipynb") (VStr "plot the data"))
                      (set_graph_state (ada_state []) code_editor_fields)
                      world_with_notebook)))
    as (_ & Hstored & _ & Hfirst & Hsaved & _ & Hsecond & Hcalls & Hsave & _ & Hout);
    try reflexivity.
  cbv zeta in Hstored, Hfirst, Hsaved, Hsecond, Hcalls, Hsave, Hout.
  split; [exact Hstored |]. split; [exact Hsaved |].
  split; [rewrite Hsecond, Hfirst; reflexivity |].
  split; [exact Hcalls |]. split; [| exact Hout].
  rewrite Hsave, Hsaved. reflexivity.
Defined.

(** C1 as stated fails: in the code editor sub-flow the tool asks to have
    its output confirmed, the human confirms, and the re-entry through the
    tool handler node calls the execution body again; the history of
    executions has two entries.  That second call is where the notebook is
    saved, and with this base class it ends in one more CONFIRM_OUTPUT
    interrupt rather than in a tool response. *)
Lemma reentry_calls_the_body_again :
  let state0 := ada_state [AIMessage "m3" [code_editor_call]] in
  let handlers :=
    snd (BaseToolInterruptNode_init CODE_EDITOR_TOOL_HANDLER CODE_EDITOR_TOOL_INTERRUPT
           (code_editor_custom_handlers coder) (@default_tool_interupt_handlers coder)) in
  let first :=
    tool_handler_template code_editor_tool_handler (code_editor_registry coder) state0
      world_with_notebook in
  let confirmed :=
    tool_interrupt_node_template code_editor_tool_interrupt handlers (snd (fst first))
      (code_editor_suspended (code_editor_output_interrupt "plot(data)"))
      [("response", VStr "yes, add it")] (snd first) in
  let reentry :=
    tool_handler_template code_editor_tool_handler (snd (fst confirmed)) state0
      (snd confirmed) in
  fst (fst first)
  = Return (Command CODE_EDITOR_TOOL_INTERRUPT
              {| upd_messages := [];
                 upd_node_params :=
                   Some (node_params
                           (code_editor_suspended
                              (code_editor_output_interrupt "plot(data)")));
                 upd_requested_agent := None |})
  /\ fst (fst confirmed)
     = Return (Command CODE_EDITOR_TOOL_HANDLER
                 (resume_update (AIMessage "m3" [code_editor_call])))
  /\ executed (snd first) = [(CODE_EDITOR_TOOL, call_args code_editor_call)]
  /\ executed (snd reentry)
     = [(CODE_EDITOR_TOOL, call_args code_editor_call);
        (CODE_EDITOR_TOOL, call_args code_editor_call)]
  /\ fst (fst reentry) = fst (fst first)
  /\ saved (snd first) = []
  /\ length (saved (snd reentry)) = 1%nat.
Proof. cbv zeta. repeat split; vm_compute; reflexivity. Qed.

(** ** One-decimal rounding *)

Lemma degree_tenths_fixed : forallb tenth_is_fixed degree_tenths = true.
Proof. vm_compute. reflexivity. Qed.

Lemma in_degree_tenths (k : Z) : -3600 <= k <= 3600 -> In k degree_tenths.
Proof.
  intros Hk. unfold degree_tenths. apply in_map_iff.
  exists (Z.to_nat (k + 3600)). split; [lia |].
  apply in_seq. lia.
Qed.

(** Rounding a one-decimal coordinate within 360 degrees down or up gives
    it back. *)
Lemma tenths_rounding (k : Z) :
  -3600 <= k <= 3600 ->
  floor_decimals (VFloat (tenths k)) 1 = Return (VFloat (tenths k))
  /\ ceil_decimals (VFloat (tenths k)) 1 = Return (VFloat (tenths k)).
Proof.
  intros Hk.
  pose proof (proj1 (forallb_forall _ _) degree_tenths_fixed k (in_degree_tenths k Hk))
    as Hfix.
  unfold tenth_is_fixed in Hfix.
  unfold floor_decimals, ceil_decimals, py_mul_int, math_floor, math_ceil.
  change (10 ^ 1) with 10.
  destruct (float_floor (PrimFloat.mul (tenths k) (Z2F 10))) as [a | |]; try discriminate.
  destruct (float_ceil (PrimFloat.mul (tenths k) (Z2F 10))) as [b | |]; try discriminate.
  destruct (int_true_divide k 10) as [f | |] eqn:Hdiv; try discriminate.
  apply andb_prop in Hfix. destruct Hfix as [Ha Hb].
  apply Z.eqb_eq in Ha, Hb. subst a b.
  unfold tenths. rewrite Hdiv. split; reflexivity.
Qed.

(** ** Inference of the CDS historic tool *)

Lemma dict_set_nonempty {V : Type} (k : string) (v : V) (d : dict V) : dict_set k v d <> [].
Proof. destruct d as [| [k' v'] d]; simpl; [| destruct (String.eqb k k')]; discriminate. Qed.

Lemma apply_rules_nonempty (arg : string) (rules : list rule) (tool_args : pydict) :
  forall invalid_args st w invalid_args' st' w',
    apply_rules arg rules tool_args invalid_args st w = (Return invalid_args', st', w') ->
    invalid_args <> [] -> invalid_args' <> [].
Proof.
  induction rules as [| r rules IH]; intros invalid_args st w invalid_args' st' w' H Hne.
  - simpl in H. unfold ret in H. inversion H; subst. exact Hne.
  - simpl in H. step_inv H. apply (IH _ _ _ _ _ _ H).
    destruct (is_none a); [exact Hne | apply dict_set_nonempty].
Qed.

Lemma validate_fields_nonempty (table : dict (list rule)) (fields : list string)
      (tool_args : pydict) :
  forall invalid_args st w invalid_args' st' w',
    validate_fields table fields tool_args invalid_args st w
    = (Return invalid_args', st', w') ->
    invalid_args <> [] -> invalid_args' <> [].
Proof.
  induction fields as [| arg fields IH]; intros invalid_args st w invalid_args' st' w' H Hne.
  - simpl in H. unfold ret in H. inversion H; subst. exact Hne.
  - simpl in H. step_inv H. apply (IH _ _ _ _ _ _ H).
    apply (apply_rules_nonempty _ _ _ _ _ _ _ _ _ Hstep Hne).
Qed.

Lemma validate_fields_cons (table : dict (list rule)) (arg : string) (rest : list string)
      (tool_args invalid_args : pydict) :
  validate_fields table (arg :: rest) tool_args invalid_args
  = bind (apply_rules arg (default [] (dict_get arg table)) tool_args invalid_args)
      (fun invalid_args' => validate_fields table rest tool_args invalid_args').
Proof. reflexivity. Qed.

(** A validation that returns has recorded nothing. *)
Lemma check_validation_rules_inv (self : BaseAgentTool) (tool_args : pydict) st w u st' w' :
  check_validation_rules self tool_args st w = (Return u, st', w') ->
  validate_fields (_set_args_validation_rules self) (dict_keys (args_schema self))
    tool_args [] st w = (Return [], st', w').
Proof.
  unfold check_validation_rules. intros H. step_inv H.
  destruct a as [| x a]; cbn [length Nat.ltb Nat.leb] in H.
  - unfold ret in H. inversion H; subst. exact Hstep.
  - step_inv H. unfold raise_interrupt in H. discriminate H.
Qed.

Section CDSHistoric.
Context `{ext : External}.

Local Arguments bind {A B} m k st w /.
Local Arguments ret {A} a st w /.
Local Arguments lift {A} o st w /.
Local Arguments raise {A} e st w /.
Local Arguments raise_interrupt {A} i st w /.
Local Arguments get_self st w /.
Local Arguments get_world st w /.
Local Arguments modify_self f st w /.
Local Arguments modify_world f st w /.
Local Arguments getitem {V} d k /.
Local Arguments ask_llm {ext} message eval_output /.
Local Arguments answer_of : simpl never.
Local Arguments dataset_from_text : simpl never.
Local Arguments variable_from_text : simpl never.
Local Arguments strftime : simpl never.
Local Arguments isoformat : simpl never.
Local Arguments py_str : simpl never.
Local Arguments llm_invoke : simpl never.
Local Arguments round_bounding_box : simpl never.

Lemma invalid_variables_spec (vs : list string) st w :
  invalid_variables (map VStr vs) st w
  = (Return (map VStr (List.filter
                         (fun v => match variable_from_text v with
                                   | Some _ => false
                                   | None => true
                                   end) vs)), st, w).
Proof.
  induction vs as [| v vs IH]; [reflexivity |].
  cbn [map invalid_variables List.filter]. cbn.
  destruct (variable_from_text v); cbn; rewrite IH; reflexivity.
Qed.

(** What a returning validation says about the dataset and the variables
    of schema-typed arguments. *)
Lemma cds_validation_facts (d : string) (vs : list string) (area s e z j : value)
      st w u st' w' :
  check_validation_rules CDSHistoricNotebookTool
    (cds_historic_tool_args (VStr d) (VList (map VStr vs)) area s e z j) st w
  = (Return u, st', w') ->
  (exists m, dataset_from_text d = Some m)
  /\ Forall (fun v => exists m, variable_from_text v = Some m) vs.
Proof.
  intros H. apply check_validation_rules_inv in H.
  cbn [CDSHistoricNotebookTool _set_args_validation_rules args_schema] in H.
  unfold cds_historic_schema, dict_keys in H. cbn [map fst] in H.
  rewrite validate_fields_cons in H. step_inv H.
  assert (a = []) as ->.
  { destruct a as [| x a]; [reflexivity |]. exfalso.
    apply (validate_fields_nonempty _ _ _ _ _ _ _ _ _ H); [discriminate | reflexivity]. }
  rewrite validate_fields_cons in H. step_inv H.
  assert (a = []) as ->.
  { destruct a as [| x a]; [reflexivity |]. exfalso.
    apply (validate_fields_nonempty _ _ _ _ _ _ _ _ _ H); [discriminate | reflexivity]. }
  clear H. split.
  - clear Hstep0. cbn in Hstep.
    destruct (dataset_from_text d) as [m |]; [exists m; reflexivity |].
    cbn in Hstep. inversion Hstep.
  - clear Hstep. rename Hstep0 into H. cbn in H. rewrite invalid_variables_spec in H.
    cbn in H.
    destruct (List.filter _ vs) as [| bad rest] eqn:Hbad; cbn in H; [| inversion H].
    apply List.Forall_forall. intros v Hv.
    destruct (variable_from_text v) as [m |] eqn:Hm; [exists m; reflexivity |].
    exfalso. assert (In v []) as Hin; [| destruct Hin].
    rewrite <- Hbad. apply filter_In. split; [exact Hv |]. rewrite Hm. reflexivity.
Qed.

Lemma infer_fields_step (table : dict (option rule)) (arg : string) (rest : list string)
      (infer : rule) (tool_args : pydict) (v : value) st w st' w' :
  dict_get arg table = Some (Some infer) ->
  infer tool_args st w = (Return v, st', w') ->
  infer_fields table (arg :: rest) tool_args st w
  = infer_fields table rest (dict_set arg v tool_args) st' w'.
Proof.
  intros Htable Hinfer. cbn [infer_fields]. rewrite Htable.
  unfold bind. rewrite Hinfer. reflexivity.
Qed.

Lemma dataset_of_member (m : InputHistoricCDSDataset) :
  dataset_from_text (dataset_value m) = Some m.
Proof. destruct m; vm_compute; reflexivity. Qed.

Lemma variable_of_member (m : InputHistoricVariable) :
  variable_from_text (variable_value m) = Some m.
Proof. destruct m; vm_compute; reflexivity. Qed.

Lemma infer_historic_dataset_returns (ka : pydict) (alias : value) (t : string)
      (m : InputHistoricCDSDataset) st w :
  dict_get "historic_dataset" ka = Some alias ->
  text_of alias = Some t ->
  dataset_from_text t = Some m ->
  infer_historic_dataset ka st w = (Return (VDataset m), st, w).
Proof.
  intros Hget Htext Hm. unfold infer_historic_dataset. cbn. rewrite Hget. cbn.
  destruct alias; try discriminate Htext; cbn in Htext; inversion Htext; subst t;
    unfold dataset_from_str; cbn; rewrite Hm; reflexivity.
Qed.

Lemma members_of_names (vs : list string) :
  Forall (fun v => exists m, variable_from_text v = Some m) vs ->
  exists ms, Forall2 (fun v m => variable_from_text v = Some m) vs ms.
Proof.
  induction 1 as [| v vs [m Hm] _ [ms IH]].
  - exists []. constructor.
  - exists (m :: ms). constructor; assumption.
Qed.

Lemma variables_of_names (vs : list string) (ms : list InputHistoricVariable) st w :
  Forall2 (fun v m => variable_from_text v = Some m) vs ms ->
  mapM (fun v => variable_from_str v true) (map VStr vs) st w
  = (Return (map VVariable ms), st, w).
Proof.
  induction 1 as [| v m vs ms Hm _ IH]; [reflexivity |].
  cbn [map mapM]. cbn. rewrite Hm. cbn. rewrite IH. reflexivity.
Qed.

Lemma variables_of_members (ms : list InputHistoricVariable) st w :
  mapM (fun v => variable_from_str v true) (map VVariable ms) st w
  = (Return (map VVariable ms), st, w).
Proof.
  induction ms as [| m ms IH]; [reflexivity |].
  cbn [map mapM]. cbn. rewrite variable_of_member. cbn. rewrite IH. reflexivity.
Qed.

Lemma infer_historic_variables_returns (ka : pydict) (l : list value)
      (ms : list InputHistoricVariable) st w :
  dict_get "historic_variables" ka = Some (VList l) ->
  (forall st w, mapM (fun v => variable_from_str v true) l st w
                = (Return (map VVariable ms), st, w)) ->
  infer_historic_variables ka st w = (Return (VList (map VVariable ms)), st, w).
Proof.
  intros Hget Hl. unfold infer_historic_variables. cbn. rewrite Hget. cbn.
  rewrite Hl. rewrite Hl. reflexivity.
Qed.

Lemma infer_area_returns (ka : pydict) (area r : value) st w :
  dict_get "area" ka = Some area ->
  (forall st' w', round_bounding_box (resolved_area area w) st' w' = (Return r, st', w')) ->
  infer_area ka st w = (Return r, after_area area st, after_area_world area w).
Proof.
  intros Hget Hr. unfold infer_area. cbn. rewrite Hget. cbn.
  unfold resolved_area in Hr.
  destruct area; cbn; rewrite Hr; reflexivity.
Qed.

Lemma infer_start_time_returns (ka : pydict) (s e : option string) st w :
  dict_get "start_time" ka = Some (optional_str s) ->
  dict_get "end_time" ka = Some (optional_str e) ->
  infer_start_time ka st w = (Return (VStr (inferred_start s e w)), st, w).
Proof.
  intros Hs He. unfold infer_start_time. cbn. rewrite Hs.
  destruct s as [x |]; cbn; [| reflexivity].
  rewrite He. destruct e as [y |]; cbn; [| reflexivity].
  destruct (str_gt x y); reflexivity.
Qed.

Lemma infer_end_time_returns (ka : pydict) (start : string) (e : option string) st w :
  dict_get "start_time" ka = Some (VStr start) ->
  dict_get "end_time" ka = Some (optional_str e) ->
  infer_end_time ka st w = (Return (VStr (inferred_end start e w)), st, w).
Proof.
  intros Hs He. unfold infer_end_time. cbn. rewrite He.
  destruct e as [y |]; cbn; [| reflexivity].
  rewrite Hs. cbn. unfold py_lt, py_gt. cbn.
  destruct (str_gt start y); reflexivity.
Qed.

Lemma icisk_of_members (ms : list InputHistoricVariable) st w :
  mapM as_icisk (map VVariable ms) st w = (Return (map icisk_name ms), st, w).
Proof.
  induction ms as [| m ms IH]; [reflexivity |].
  cbn [map mapM]. destruct m; cbn; rewrite IH; reflexivity.
Qed.

Lemma infer_output_name_returns (ka : pydict) (arg extension : string)
      (ms : list InputHistoricVariable) (z : option string) st w :
  dict_get arg ka = Some (optional_str z) ->
  dict_get "historic_variables" ka = Some (VList (map VVariable ms)) ->
  infer_output_name arg extension ka st w
  = (Return (VStr (inferred_name ms z extension w)), st, w).
Proof.
  intros Hz Hv. unfold infer_output_name, default_output_name. cbn. rewrite Hz.
  destruct z as [x |]; cbn.
  - destruct (endswith x extension); reflexivity.
  - rewrite Hv. cbn. rewrite icisk_of_members. reflexivity.
Qed.

(** The first inference pass on schema-typed arguments whose dataset and
    variables were accepted by the validation. *)
Lemma cds_inference_pass (alias : value) (t : string) (m : InputHistoricCDSDataset)
      (l : list value) (ms : list InputHistoricVariable) (area r : value)
      (s e z j : option string) st w :
  text_of alias = Some t ->
  dataset_from_text t = Some m ->
  (forall st w, mapM (fun v => variable_from_str v true) l st w
                = (Return (map VVariable ms), st, w)) ->
  (forall st' w', round_bounding_box (resolved_area area w) st' w' = (Return r, st', w')) ->
  let w' := after_area_world area w in
  let start := inferred_start s e w' in
  infer_args CDSHistoricNotebookTool
    (cds_historic_tool_args alias (VList l) area (optional_str s) (optional_str e)
       (optional_str z) (optional_str j)) st w
  = (Return
       (cds_historic_tool_args (VDataset m) (VList (map VVariable ms)) r
          (VStr start) (VStr (inferred_end start e w'))
          (VStr (inferred_name ms z ".zarr" w'))
          (VStr (inferred_name ms j ".ipynb" w'))),
     after_area area st, w').
Proof.
  intros Htext Hm Hl Hr. cbv zeta.
  unfold infer_args.
  cbn [CDSHistoricNotebookTool _set_args_inference_rules args_schema].
  unfold cds_historic_schema, dict_keys. cbn [map fst].
  unfold cds_historic_tool_args.
  erewrite infer_fields_step;
    [| reflexivity
     | apply (infer_historic_dataset_returns _ alias t m); [reflexivity | assumption ..]].
  cbn [dict_set String.eqb Ascii.eqb Bool.eqb].
  erewrite infer_fields_step;
    [| reflexivity
     | apply (infer_historic_variables_returns _ l ms); [reflexivity | assumption]].
  cbn [dict_set String.eqb Ascii.eqb Bool.eqb].
  erewrite infer_fields_step;
    [| reflexivity | apply (infer_area_returns _ area r); [reflexivity | assumption]].
  cbn [dict_set String.eqb Ascii.eqb Bool.eqb].
  erewrite infer_fields_step;
    [| reflexivity | apply (infer_start_time_returns _ s e); reflexivity].
  cbn [dict_set String.eqb Ascii.eqb Bool.eqb].
  erewrite infer_fields_step;
    [| reflexivity | eapply infer_end_time_returns with (e := e); reflexivity].
  cbn [dict_set String.eqb Ascii.eqb Bool.eqb].
  erewrite infer_fields_step;
    [| reflexivity
     | eapply infer_output_name_returns with (ms := ms) (z := z); reflexivity].
  cbn [dict_set String.eqb Ascii.eqb Bool.eqb].
  erewrite infer_fields_step;
    [| reflexivity
     | eapply infer_output_name_returns with (ms := ms) (z := j); reflexivity].
  cbn [dict_set String.eqb Ascii.eqb Bool.eqb].
  reflexivity.
Qed.

End CDSHistoric.

(** ** Rounding the area *)

Lemma endswith_append (x suffix : string) : endswith (x +:+ suffix) suffix = true.
Proof.
  induction x as [| c x IH]; simpl.
  - destruct suffix; simpl; [reflexivity |].
    rewrite Ascii.eqb_refl, String.eqb_refl. reflexivity.
  - rewrite IH. apply orb_true_r.
Qed.

Section Rounding.

Local Arguments bind {A B} m k st w /.
Local Arguments ret {A} a st w /.
Local Arguments lift {A} o st w /.
Local Arguments py_index : simpl never.
Local Arguments floor_decimals : simpl never.
Local Arguments ceil_decimals : simpl never.

(** [round_bounding_box] reads neither the tool nor the world. *)
Lemma round_bounding_box_pure (v : value) :
  exists o, forall st w, round_bounding_box v st w = (o, st, w).
Proof.
  destruct v; try (eexists; intros; cbn; reflexivity).
  unfold round_bounding_box.
  destruct (py_index (VList l) 0) as [a0 | i | e];
    [| eexists; intros; cbn; reflexivity ..]; cbn.
  destruct (floor_decimals a0 1) as [x0 | i | e];
    [| eexists; intros; cbn; reflexivity ..]; cbn.
  destruct (py_index (VList l) 1) as [a1 | i | e];
    [| eexists; intros; cbn; reflexivity ..]; cbn.
  destruct (floor_decimals a1 1) as [x1 | i | e];
    [| eexists; intros; cbn; reflexivity ..]; cbn.
  destruct (py_index (VList l) 2) as [a2 | i | e];
    [| eexists; intros; cbn; reflexivity ..]; cbn.
  destruct (ceil_decimals a2 1) as [x2 | i | e];
    [| eexists; intros; cbn; reflexivity ..]; cbn.
  destruct (py_index (VList l) 3) as [a3 | i | e];
    [| eexists; intros; cbn; reflexivity ..]; cbn.
  destruct (ceil_decimals a3 1) as [x3 | i | e];
    eexists; intros; cbn; reflexivity.
Qed.

(** A settled area is a fixed point of [round_bounding_box]. *)
Lemma settled_area_rounds (r : value) st w :
  settled_area r -> round_bounding_box r st w = (Return r, st, w).
Proof.
  intros Hs. destruct r; try reflexivity.
  cbn [settled_area] in Hs.
  destruct Hs as (k0 & k1 & k2 & k3 & B0 & B1 & B2 & B3 & Hl).
  rewrite Hl. unfold round_bounding_box, py_index. cbn.
  rewrite (proj1 (tenths_rounding k0 B0)). cbn.
  rewrite (proj1 (tenths_rounding k1 B1)). cbn.
  rewrite (proj2 (tenths_rounding k2 B2)). cbn.
  rewrite (proj2 (tenths_rounding k3 B3)). reflexivity.
Qed.

End Rounding.

(** ** Inference of the CDS historic tool: when it returns, and twice *)

Section CDSInference.
Context `{ext : External}.

Local Arguments bind {A B} m k st w /.
Local Arguments ret {A} a st w /.
Local Arguments lift {A} o st w /.
Local Arguments raise {A} e st w /.
Local Arguments get_self st w /.
Local Arguments get_world st w /.
Local Arguments modify_self f st w /.
Local Arguments modify_world f st w /.
Local Arguments getitem {V} d k /.
Local Arguments ask_llm {ext} message eval_output /.
Local Arguments answer_of : simpl never.
Local Arguments llm_invoke : simpl never.
Local Arguments round_bounding_box : simpl never.

(** [infer_area] ends as the rounding of the resolved area does. *)
Lemma infer_area_outcome (ka : pydict) (area : value) (o : outcome value) st w :
  dict_get "area" ka = Some area ->
  (forall st' w', round_bounding_box (resolved_area area w) st' w' = (o, st', w')) ->
  infer_area ka st w = (o, after_area area st, after_area_world area w).
Proof.
  intros Hget Hr. unfold infer_area. cbn. rewrite Hget. cbn.
  unfold resolved_area in Hr.
  destruct area; cbn; rewrite Hr; reflexivity.
Qed.

(** A rounding that does not return stops the inference pass. *)
Lemma cds_inference_stops (alias : value) (t : string) (m : InputHistoricCDSDataset)
      (l : list value) (ms : list InputHistoricVariable) (area : value)
      (o : outcome value) (s e z j : value) st w out st1 w1 :
  text_of alias = Some t ->
  dataset_from_text t = Some m ->
  (forall st w, mapM (fun v => variable_from_str v true) l st w
                = (Return (map VVariable ms), st, w)) ->
  (forall st' w', round_bounding_box (resolved_area area w) st' w' = (o, st', w')) ->
  infer_args CDSHistoricNotebookTool
    (cds_historic_tool_args alias (VList l) area s e z j) st w
  = (Return out, st1, w1) ->
  exists r, o = Return r.
Proof.
  intros Htext Hm Hl Hr.
  unfold infer_args.
  cbn [CDSHistoricNotebookTool _set_args_inference_rules args_schema].
  unfold cds_historic_schema, dict_keys. cbn [map fst].
  unfold cds_historic_tool_args.
  erewrite infer_fields_step;
    [| reflexivity
     | apply (infer_historic_dataset_returns _ alias t m); [reflexivity | assumption ..]].
  cbn [dict_set String.eqb Ascii.eqb Bool.eqb].
  erewrite infer_fields_step;
    [| reflexivity
     | apply (infer_historic_variables_returns _ l ms); [reflexivity | assumption]].
  cbn [dict_set String.eqb Ascii.eqb Bool.eqb].
  intros H. cbn [infer_fields] in H.
  change (dict_get "area" cds_historic_inference_rules) with (Some (Some infer_area)) in H.
  unfold bind in H.
  rewrite (infer_area_outcome _ area o) in H; [| reflexivity | assumption].
  destruct o as [r | i | x]; [exists r; reflexivity | inversion H ..].
Qed.

(** C4, as the code has it: for schema-typed arguments of the CDS historic tool
    that passed the required-argument check and the validation, the
    inference phase returns exactly when the rounding of the area returns,
    the area being the language model's answer when it was given by name.
    Inference is therefore not free of exceptions: an answer that is a
    list of fewer than four items, or of items that are not numbers, makes
    it raise. *)
Theorem inference_returns_iff_area_rounds :
  forall (d : string) (vs : list string) (area : value) (s e z j : option string)
         st0 w0 st1 w1 st2 w2,
    let tool_args :=
      cds_historic_tool_args (VStr d) (VList (map VStr vs)) area (optional_str s)
        (optional_str e) (optional_str z) (optional_str j) in
    check_required_args CDSHistoricNotebookTool tool_args st0 w0 = (Return tt, st1, w1) ->
    check_validation_rules CDSHistoricNotebookTool tool_args st1 w1
    = (Return tt, st2, w2) ->
    (exists tool_args' st3 w3,
        infer_args CDSHistoricNotebookTool tool_args st2 w2 = (Return tool_args', st3, w3))
    <-> rounds (resolved_area area w2).
Proof.
  intros d vs area s e z j st0 w0 st1 w1 st2 w2 tool_args _ Hvalid.
  destruct (cds_validation_facts _ _ _ _ _ _ _ _ _ _ _ _ Hvalid) as [[m Hm] Hvs].
  destruct (members_of_names vs Hvs) as [ms Hms].
  split.
  - intros (out & st3 & w3 & Hinfer).
    destruct (round_bounding_box_pure (resolved_area area w2)) as [o Ho].
    destruct (cds_inference_stops (VStr d) d m (map VStr vs) ms area o _ _ _ _
                st2 w2 out st3 w3 eq_refl Hm
                (fun st w => variables_of_names vs ms st w Hms) Ho Hinfer) as [r ->].
    exists r. exact Ho.
  - intros [r Hr].
    eexists. eexists. eexists.
    apply (cds_inference_pass (VStr d) d m (map VStr vs) ms area r s e z j st2 w2
             eq_refl Hm (fun st w => variables_of_names vs ms st w Hms) Hr).
Qed.

(** C9, as the code has it: for arguments of the CDS historic tool that are all
    given and passed the validation, if a first inference pass returned and
    left an area that is settled (a box of one-decimal coordinates within
    360 degrees, or anything that is neither a text nor a list), a second pass on its result returns
    the same arguments and changes neither the tool nor the world.  An area
    that is still a text after the first pass is put to the language model
    again, so the second pass need not be the identity. *)
Theorem second_inference_is_identity :
  forall (d : string) (vs : list string) (area : value) (s e z j : string)
         st0 w0 st w tool_args1 st1 w1,
    let tool_args :=
      cds_historic_tool_args (VStr d) (VList (map VStr vs)) area (VStr s) (VStr e)
        (VStr z) (VStr j) in
    check_validation_rules CDSHistoricNotebookTool tool_args st0 w0 = (Return tt, st, w) ->
    infer_args CDSHistoricNotebookTool tool_args st w = (Return tool_args1, st1, w1) ->
    (forall area1, dict_get "area" tool_args1 = Some area1 -> settled_area area1) ->
    infer_args CDSHistoricNotebookTool tool_args1 st1 w1 = (Return tool_args1, st1, w1).
Proof.
  intros d vs area s e z j st0 w0 st w tool_args1 st1 w1 tool_args Hvalid Hinfer Hsettled.
  destruct (cds_validation_facts _ _ _ _ _ _ _ _ _ _ _ _ Hvalid) as [[m Hm] Hvs].
  destruct (members_of_names vs Hvs) as [ms Hms].
  destruct (round_bounding_box_pure (resolved_area area w)) as [o Ho].
  destruct (cds_inference_stops (VStr d) d m (map VStr vs) ms area o _ _ _ _
              st w tool_args1 st1 w1 eq_refl Hm
              (fun st w => variables_of_names vs ms st w Hms) Ho Hinfer) as [r ->].
  pose proof (cds_inference_pass (VStr d) d m (map VStr vs) ms area r
                (Some s) (Some e) (Some z) (Some j) st w
                eq_refl Hm (fun st w => variables_of_names vs ms st w Hms) Ho) as Hfirst.
  cbv zeta in Hfirst. cbn [optional_str] in Hfirst.
  unfold tool_args in Hinfer. rewrite Hfirst in Hinfer. clear Hfirst.
  inversion Hinfer as [[Hargs Hst Hw]]. clear Hinfer. subst tool_args1 st1 w1.
  pose proof (Hsettled r eq_refl) as Hr. clear Hsettled.
  set (w' := after_area_world area w) in *.
  set (start := inferred_start (Some s) (Some e) w') in *.
  set (stop := inferred_end start (Some e) w') in *.
  set (zarr := inferred_name ms (Some z) ".zarr" w') in *.
  set (book := inferred_name ms (Some j) ".ipynb" w') in *.
  assert (resolved_area r w' = r) as Hres by (destruct r; try reflexivity; destruct Hr).
  assert (forall st, after_area r st = st) as Hafter
      by (intros; destruct r; try reflexivity; destruct Hr).
  assert (after_area_world r w' = w') as Hworld
      by (destruct r; try reflexivity; destruct Hr).
  pose proof (cds_inference_pass (VDataset m) (dataset_value m) m (map VVariable ms) ms r r
                (Some start) (Some stop) (Some zarr) (Some book) (after_area area st) w'
                eq_refl (dataset_of_member m) (variables_of_members ms)) as Hsecond.
  rewrite Hres in Hsecond.
  specialize (Hsecond (fun st' w'' => settled_area_rounds r st' w'' Hr)).
  cbv zeta in Hsecond. cbn [optional_str] in Hsecond.
  rewrite Hworld, Hafter in Hsecond.
  change (infer_args CDSHistoricNotebookTool
            (cds_historic_tool_args (VDataset m) (VList (map VVariable ms)) r
               (VStr start) (VStr stop) (VStr zarr) (VStr book)) (after_area area st) w'
          = (Return
               (cds_historic_tool_args (VDataset m) (VList (map VVariable ms)) r
                  (VStr start) (VStr stop) (VStr zarr) (VStr book)),
             after_area area st, w')).
  rewrite Hsecond. clear Hsecond.
  assert (inferred_start (Some start) (Some stop) w' = start
          /\ inferred_end start (Some stop) w' = stop) as [-> ->].
  { subst start stop. unfold inferred_start, inferred_end.
    destruct (str_gt s e) eqn:Hse.
    - destruct (str_gt e e) eqn:Hee; cbv iota; rewrite Hee; split; reflexivity.
    - rewrite Hse. rewrite Hse. split; reflexivity. }
  assert (forall x extension,
             inferred_name ms (Some (inferred_name ms (Some x) extension w')) extension w'
             = inferred_name ms (Some x) extension w') as Hname.
  { intros x extension. unfold inferred_name.
    destruct (endswith x extension) eqn:Hx; [rewrite Hx; reflexivity |].
    rewrite endswith_append. reflexivity. }
  subst zarr book. rewrite !Hname. reflexivity.
Qed.

End CDSInference.

Lemma inference_returns_iff_area_rounds_witness :
  check_required_args (@CDSHistoricNotebookTool agreeable) alpine_box
    cds_confirmed_fields empty_world
  = (Return tt, cds_confirmed_fields, empty_world)
  /\ check_validation_rules (@CDSHistoricNotebookTool agreeable) alpine_box
       cds_confirmed_fields empty_world
     = (Return tt, cds_confirmed_fields, empty_world)
  /\ ((exists tool_args' st3 w3,
          infer_args (@CDSHistoricNotebookTool agreeable) alpine_box
            cds_confirmed_fields empty_world
          = (Return tool_args', st3, w3))
      <-> rounds
            (@resolved_area agreeable
               (VList [VFloat 6.61%float; VFloat 35.48%float; VFloat 18.52%float;
                       VFloat 47.1%float])
               empty_world)).
Proof.
  split; [vm_compute; reflexivity |].
  split; [vm_compute; reflexivity |].
  apply (@inference_returns_iff_area_rounds agreeable "reanalysis-era5-land"
           ["temperature"]
           (VList [VFloat 6.61%float; VFloat 35.48%float; VFloat 18.52%float;
                   VFloat 47.1%float])
           (Some "2024-01-01") (Some "2024-03-01") (Some "alps") (Some "alps.ipynb")
           cds_confirmed_fields empty_world cds_confirmed_fields empty_world
           cds_confirmed_fields empty_world);
    vm_compute; reflexivity.
Defined.

(** C4 as stated fails: the arguments name the area, they pass the
    required-argument check and the validation, the language model answers
    the request for a bounding box with two coordinates, and the rounding of
    the third one raises [IndexError] inside the inference phase, which ends
    the run. *)
Lemma short_answer_raises_in_inference :
  fst (fst (check_required_args (@CDSHistoricNotebookTool terse) italy_by_name
              cds_confirmed_fields empty_world))
  = Return tt
  /\ fst (fst (check_validation_rules (@CDSHistoricNotebookTool terse) italy_by_name
                 cds_confirmed_fields empty_world))
     = Return tt
  /\ fst (fst (infer_args (@CDSHistoricNotebookTool terse) italy_by_name
                 cds_confirmed_fields empty_world))
     = Raised IndexError
  /\ fst (fst (_run (@CDSHistoricNotebookTool terse) italy_by_name
                 cds_confirmed_fields empty_world))
     = Raised IndexError.
Proof. repeat split; vm_compute; reflexivity. Qed.

Lemma second_inference_is_identity_witness :
  check_validation_rules (@CDSHistoricNotebookTool agreeable) alpine_box
    cds_confirmed_fields empty_world
  = (Return tt, cds_confirmed_fields, empty_world)
  /\ infer_args (@CDSHistoricNotebookTool agreeable) alpine_box
       cds_confirmed_fields empty_world
     = (Return alpine_box_inferred, cds_confirmed_fields, empty_world)
  /\ infer_args (@CDSHistoricNotebookTool agreeable) alpine_box_inferred
       cds_confirmed_fields empty_world
     = (Return alpine_box_inferred, cds_confirmed_fields, empty_world).
Proof.
  split; [vm_compute; reflexivity |].
  split; [vm_compute; reflexivity |].
  apply (@second_inference_is_identity agreeable "reanalysis-era5-land" ["temperature"]
           (VList [VFloat 6.61%float; VFloat 35.48%float; VFloat 18.52%float;
                   VFloat 47.1%float])
           "2024-01-01" "2024-03-01" "alps" "alps.ipynb"
           cds_confirmed_fields empty_world cds_confirmed_fields empty_world
           alpine_box_inferred cds_confirmed_fields empty_world).
  - vm_compute; reflexivity.
  - vm_compute; reflexivity.
  - intros area1 Harea. injection Harea as <-.
    exists 66, 354, 186, 471. repeat split; try lia.
Defined.

(** C9 as stated fails: the arguments are all given and valid, the area by
    name.  The language model answers the first request for a bounding box
    with a sentence, which is kept as the area; the second pass finds a
    text again, asks again, and the answer this time replaces the area. *)
Lemma named_area_is_asked_again :
  let first :=
    infer_args (@CDSHistoricNotebookTool chatty) italy_by_name cds_confirmed_fields
      empty_world in
  let second :=
    infer_args (@CDSHistoricNotebookTool chatty) italy_after_first (snd (fst first))
      (snd first) in
  forallb (fun kv => negb (is_none (snd kv))) italy_by_name = true
  /\ fst (fst (check_validation_rules (@CDSHistoricNotebookTool chatty) italy_by_name
                 cds_confirmed_fields empty_world))
     = Return tt
  /\ fst (fst first) = Return italy_after_first
  /\ fst (fst second) = Return (dict_set "area" VNone italy_after_first)
  /\ dict_get "area" (dict_set "area" VNone italy_after_first) = Some VNone
  /\ dict_get "area" italy_after_first = Some (VStr "Italy lies in southern Europe")
  /\ llm_calls (snd first) = 1%nat
  /\ llm_calls (snd second) = 2%nat.
Proof. cbv zeta. repeat split; vm_compute; reflexivity. Qed.

(** * Further properties of the code *)

(** ** The required-argument check *)

Lemma missing_args_of_key_error (fields : ArgsSchema) (tool_args : pydict) :
  covers_required fields tool_args = false ->
  exists arg info,
    In (arg, info) fields /\ is_required info = true
    /\ dict_get arg tool_args = None
    /\ missing_args_of fields tool_args = Raised (KeyError arg).
Proof.
  induction fields as [| [arg0 info0] fields IH]; simpl; intros Hc; [discriminate |].
  destruct (is_required info0) eqn:Hreq; simpl in Hc.
  - destruct (dict_get arg0 tool_args) as [v |] eqn:Hget.
    + destruct (IH Hc) as (arg & info & Hin & Hr & Hg & Hm).
      exists arg, info. rewrite Hm. auto.
    + exists arg0, info0. auto.
  - destruct (IH Hc) as (arg & info & Hin & Hr & Hg & Hm).
    exists arg, info. auto.
Qed.

(** X1: when every required field of the schema is a key of the argument
    dictionary, [check_required_args] collects exactly the required fields
    whose value is [None].  With none it returns and changes nothing; with
    some it clears [execution_confirmed] and raises a PROVIDE_ARGS interrupt
    that carries the list and the schema. *)
Theorem required_check_outcome :
  forall (self : BaseAgentTool) (tool_args : pydict) (st : tool_state) (w : world),
    covers_required (args_schema self) tool_args = true ->
    exists l,
      (forall arg,
          In arg l <->
          exists info, In (arg, info) (args_schema self) /\ is_required info = true
                       /\ dict_get arg tool_args = Some VNone)
      /\ check_required_args self tool_args st w
         = match l with
           | [] => (Return tt, st, w)
           | _ =>
               (Interrupted
                  {| interrupt_tool := name self;
                     interrupt_type := PROVIDE_ARGS;
                     interrupt_reason :=
                       "Missing required arguments: " +:+ repr_names l +:+ ".";
                     interrupt_data := MissingArgsData l (args_schema self) |},
                set_execution_confirmed false st, w)
           end.
Proof.
  intros self tool_args st w Hc.
  destruct (missing_args_of_spec _ _ Hc) as (l & Hl & Hspec).
  exists l. split; [exact Hspec |].
  unfold check_required_args, bind, lift. rewrite Hl.
  destruct l; reflexivity.
Qed.

(** X2: a required field that is no key of the argument dictionary makes
    [check_required_args] fail with [KeyError] naming such a field; no
    interrupt is raised and the tool is left as it was. *)
Theorem required_check_missing_key :
  forall (self : BaseAgentTool) (tool_args : pydict) (st : tool_state) (w : world),
    covers_required (args_schema self) tool_args = false ->
    exists arg info,
      In (arg, info) (args_schema self) /\ is_required info = true
      /\ dict_get arg tool_args = None
      /\ check_required_args self tool_args st w = (Raised (KeyError arg), st, w)
      /\ _run self tool_args st w = (Raised (KeyError arg), st, w).
Proof.
  intros self tool_args st w Hc.
  destruct (missing_args_of_key_error _ _ Hc) as (arg & info & Hin & Hr & Hg & Hm).
  exists arg, info. repeat split; try assumption.
  - unfold check_required_args, bind, lift. rewrite Hm. reflexivity.
  - unfold _run, check_required_args, bind, lift. rewrite Hm. reflexivity.
Qed.

(** ** The CDS historic tool: validation and inference together *)

Lemma str_gt_irrefl (x : string) : str_gt x x = false.
Proof.
  unfold str_gt, str_lt.
  pose proof (String.compare_antisym x x) as H.
  destruct (String.compare x x); (reflexivity || discriminate H).
Qed.

Lemma endswith_after (x y suffix : string) :
  endswith y suffix = true -> endswith (x +:+ y) suffix = true.
Proof.
  intros Hy. induction x as [| c x IH]; simpl; [exact Hy |].
  rewrite IH. apply orb_true_r.
Qed.

Lemma endswith_inferred_name (ms : list InputHistoricVariable) (z : option string)
      (extension : string) `{ext : External} (w : world) :
  endswith (inferred_name ms z extension w) extension = true.
Proof.
  unfold inferred_name. destruct z as [x |].
  - destruct (endswith x extension) eqn:Hx; [exact Hx | apply endswith_append].
  - apply (endswith_after "icisk-ai_cds-historic-").
    apply (endswith_after (join "-" (map icisk_name ms))).
    apply (endswith_after "_"). apply endswith_append.
Qed.

Section CDSRun.
Context `{ext : External}.

Local Arguments bind {A B} m k st w /.
Local Arguments ret {A} a st w /.
Local Arguments lift {A} o st w /.
Local Arguments raise {A} e st w /.
Local Arguments raise_interrupt {A} i st w /.
Local Arguments get_self st w /.
Local Arguments get_world st w /.
Local Arguments modify_self f st w /.
Local Arguments modify_world f st w /.
Local Arguments getitem {V} d k /.
Local Arguments ask_llm {ext} message eval_output /.
Local Arguments answer_of : simpl never.
Local Arguments llm_invoke : simpl never.
Local Arguments round_bounding_box : simpl never.

(** The first inference pass of schema-typed, validated arguments, read
    off the result of [infer_args]. *)
Lemma cds_inference_result (d : string) (vs : list string) (area : value)
      (s e z j : option string) st0 w0 st w tool_args' st' w' :
  let tool_args :=
    cds_historic_tool_args (VStr d) (VList (map VStr vs)) area (optional_str s)
      (optional_str e) (optional_str z) (optional_str j) in
  check_validation_rules CDSHistoricNotebookTool tool_args st0 w0 = (Return tt, st, w) ->
  infer_args CDSHistoricNotebookTool tool_args st w = (Return tool_args', st', w') ->
  exists m ms r,
    dataset_from_text d = Some m
    /\ Forall2 (fun v m => variable_from_text v = Some m) vs ms
    /\ (forall st1 w1, round_bounding_box (resolved_area area w) st1 w1 = (Return r, st1, w1))
    /\ st' = after_area area st
    /\ w' = after_area_world area w
    /\ tool_args'
       = cds_historic_tool_args (VDataset m) (VList (map VVariable ms)) r
           (VStr (inferred_start s e w'))
           (VStr (inferred_end (inferred_start s e w') e w'))
           (VStr (inferred_name ms z ".zarr" w'))
           (VStr (inferred_name ms j ".ipynb" w')).
Proof.
  intros tool_args Hvalid Hinfer.
  destruct (cds_validation_facts _ _ _ _ _ _ _ _ _ _ _ _ Hvalid) as [[m Hm] Hvs].
  destruct (members_of_names vs Hvs) as [ms Hms].
  destruct (round_bounding_box_pure (resolved_area area w)) as [o Ho].
  destruct (cds_inference_stops (VStr d) d m (map VStr vs) ms area o _ _ _ _
              st w tool_args' st' w' eq_refl Hm
              (fun st w => variables_of_names vs ms st w Hms) Ho Hinfer) as [r ->].
  pose proof (cds_inference_pass (VStr d) d m (map VStr vs) ms area r s e z j st w
                eq_refl Hm (fun st w => variables_of_names vs ms st w Hms) Ho) as Hpass.
  cbv zeta in Hpass. unfold tool_args in Hinfer. rewrite Hpass in Hinfer.
  exists m, ms, r.
  split; [exact Hm |]. split; [exact Hms |]. split; [exact Ho |].
  split; [congruence |]. split; [congruence |]. congruence.
Qed.

(** X3: in the arguments the CDS historic tool infers, the output store
    always ends in [.zarr] and the notebook in [.ipynb], whether the names
    were given with the extension, without it, or not at all. *)
Theorem inferred_outputs_carry_extension :
  forall (d : string) (vs : list string) (area : value) (s e z j : option string)
         st0 w0 st w tool_args' st' w',
    let tool_args :=
      cds_historic_tool_args (VStr d) (VList (map VStr vs)) area (optional_str s)
        (optional_str e) (optional_str z) (optional_str j) in
    check_validation_rules CDSHistoricNotebookTool tool_args st0 w0 = (Return tt, st, w) ->
    infer_args CDSHistoricNotebookTool tool_args st w = (Return tool_args', st', w') ->
    exists zarr book,
      dict_get "zarr_output" tool_args' = Some (VStr zarr)
      /\ endswith zarr ".zarr" = true
      /\ dict_get "jupyter_notebook" tool_args' = Some (VStr book)
      /\ endswith book ".ipynb" = true.
Proof.
  intros d vs area s e z j st0 w0 st w tool_args' st' w' tool_args Hvalid Hinfer.
  destruct (cds_inference_result d vs area s e z j st0 w0 st w tool_args' st' w'
              Hvalid Hinfer) as (m & ms & r & _ & _ & _ & _ & _ & ->).
  eexists. eexists.
  split; [reflexivity |]. split; [apply endswith_inferred_name |].
  split; [reflexivity |]. apply endswith_inferred_name.
Qed.

(** X4: when both ends of the period are given, inference never moves the
    end: a start that sorts after the end is replaced by the end, so that
    the inferred period is empty rather than swapped, and the inferred
    start never sorts after the inferred end. *)
Theorem inferred_period_is_ordered :
  forall (d : string) (vs : list string) (area : value) (s e : string)
         (z j : option string) st0 w0 st w tool_args' st' w',
    let tool_args :=
      cds_historic_tool_args (VStr d) (VList (map VStr vs)) area (VStr s) (VStr e)
        (optional_str z) (optional_str j) in
    check_validation_rules CDSHistoricNotebookTool tool_args st0 w0 = (Return tt, st, w) ->
    infer_args CDSHistoricNotebookTool tool_args st w = (Return tool_args', st', w') ->
    exists start,
      dict_get "start_time" tool_args' = Some (VStr start)
      /\ dict_get "end_time" tool_args' = Some (VStr e)
      /\ start = (if str_gt s e then e else s)
      /\ str_gt start e = false.
Proof.
  intros d vs area s e z j st0 w0 st w tool_args' st' w' tool_args Hvalid Hinfer.
  destruct (cds_inference_result d vs area (Some s) (Some e) z j st0 w0 st w tool_args'
              st' w' Hvalid Hinfer) as (m & ms & r & _ & _ & _ & _ & _ & ->).
  exists (if str_gt s e then e else s).
  unfold inferred_start, inferred_end, cds_historic_tool_args.
  cbn [dict_get String.eqb Ascii.eqb Bool.eqb].
  destruct (str_gt s e) eqn:Hse.
  - rewrite str_gt_irrefl. auto using str_gt_irrefl.
  - rewrite Hse. auto.
Qed.

(** X5: an area given by name is never executed on without a new
    confirmation.  Whatever [execution_confirmed] was, once the language
    model's answer has been rounded the run stops in a CONFIRM_ARGS
    interrupt that shows the inferred arguments; the execution body has not
    been called and the language model was asked once. *)
Theorem named_area_asks_for_confirmation :
  forall (d : string) (vs : list string) (place : string) (s e z j : option string)
         st0 w0 st1 w1 st2 w2 r,
    let tool_args :=
      cds_historic_tool_args (VStr d) (VList (map VStr vs)) (VStr place) (optional_str s)
        (optional_str e) (optional_str z) (optional_str j) in
    check_required_args CDSHistoricNotebookTool tool_args st0 w0 = (Return tt, st1, w1) ->
    check_validation_rules CDSHistoricNotebookTool tool_args st1 w1
    = (Return tt, st2, w2) ->
    (forall st w,
        round_bounding_box (answer_of (llm_invoke (llm_calls w2) (BoundingBoxOf place)) true)
          st w = (Return r, st, w)) ->
    exists tool_args',
      dict_get "area" tool_args' = Some r
      /\ _run CDSHistoricNotebookTool tool_args st0 w0
         = (Interrupted
              {| interrupt_tool := CDS_HISTORIC_NOTEBOOK_TOOL;
                 interrupt_type := CONFIRM_ARGS;
                 interrupt_reason :=
                   "Please confirm the execution of the tool with the provided arguments.";
                 interrupt_data := ConfirmArgsData tool_args' cds_historic_schema |},
            set_execution_confirmed false st2, count_llm_call w2).
Proof.
  intros d vs place s e z j st0 w0 st1 w1 st2 w2 r tool_args Hreq Hvalid Hr.
  destruct (cds_validation_facts _ _ _ _ _ _ _ _ _ _ _ _ Hvalid) as [[m Hm] Hvs].
  destruct (members_of_names vs Hvs) as [ms Hms].
  pose proof (cds_inference_pass (VStr d) d m (map VStr vs) ms (VStr place) r s e z j
                st2 w2 eq_refl Hm (fun st w => variables_of_names vs ms st w Hms) Hr)
    as Hpass.
  cbv zeta in Hpass. cbn [after_area after_area_world] in Hpass.
  eexists. split; [| unfold _run].
  2: { unfold bind at 1. fold tool_args. rewrite Hreq.
       unfold bind at 1. rewrite Hvalid.
       unfold bind at 1. unfold tool_args. rewrite Hpass.
       unfold confirm_args. cbn. reflexivity. }
  reflexivity.
Qed.

(** X6: the period the CDS historic tool infers when neither end is
    given.  The date offsets are written with the keyword [month], which
    sets the month: the start is formatted from a date in February and the
    end from a date in January, both of the current year, whatever the
    current month is. *)
Theorem default_period_is_february_to_january :
  forall (d : string) (vs : list string) (area : value) (z j : option string)
         st0 w0 st w tool_args' st' w',
    let tool_args :=
      cds_historic_tool_args (VStr d) (VList (map VStr vs)) area VNone VNone
        (optional_str z) (optional_str j) in
    check_validation_rules CDSHistoricNotebookTool tool_args st0 w0 = (Return tt, st, w) ->
    infer_args CDSHistoricNotebookTool tool_args st w = (Return tool_args', st', w') ->
    exists start stop : datetime,
      dict_get "start_time" tool_args' = Some (VStr (strftime start "%Y-%m-01"))
      /\ dict_get "end_time" tool_args' = Some (VStr (strftime stop "%Y-%m-01"))
      /\ (year start, month start) = (year (now w), 2)
      /\ (year stop, month stop) = (year (now w), 1).
Proof.
  intros d vs area z j st0 w0 st w tool_args' st' w' tool_args Hvalid Hinfer.
  destruct (cds_inference_result d vs area None None z j st0 w0 st w tool_args' st' w'
              Hvalid Hinfer) as (m & ms & r & _ & _ & _ & _ & -> & ->).
  assert (now (after_area_world area w) = now w) as Hnow by (destruct area; reflexivity).
  exists (relativedelta_month 2 (to_date (now w))).
  exists (relativedelta_month 1 (to_date (now w))).
  unfold inferred_start, inferred_end, cds_historic_tool_args.
  cbn [dict_get String.eqb Ascii.eqb Bool.eqb]. rewrite Hnow.
  repeat split.
Qed.

End CDSRun.

Lemma dataset_of_value_member `{ext : External} (m : InputHistoricCDSDataset) st w :
  dataset_of_value (VDataset m) st w = (Return m, st, w).
Proof. destruct m; reflexivity. Qed.

Lemma variables_of_values `{ext : External} (ms : list InputHistoricVariable) st w :
  mapM variable_of_value (map VVariable ms) st w = (Return ms, st, w).
Proof.
  induction ms as [| m ms IH]; [reflexivity |].
  cbn [map mapM]. unfold bind at 1.
  assert (variable_of_value (VVariable m) st w = (Return m, st, w)) as ->
      by (destruct m; reflexivity).
  unfold bind at 1. rewrite IH. reflexivity.
Qed.

Section CDSExecute.
Context `{ext : External}.

Local Arguments bind {A B} m k st w /.
Local Arguments ret {A} a st w /.
Local Arguments lift {A} o st w /.
Local Arguments raise {A} e st w /.
Local Arguments raise_interrupt {A} i st w /.
Local Arguments get_self st w /.
Local Arguments get_world st w /.
Local Arguments modify_self f st w /.
Local Arguments modify_world f st w /.
Local Arguments getitem {V} d k /.
Local Arguments keyword d k /.
Local Arguments current_user /.
Local Arguments notebook_by_name author notebook_name /.
Local Arguments save_notebook nb /.
Local Arguments prepare_notebook {ext} template jupyter_notebook /.
Local Arguments write_notebook_template : simpl never.
Local Arguments notebook_template : simpl never.
Local Arguments dataset_var_description : simpl never.
Local Arguments dataset_of_value : simpl never.
Local Arguments variable_of_value : simpl never.
Local Arguments mapM : simpl never.
Local Arguments replace_char : simpl never.
Local Arguments join : simpl never.

Lemma cds_execute_returns (m : InputHistoricCDSDataset) (ms : list InputHistoricVariable)
      (r : value) (start stop zarr book : string) (g : GraphState) st w :
  graph_state st = Some g ->
  exists cells,
    let found := notebooks w !! (user_id g, book) in
    let nb :=
      {| nb_name := nb_name (default {| nb_name := VStr book; nb_authors := user_id g;
                                        nb_cells := [] |} found);
         nb_authors := nb_authors (default {| nb_name := VStr book; nb_authors := user_id g;
                                              nb_cells := [] |} found);
         nb_cells := cells |} in
    cds_historic_execute
      (cds_historic_tool_args (VDataset m) (VList (map VVariable ms)) r (VStr start)
         (VStr stop) (VStr zarr) (VStr book)) st w
    = (Return (VDict [("data_source", VStr zarr); ("notebook", VStr book)]),
       set_execution_confirmed false (set_notebook (Some nb) st),
       store_notebook nb w).
Proof.
  intros Hg. destruct st as [gs ec oc out nbk]. simpl in Hg. subst gs.
  unfold cds_historic_execute, cds_historic_tool_args. cbn.
  rewrite dataset_of_value_member. cbn.
  rewrite !variables_of_values. cbn.
  eexists. reflexivity.
Qed.

(** X7: a confirmed run of the CDS historic tool on a bounding box, the
    renderer of the notebook template being taken as returning.  When the
    three checks pass, the rounding of the box returns and the execution
    was confirmed, the run returns the inferred names of the data store and
    of the notebook, asks the language model nothing, enters one execution
    in the history, hands one notebook to the store (a new one, under the
    user's name, when the user had none of that name) and leaves
    [execution_confirmed] cleared. *)
Theorem confirmed_run_saves_one_notebook :
  forall (d : string) (vs : list string) (l : list value) (s e z j : option string)
         st0 w0 st1 w1 st2 w2 (g : GraphState) (r : value),
    let tool_args :=
      cds_historic_tool_args (VStr d) (VList (map VStr vs)) (VList l) (optional_str s)
        (optional_str e) (optional_str z) (optional_str j) in
    check_required_args CDSHistoricNotebookTool tool_args st0 w0 = (Return tt, st1, w1) ->
    check_validation_rules CDSHistoricNotebookTool tool_args st1 w1
    = (Return tt, st2, w2) ->
    (forall st w, round_bounding_box (VList l) st w = (Return r, st, w)) ->
    graph_state st2 = Some g ->
    execution_confirmed st2 = true ->
    output_confirmed st2 = true ->
    exists tool_args' zarr book nb st' w',
      _run CDSHistoricNotebookTool tool_args st0 w0
      = (Return (VDict [("data_source", VStr zarr); ("notebook", VStr book)]), st', w')
      /\ dict_get "zarr_output" tool_args' = Some (VStr zarr)
      /\ dict_get "jupyter_notebook" tool_args' = Some (VStr book)
      /\ executed w' = (executed w2 ++ [(CDS_HISTORIC_NOTEBOOK_TOOL, tool_args')])%list
      /\ saved w' = (saved w2 ++ [nb])%list
      /\ llm_calls w' = llm_calls w2
      /\ notebook st' = Some nb
      /\ execution_confirmed st' = false
      /\ (notebooks w2 !! (user_id g, book) = None ->
          nb_name nb = VStr book /\ nb_authors nb = user_id g).
Proof.
  intros d vs l s e z j st0 w0 st1 w1 st2 w2 g r tool_args Hreq Hvalid Hr Hg He Ho.
  destruct (cds_validation_facts _ _ _ _ _ _ _ _ _ _ _ _ Hvalid) as [[m Hm] Hvs].
  destruct (members_of_names vs Hvs) as [ms Hms].
  pose proof (cds_inference_pass (VStr d) d m (map VStr vs) ms (VList l) r s e z j
                st2 w2 eq_refl Hm (fun st w => variables_of_names vs ms st w Hms) Hr)
    as Hpass.
  cbv zeta in Hpass. cbn [after_area after_area_world] in Hpass.
  set (start := inferred_start s e w2) in *.
  set (stop := inferred_end start e w2) in *.
  set (zarr := inferred_name ms z ".zarr" w2) in *.
  set (book := inferred_name ms j ".ipynb" w2) in *.
  set (tool_args' := cds_historic_tool_args (VDataset m) (VList (map VVariable ms)) r
                       (VStr start) (VStr stop) (VStr zarr) (VStr book)) in *.
  destruct (cds_execute_returns m ms r start stop zarr book g st2
              (record_execution CDS_HISTORIC_NOTEBOOK_TOOL tool_args' w2) Hg)
    as (cells & Hexec).
  cbv zeta in Hexec. fold tool_args' in Hexec.
  exists tool_args', zarr, book.
  eexists. eexists. eexists.
  split.
  { unfold _run.
    unfold bind at 1. fold tool_args. rewrite Hreq.
    unfold bind at 1. rewrite Hvalid.
    unfold bind at 1. unfold tool_args. rewrite Hpass.
    unfold bind at 1. unfold confirm_args. cbn [bind get_self]. rewrite He.
    cbn [negb ret]. unfold call_execute. cbn [bind modify_world].
    cbn [CDSHistoricNotebookTool _execute name]. rewrite Hexec.
    unfold confirm_ouputs. cbn. rewrite Ho. cbn. reflexivity. }
  split; [reflexivity |]. split; [reflexivity |].
  split; [reflexivity |]. split; [reflexivity |]. split; [reflexivity |].
  split; [reflexivity |]. split; [reflexivity |].
  cbn [record_execution notebooks]. intros ->. split; reflexivity.
Qed.

End CDSExecute.

(** ** The area rule and the rounding *)

Section AreaRule.
Context `{ext : External}.

Local Arguments bind {A B} m k st w /.
Local Arguments ret {A} a st w /.
Local Arguments lift {A} o st w /.
Local Arguments raise {A} e st w /.
Local Arguments getitem {V} d k /.
Local Arguments py_str : simpl never.

Lemma area_rule_accepts (ka : pydict) (l : list value) st w st' w' :
  dict_get "area" ka = Some (VList l) ->
  apply_rules "area" [area_rule] ka [] st w = (Return [], st', w') ->
  length l = 4%nat.
Proof.
  intros Hget H. cbn [apply_rules] in H. unfold area_rule in H. cbn in H.
  rewrite Hget in H. cbn in H.
  destruct (Nat.eqb (length l) 4) eqn:Hlen; [apply Nat.eqb_eq; exact Hlen |].
  cbn in H. inversion H.
Qed.

Ltac nothing_recorded H a :=
  assert (a = []) as ->
      by (destruct a; [reflexivity |]; exfalso;
          apply (validate_fields_nonempty _ _ _ _ _ _ _ _ _ H);
          [discriminate | reflexivity]).

(** X8: a list that the validation of either notebook tool lets through as
    the area has exactly four items, so that the rounding of the CDS
    historic tool finds the four coordinates it indexes. *)
Theorem validated_area_has_four_items :
  forall (l : list value) (st st' : tool_state) (w0 w' : world),
    (forall hd hv s e z j,
        check_validation_rules CDSHistoricNotebookTool
          (cds_historic_tool_args hd hv (VList l) s e z j) st w0 = (Return tt, st', w') ->
        length l = 4%nat)
    /\ (forall p i t n,
           check_validation_rules SPIForecastNotebookTool
             (spi_forecast_tool_args (VList l) p i t n) st w0 = (Return tt, st', w') ->
           length l = 4%nat).
Proof.
  intros l st st' w0 w'. split.
  - intros hd hv s e z j H. apply check_validation_rules_inv in H.
    cbn [CDSHistoricNotebookTool _set_args_validation_rules args_schema] in H.
    unfold cds_historic_schema, dict_keys in H. cbn [map fst] in H.
    rewrite validate_fields_cons in H. step_inv H. nothing_recorded H a.
    rewrite validate_fields_cons in H. step_inv H. nothing_recorded H a.
    rewrite validate_fields_cons in H. step_inv H. nothing_recorded H a.
    apply (area_rule_accepts (cds_historic_tool_args hd hv (VList l) s e z j) l _ _ _ _
             eq_refl Hstep1).
  - intros p i t n H. apply check_validation_rules_inv in H.
    cbn [SPIForecastNotebookTool _set_args_validation_rules args_schema] in H.
    unfold spi_forecast_schema, dict_keys in H. cbn [map fst] in H.
    rewrite validate_fields_cons in H. step_inv H. nothing_recorded H a.
    apply (area_rule_accepts (spi_forecast_tool_args (VList l) p i t n) l _ _ _ _
             eq_refl Hstep).
Qed.

End AreaRule.

(** ** The SPI forecast tool *)

Section SPIForecast.
Context `{ext : External}.

Local Arguments bind {A B} m k st w /.
Local Arguments ret {A} a st w /.
Local Arguments lift {A} o st w /.
Local Arguments raise {A} e st w /.
Local Arguments raise_interrupt {A} i st w /.
Local Arguments get_self st w /.
Local Arguments get_world st w /.
Local Arguments modify_self f st w /.
Local Arguments modify_world f st w /.
Local Arguments getitem {V} d k /.
Local Arguments ask_llm {ext} message eval_output /.
Local Arguments answer_of : simpl never.
Local Arguments llm_invoke : simpl never.
Local Arguments strftime : simpl never.
Local Arguments isoformat : simpl never.
Local Arguments py_str : simpl never.
Local Arguments replace_char : simpl never.

(** The inference pass of the SPI forecast tool, in closed form. *)
Lemma spi_inference_pass (area p i t n : value) st w :
  let w' := after_area_world area w in
  infer_args SPIForecastNotebookTool (spi_forecast_tool_args area p i t n) st w
  = (Return
       (spi_forecast_tool_args (resolved_area area w) p
          (if is_none i then VStr (strftime (replace_day_1 (now w')) "%Y-%m-%d") else i)
          (if is_none t
           then VStr (strftime (relativedelta_month 1 (replace_day_1 (now w'))) "%Y-%m-%d")
           else t)
          (if is_none n
           then VStr ("icisk-ai_spi-forecast_"
                      +:+ replace_char ":" "-" (isoformat (now w')) +:+ ".ipynb")
           else n)),
     after_area area st, w').
Proof.
  cbv zeta. unfold infer_args, spi_forecast_tool_args.
  cbn [SPIForecastNotebookTool _set_args_inference_rules args_schema].
  unfold spi_forecast_schema, dict_keys. cbn [map fst].
  destruct area; cbn; destruct (is_none i); cbn; destruct (is_none t); cbn;
    destruct (is_none n); reflexivity.
Qed.

(** X9: the inference phase of the SPI forecast tool returns on every
    argument set.  It leaves the reference period and every argument that
    is not [None] as given; only an area that is a text is put to the
    language model, once, and that clears [execution_confirmed]. *)
Theorem spi_inference_always_returns :
  forall (area p i t n : value) (st : tool_state) (w : world),
  exists tool_args' st' w',
    infer_args SPIForecastNotebookTool (spi_forecast_tool_args area p i t n) st w
    = (Return tool_args', st', w')
    /\ dict_get "reference_period" tool_args' = Some p
    /\ (is_none i = false -> dict_get "init_time" tool_args' = Some i)
    /\ (is_none t = false -> dict_get "lead_time" tool_args' = Some t)
    /\ (is_none n = false -> dict_get "jupyter_notebook" tool_args' = Some n)
    /\ match area with
       | VStr place =>
           dict_get "area" tool_args'
           = Some (answer_of (llm_invoke (llm_calls w) (BoundingBoxOf place)) true)
           /\ st' = set_execution_confirmed false st
           /\ w' = count_llm_call w
       | _ => dict_get "area" tool_args' = Some area /\ st' = st /\ w' = w
       end.
Proof.
  intros area p i t n st w.
  eexists. eexists. eexists.
  split; [apply spi_inference_pass |].
  unfold spi_forecast_tool_args. cbn [dict_get String.eqb Ascii.eqb Bool.eqb].
  split; [reflexivity |].
  split; [intros ->; reflexivity |].
  split; [intros ->; reflexivity |].
  split; [intros ->; reflexivity |].
  destruct area; repeat split; reflexivity.
Qed.

(** X10: a reference period that cannot be indexed at position 1 never
    reaches the user as an INVALID_ARGS interrupt.  The first rule records
    its reason, the second rule indexes the value all the same, and the
    validation ends in the exception: [TypeError] for [None], [IndexError]
    for a sequence of fewer than two items. *)
Theorem short_reference_period_raises :
  forall (area i t n : value) (l : list value) (st : tool_state) (w : world),
    (length l < 2)%nat ->
    check_validation_rules SPIForecastNotebookTool
      (spi_forecast_tool_args area VNone i t n) st w = (Raised TypeError, st, w)
    /\ check_validation_rules SPIForecastNotebookTool
         (spi_forecast_tool_args area (VTuple l) i t n) st w = (Raised IndexError, st, w)
    /\ check_validation_rules SPIForecastNotebookTool
         (spi_forecast_tool_args area (VList l) i t n) st w = (Raised IndexError, st, w).
Proof.
  intros area i t n l st w Hl.
  unfold check_validation_rules, spi_forecast_tool_args.
  cbn [SPIForecastNotebookTool _set_args_validation_rules args_schema].
  unfold spi_forecast_schema, dict_keys. cbn [map fst].
  assert (l = [] \/ exists x, l = [x]) as Hshape.
  { destruct l as [| x [| y l]]; [left; reflexivity | right; eauto |].
    simpl in Hl. lia. }
  split; [| split].
  - destruct area as [| | | | | l0 | | | |]; cbn; try reflexivity.
    destruct (Nat.eqb (length l0) 4); reflexivity.
  - destruct Hshape as [-> | [x ->]];
      (destruct area as [| | | | | l0 | | | |]; cbn; try reflexivity;
       destruct (Nat.eqb (length l0) 4); reflexivity).
  - destruct Hshape as [-> | [x ->]];
      (destruct area as [| | | | | l0 | | | |]; cbn; try reflexivity;
       destruct (Nat.eqb (length l0) 4); reflexivity).
Qed.

(** X11: the lead time the SPI forecast tool infers when none is given is
    the first of January of the current year, the keyword [month=1] of the
    date offset setting the month; the inferred initialization time is the
    first of the current month.  The default lead time is therefore never
    after the default initialization time, and before it in every month
    but January. *)
Theorem spi_default_lead_time_is_january :
  forall (area p n : value) (st : tool_state) (w : world),
    1 <= month (now w) ->
    exists tool_args' st' w' init lead,
      infer_args SPIForecastNotebookTool (spi_forecast_tool_args area p VNone VNone n) st w
      = (Return tool_args', st', w')
      /\ dict_get "init_time" tool_args' = Some (VStr (strftime init "%Y-%m-%d"))
      /\ dict_get "lead_time" tool_args' = Some (VStr (strftime lead "%Y-%m-%d"))
      /\ (year init, month init, day init) = (year (now w), month (now w), 1)
      /\ (year lead, month lead, day lead) = (year (now w), 1, 1)
      /\ dt_gt lead init = false
      /\ dt_lt lead init = (1 <? month (now w)).
Proof.
  intros area p n st w Hmonth.
  eexists. eexists. eexists.
  exists (replace_day_1 (now (after_area_world area w))).
  exists (relativedelta_month 1 (replace_day_1 (now (after_area_world area w)))).
  split; [apply spi_inference_pass |].
  assert (now (after_area_world area w) = now w) as -> by (destruct area; reflexivity).
  split; [reflexivity |]. split; [reflexivity |].
  split; [reflexivity |]. split; [reflexivity |].
  unfold dt_gt, dt_lt, relativedelta_month, replace_day_1.
  cbn [year month day time_of_day].
  change (Z.min 1 (days_in_month (year (now w)) 1)) with 1.
  rewrite !Z.ltb_irrefl, !Z.eqb_refl. cbn [andb orb].
  rewrite !andb_false_r, !orb_false_r.
  split; [apply Z.ltb_ge; exact Hmonth | reflexivity].
Qed.

End SPIForecast.

(** ** The interrupt handlers: what they change *)

(** X12: merging an answer into the pending message touches the last tool
    call only, and only its arguments: the calls before it, and the name
    and the identifier of the last one, are as they were. *)
Theorem update_last_call_changes_last_only :
  forall (calls calls' : list ToolCall) (v : value),
    update_last_call calls v = Return calls' ->
    exists front c a,
      calls = (front ++ [c])%list
      /\ dict_update_value (call_args c) v = Return a
      /\ calls'
         = (front ++ [{| call_name := call_name c; call_args := a;
                         call_id := call_id c |}])%list.
Proof.
  induction calls as [| c calls IH]; intros calls' v H.
  - discriminate H.
  - destruct calls as [| c' calls].
    + simpl in H. destruct (dict_update_value (call_args c) v) as [a | |] eqn:Ha;
        try discriminate H.
      inversion H; subst. exists [], c, a. auto.
    + change (update_last_call (c :: c' :: calls) v)
        with (match update_last_call (c' :: calls) v with
              | Return rest' => Return (c :: rest')
              | o => o
              end) in H.
      destruct (update_last_call (c' :: calls) v) as [rest' | |] eqn:Hrest;
        try discriminate H.
      inversion H; subst.
      destruct (IH rest' v Hrest) as (front & c0 & a & Hc & Ha & Hr).
      exists (c :: front), c0, a. rewrite Hc, Hr. auto.
Qed.

Lemma only_asked_refl (w : world) : only_asked w w.
Proof. unfold only_asked. auto. Qed.

Lemma only_asked_trans (w1 w2 w3 : world) :
  only_asked w1 w2 -> only_asked w2 w3 -> only_asked w1 w3.
Proof.
  unfold only_asked. intros (? & ? & ? & ? & ?) (? & ? & ? & ? & ?).
  repeat split; try congruence. lia.
Qed.

Lemma only_asks_ret {A : Type} (a : A) : only_asks (ret a).
Proof. intros st w. apply only_asked_refl. Qed.

Lemma only_asks_raise {A : Type} (e : exn) : only_asks (@raise A e).
Proof. intros st w. apply only_asked_refl. Qed.

Lemma only_asks_lift {A : Type} (o : outcome A) : only_asks (lift o).
Proof. intros st w. unfold lift. destruct o; apply only_asked_refl. Qed.

Lemma only_asks_get_self : only_asks get_self.
Proof. intros st w. apply only_asked_refl. Qed.

Lemma only_asks_get_world : only_asks get_world.
Proof. intros st w. apply only_asked_refl. Qed.

Lemma only_asks_modify_self (f : tool_state -> tool_state) : only_asks (modify_self f).
Proof. intros st w. apply only_asked_refl. Qed.

Lemma only_asks_bind {A B : Type} (m : M A) (k : A -> M B) :
  only_asks m -> (forall a, only_asks (k a)) -> only_asks (bind m k).
Proof.
  intros Hm Hk st w. unfold bind. specialize (Hm st w).
  destruct (m st w) as [[o st1] w1]. simpl in Hm.
  destruct o as [a | i | e]; simpl; [| exact Hm ..].
  apply (only_asked_trans _ _ _ Hm). apply Hk.
Qed.

Lemma only_asks_ask_llm `{ext : External} (q : llm_query) (eval_output : bool) :
  only_asks (ask_llm q eval_output).
Proof. intros st w. unfold only_asked. cbn. repeat split. lia. Qed.

Ltac only_asks_step :=
  first
    [ apply only_asks_ret | apply only_asks_raise | apply only_asks_lift
    | apply only_asks_get_self | apply only_asks_get_world
    | apply only_asks_modify_self | apply only_asks_ask_llm
    | apply only_asks_bind; [| intros ?]
    | match goal with
      | |- only_asks (match ?x with _ => _ end) => destruct x
      | |- only_asks (if ?b then _ else _) => destruct b
      end ].

Section HandlerEffects.
Context `{ext : External}.

Ltac only_asks_handler :=
  repeat first
    [ only_asks_step
    | progress unfold exit_tool_process, message_id, update_tool_message,
        data_args_schema, data_missing_args, data_invalid_args, data_args,
        data_output_items, last_call_args, provide_args_interrupt_message,
        invalid_args_interrupt_message ].

(** X13: an interrupt handler does nothing to the world but ask the
    language model.  Whatever the pending message, the interrupt and the
    human's answer are, and however the handler ends, the notebook store,
    the history of saves and the history of executions are as before. *)
Theorem handlers_only_ask :
  forall (kind : string) (handler : BaseToolInterruptHandler),
    (default_tool_interupt_handlers !! kind = Some handler
     \/ handler = CodeEditorToolInterruptOutputConfirmationHandler) ->
    forall (tool_message : message) (i : BaseToolInterrupt) (node : string)
           (interruption : pydict) (st : tool_state) (w : world),
      only_asked w (snd (handle handler tool_message i node interruption st w)).
Proof.
  intros kind handler Hh tool_message i node interruption.
  assert (only_asks (handle handler tool_message i node interruption)) as H; [| exact H].
  assert (forall q, only_asks (output_confirmation_handle q tool_message i node
                                 interruption)) as Hout.
  { intros q. unfold output_confirmation_handle. only_asks_handler. }
  destruct Hh as [Hh | ->]; [| apply Hout].
  unfold default_tool_interupt_handlers in Hh.
  repeat (apply lookup_insert_Some in Hh; destruct Hh as [[_ <-] | [_ Hh]];
          [cbn [handle] |]); [| | | | rewrite lookup_empty in Hh; discriminate Hh].
  - unfold provide_args_handle. only_asks_handler.
  - unfold invalid_args_handle. only_asks_handler.
  - unfold args_confirmation_handle. only_asks_handler.
  - apply Hout.
Qed.

End HandlerEffects.

Section OutputConfirmation.
Context `{ext : External}.

(** X14: the two resuming branches of the output-confirmation handler.
    When the answer is classified as [True] the pending message goes back
    to the tool handler node unchanged and the tool has [output_confirmed]
    set, after two calls of the language model.  When it is classified as
    [False] a third call asks for the changed inputs, they are merged into
    the last tool call, and [output_confirmed] is cleared. *)
Theorem output_confirmation_resumes :
  forall (tool reason : string) (a o : pydict) (id : string) (calls : list ToolCall)
         (node : string) (interruption : pydict) (st : tool_state) (w : world),
    let i :=
      {| interrupt_tool := tool; interrupt_type := CONFIRM_OUTPUT;
         interrupt_reason := reason; interrupt_data := ConfirmOutputData a (VDict o) |} in
    let classified :=
      answer_of
        (llm_invoke (S (llm_calls w))
           (ClassifyOutputConfirmation reason a o (get_response interruption))) true in
    let changes :=
      answer_of
        (llm_invoke (S (S (llm_calls w)))
           (InterpretOutputChanges reason a (get_response interruption))) true in
    (classified = VBool true ->
     handle BaseToolInterruptOutputConfirmationHandler (AIMessage id calls) i node
       interruption st w
     = (Return (Command node (resume_update (AIMessage id calls))),
        set_output_confirmed true st, count_llm_call (count_llm_call w)))
    /\ (classified = VBool false ->
        forall calls',
          update_last_call calls changes = Return calls' ->
          handle BaseToolInterruptOutputConfirmationHandler (AIMessage id calls) i node
            interruption st w
          = (Return (Command node (resume_update (AIMessage id calls'))),
             set_output_confirmed false st,
             count_llm_call (count_llm_call (count_llm_call w)))).
Proof.
  intros tool reason a o id calls node interruption st w i classified changes.
  unfold BaseToolInterruptOutputConfirmationHandler. cbn [handle].
  unfold output_confirmation_handle, i.
  cbn [interrupt_data interrupt_reason data_args data_output_items].
  split.
  - intros Hc. unfold classified in Hc.
    cbv [bind ret lift get_world get_self modify_world modify_self ask_llm count_llm_call].
    cbn [llm_calls]. rewrite Hc. reflexivity.
  - intros Hc calls' Hcalls. unfold classified in Hc. unfold changes in Hcalls.
    cbv [bind ret lift get_world get_self modify_world modify_self ask_llm count_llm_call
         update_tool_message].
    cbn [llm_calls]. rewrite Hc. cbn [llm_calls]. rewrite Hcalls. reflexivity.
Qed.

End OutputConfirmation.

(** ** The two nodes and the registry of tools *)

Lemma same_tools_refl (tools : gmap string tool_object) : same_tools tools tools.
Proof. intros n. destruct (tools !! n); auto. Qed.

Lemma same_tools_insert (tools : gmap string tool_object) (n : string) (t : tool_object)
      (st : tool_state) :
  tools !! n = Some t -> same_tools tools (<[n := with_fields t st]> tools).
Proof.
  intros Ht n'. destruct (decide (n = n')) as [<- | Hne].
  - rewrite Ht, lookup_insert_eq. reflexivity.
  - rewrite lookup_insert_ne by exact Hne. destruct (tools !! n'); auto.
Qed.

(** X15: neither node of a sub-flow adds a tool to the registry, removes
    one or changes the class of one, however it ends; and the only entry
    whose fields can have changed is the tool that was invoked, or whose
    interrupt was handled. *)
Theorem nodes_keep_the_registry :
  forall (tools : gmap string tool_object) (state : GraphState) (w : world),
    (forall (self : BaseToolHandlerNode),
        let tools' := snd (fst (tool_handler_template self tools state w)) in
        same_tools tools tools'
        /\ forall n,
             tools' !! n = tools !! n
             \/ exists id calls c,
                  last (messages state) = Some (AIMessage id calls)
                  /\ last calls = Some c /\ n = call_name c)
    /\ (forall (self : BaseToolInterruptNode) handlers interruption,
           let tools' :=
             snd (fst (tool_interrupt_node_template self handlers tools state
                         interruption w)) in
           same_tools tools tools'
           /\ forall n,
                tools' !! n = tools !! n
                \/ exists m i node,
                     node_params state !! tool_interrupt_node_name self
                     = Some (InterruptParams m i node)
                     /\ n = interrupt_tool i).
Proof.
  intros tools state w. split.
  - intros self. cbv zeta. unfold tool_handler_template.
    destruct (last (messages state)) as [[id calls | | | |] |] eqn:Hlast;
      try (split; [apply same_tools_refl | intros; left; reflexivity]).
    destruct (last calls) as [c |] eqn:Hcall;
      try (split; [apply same_tools_refl | intros; left; reflexivity]).
    destruct (tools !! call_name c) as [t |] eqn:Ht;
      try (split; [apply same_tools_refl | intros; left; reflexivity]).
    destruct (invoke _ _ _ _) as [[[result | i | e] st'] w'];
      (split; [apply same_tools_insert; exact Ht |]);
      intros n; cbn [fst snd];
      (destruct (decide (call_name c = n)) as [<- | Hne];
       [right; exists id, calls, c; auto | left; apply lookup_insert_ne; exact Hne]).
  - intros self handlers interruption. cbv zeta. unfold tool_interrupt_node_template.
    destruct (node_params state !! tool_interrupt_node_name self)
      as [[m i node | ] |] eqn:Hparams;
      try (split; [apply same_tools_refl | intros; left; reflexivity]).
    destruct (tools !! interrupt_tool i) as [t |] eqn:Ht;
      try (split; [apply same_tools_refl | intros; left; reflexivity]).
    destruct (dispatch self handlers (interrupt_type i)) as [h |];
      try (split; [apply same_tools_refl | intros; left; reflexivity]).
    destruct (handle h _ _ _ _ _ _) as [[[result | i' | e] st'] w'];
      (split; [apply same_tools_insert; exact Ht |]);
      intros n; cbn [fst snd];
      (destruct (decide (interrupt_tool i = n)) as [<- | Hne];
       [right; exists m, i, node; auto | left; apply lookup_insert_ne; exact Hne]).
Qed.

(** ** The code editor: an unknown notebook *)

Section CodeEditorValidation.
Context `{ext : External}.

Local Arguments bind {A B} m k st w /.
Local Arguments ret {A} a st w /.
Local Arguments lift {A} o st w /.
Local Arguments raise {A} e st w /.
Local Arguments raise_interrupt {A} i st w /.
Local Arguments get_self st w /.
Local Arguments get_world st w /.
Local Arguments modify_self f st w /.
Local Arguments modify_world f st w /.
Local Arguments getitem {V} d k /.
Local Arguments current_user /.
Local Arguments notebook_by_name author notebook_name /.
Local Arguments py_str : simpl never.

(** X16: the code editor writes no code for a notebook the user does not
    have.  When the source is not the name of a notebook of the current
    user in the store (a source that is no text included), the run stops
    in an INVALID_ARGS interrupt on [source]; the language model has not
    been asked, nothing was executed and nothing saved. *)
Theorem unknown_notebook_is_invalid :
  forall (g : GraphState) (source code_request : value) (st : tool_state) (w : world),
    graph_state st = Some g ->
    is_none code_request = false ->
    (forall n, source = VStr n -> notebooks w !! (user_id g, n) = None) ->
    exists reason,
      _run CodeEditorTool (code_editor_tool_args source code_request) st w
      = (Interrupted
           {| interrupt_tool := CODE_EDITOR_TOOL;
              interrupt_type := INVALID_ARGS;
              interrupt_reason := "Invalid arguments: ['source'].";
              interrupt_data :=
                InvalidArgsData [("source", VStr reason)] code_editor_schema |},
         set_execution_confirmed false st, w).
Proof.
  intros g source code_request st w Hg Hreq Hmissing.
  destruct st as [gs ec oc out nbk]. simpl in Hg. subst gs.
  unfold _run, check_required_args, check_validation_rules, code_editor_tool_args.
  cbn [CodeEditorTool args_schema _set_args_validation_rules name].
  cbn. rewrite Hreq. cbn.
  destruct source; cbn; try (eexists; reflexivity).
  rewrite (Hmissing _ eq_refl). cbn. eexists. reflexivity.
Qed.

End CodeEditorValidation.

(** ** The chatbot node *)

(** X17: the chatbot enters a sub-flow only with a message that carries
    exactly one tool call, the first one of the model's answer, for a tool
    of that sub-flow; the other calls of the answer are dropped.  Once the
    message is in the conversation (its identifier being new), it is the
    last message, and its only call the one the tool handler node of the
    sub-flow takes. *)
Theorem chatbot_enters_with_one_call :
  forall (llm_with_tools : GraphState -> string * list ToolCall) (state : GraphState)
         (subgraph : string) (u : state_update) (history : list string),
    chatbot llm_with_tools state = (Command subgraph u, history) ->
    In subgraph subgraphs ->
    exists id c rest,
      llm_with_tools state = (id, c :: rest)
      /\ u = {| upd_messages := [AIMessage id [c]]; upd_node_params := None;
                upd_requested_agent := None |}
      /\ In (call_name c) (tools_of subgraph)
      /\ history = [CHATBOT; subgraph]
      /\ (existsb (has_id id) (messages state) = false ->
          exists state',
            apply_update state u = Return state'
            /\ last (messages state') = Some (AIMessage id [c])
            /\ node_params state' = node_params state).
Proof.
  intros llm state subgraph u history H Hin.
  unfold chatbot in H.
  destruct (0 <? length (messages state))%nat.
  2: { inversion H; subst. simpl in Hin. intuition discriminate. }
  destruct (node_params state !! CHATBOT_UPDATE_MESSAGES).
  { inversion H; subst. simpl in Hin. intuition discriminate. }
  destruct (llm state) as [id calls] eqn:Hllm.
  destruct calls as [| c rest].
  { inversion H; subst. simpl in Hin. intuition discriminate. }
  assert (forall sg,
             In (call_name c) (tools_of sg) ->
             (Command sg
                {| upd_messages := [AIMessage id [c]]; upd_node_params := None;
                   upd_requested_agent := None |}, [CHATBOT; sg])
             = (Command subgraph u, history) ->
             exists id0 c0 rest0,
               (id, c :: rest) = (id0, c0 :: rest0)
               /\ u = {| upd_messages := [AIMessage id0 [c0]]; upd_node_params := None;
                         upd_requested_agent := None |}
               /\ In (call_name c0) (tools_of subgraph)
               /\ history = [CHATBOT; subgraph]
               /\ (existsb (has_id id0) (messages state) = false ->
                   exists state',
                     apply_update state u = Return state'
                     /\ last (messages state') = Some (AIMessage id0 [c0])
                     /\ node_params state' = node_params state)) as Henter.
  { intros sg Htool Heq. inversion Heq; subst. exists id, c, rest.
    repeat split; try assumption.
    intros Hnew. unfold apply_update. cbn [upd_messages add_messages add_message].
    rewrite Hnew. eexists. split; [reflexivity |].
    cbn [messages node_params upd_node_params]. split; [apply last_snoc | reflexivity]. }
  destruct (String.eqb (call_name c) CDS_HISTORIC_NOTEBOOK_TOOL) eqn:H1.
  { apply String.eqb_eq in H1. apply (Henter CDS_INGESTOR_SUBGRAPH); [| exact H].
    rewrite H1. simpl. auto. }
  destruct (String.eqb (call_name c) CDS_FORECAST_NOTEBOOK_TOOL) eqn:H2.
  { apply String.eqb_eq in H2. apply (Henter CDS_INGESTOR_SUBGRAPH); [| exact H].
    rewrite H2. simpl. auto. }
  destruct (String.eqb (call_name c) SPI_HISTORIC_NOTEBOOK_TOOL) eqn:H3.
  { apply String.eqb_eq in H3. apply (Henter SPI_CALCULATION_SUBGRAPH); [| exact H].
    rewrite H3. simpl. auto. }
  destruct (String.eqb (call_name c) SPI_FORECAST_NOTEBOOK_TOOL) eqn:H4.
  { apply String.eqb_eq in H4. apply (Henter SPI_CALCULATION_SUBGRAPH); [| exact H].
    rewrite H4. simpl. auto. }
  destruct (String.eqb (call_name c) CODE_EDITOR_TOOL) eqn:H5.
  { apply String.eqb_eq in H5. apply (Henter CODE_EDITOR_SUBGRAPH); [| exact H].
    rewrite H5. simpl. auto. }
  cbn [orb] in H. inversion H; subst. simpl in Hin. intuition discriminate.
Qed.

(** X18: messages left for the chatbot are applied once.  While the state
    holds an entry for [chatbot_update_messages] the chatbot goes there
    without consulting the model and without a patch; that node hands the
    stored messages to the reducer and empties [node_params], so that the
    chatbot, entered again, does not go there a second time. *)
Theorem pending_messages_are_applied_once :
  forall (llm_with_tools : GraphState -> string * list ToolCall) (state state' : GraphState)
         (update_messages : list message),
    messages state <> [] ->
    node_params state !! CHATBOT_UPDATE_MESSAGES
    = Some (UpdateMessagesParams update_messages) ->
    apply_update state (update_of (chatbot_update_messages state)) = Return state' ->
    chatbot llm_with_tools state = (Command CHATBOT_UPDATE_MESSAGES no_update, [])
    /\ add_messages (messages state) update_messages = Return (messages state')
    /\ node_params state' = ∅
    /\ forall u history,
         chatbot llm_with_tools state' <> (Command CHATBOT_UPDATE_MESSAGES u, history).
Proof.
  intros llm state state' update_messages Hne Hpending Happly.
  unfold chatbot_update_messages, update_of in Happly. rewrite Hpending in Happly.
  unfold apply_update in Happly. cbn [upd_messages upd_node_params] in Happly.
  destruct (add_messages (messages state) update_messages) as [ms | |] eqn:Hadd;
    try discriminate Happly.
  inversion Happly; subst state'; clear Happly. cbn [messages node_params].
  split; [| split; [reflexivity | split; [reflexivity |]]].
  - unfold chatbot. rewrite Hpending.
    destruct (messages state); [contradiction | reflexivity].
  - intros u history. unfold chatbot. cbn [messages node_params].
    rewrite lookup_empty.
    destruct (0 <? length ms)%nat; [| discriminate].
    destruct (llm _) as [id calls]. destruct calls as [| c rest]; [discriminate |].
    destruct (String.eqb (call_name c) CDS_HISTORIC_NOTEBOOK_TOOL
              || String.eqb (call_name c) CDS_FORECAST_NOTEBOOK_TOOL); [discriminate |].
    destruct (String.eqb (call_name c) SPI_HISTORIC_NOTEBOOK_TOOL
              || String.eqb (call_name c) SPI_FORECAST_NOTEBOOK_TOOL); [discriminate |].
    destruct (String.eqb (call_name c) CODE_EDITOR_TOOL); discriminate.
Qed.

(** ** Texts: fences and aliases *)

Lemma prefix_nil (p : string) : String.prefix p "" = true -> p = "".
Proof. destruct p; [reflexivity | discriminate]. Qed.

Lemma prefix_cons (a c : ascii) (p s : string) :
  String.prefix (String a p) (String c s) = (Ascii.eqb a c && String.prefix p s).
Proof.
  simpl. destruct (ascii_dec a c) as [-> | Hne].
  - rewrite Ascii.eqb_refl. reflexivity.
  - apply Ascii.eqb_neq in Hne. rewrite Hne. reflexivity.
Qed.

Lemma prefix_of_before (sep : string) (s p : string) :
  String.prefix p (before sep s) = true -> String.prefix p s = true.
Proof.
  revert p. induction s as [| c s IH]; intros p H.
  - cbn [before] in H. destruct (String.prefix sep ""); exact H.
  - cbn [before] in H. destruct (String.prefix sep (String c s)).
    + apply prefix_nil in H. subst p. reflexivity.
    + destruct p as [| a p]; [reflexivity |].
      rewrite prefix_cons in *. apply andb_prop in H. destruct H as [Ha Hp].
      rewrite Ha. apply (IH _ Hp).
Qed.

Lemma before_has_no_sep (sep s : string) :
  sep <> "" -> contains sep (before sep s) = false.
Proof.
  intros Hsep.
  assert (String.prefix sep "" = false) as Hnil.
  { destruct sep; [contradiction | reflexivity]. }
  induction s as [| c s IH].
  - cbn [before]. rewrite Hnil. cbn [contains]. rewrite Hnil. reflexivity.
  - cbn [before]. destruct (String.prefix sep (String c s)) eqn:Hp.
    + cbn [contains]. rewrite Hnil. reflexivity.
    + cbn [contains]. rewrite IH, orb_false_r.
      destruct (String.prefix sep (String c (before sep s))) eqn:Hq; [| reflexivity].
      assert (String.prefix sep (before sep (String c s)) = true) as Hq'.
      { cbn [before]. rewrite Hp. exact Hq. }
      apply prefix_of_before in Hq'. congruence.
Qed.

(** X19: a reply that opens with a Python fence is evaluated without it:
    the text [ask_llm] hands to the literal evaluator contains no fence,
    and the code the code editor appends to a notebook contains no closing
    fence on a line of its own; a reply without the opening fence is taken
    whole. *)
Theorem fenced_replies_lose_their_fence :
  forall content : string,
    (if String.prefix "```python" content
     then contains "```" (unfenced content) = false
     else unfenced content = content)
    /\ (if String.prefix ("```python" +:+ newline) content
        then contains (newline +:+ "```") (appended_code content) = false
        else appended_code content = content).
Proof.
  intros content. unfold unfenced, appended_code. split.
  - destruct (String.prefix "```python" content); [| reflexivity].
    apply before_has_no_sep. discriminate.
  - destruct (String.prefix ("```python" +:+ newline) content); [| reflexivity].
    apply before_has_no_sep. discriminate.
Qed.

Lemma prefix_replace_char (a b : ascii) (p s : string) :
  (forall c, In c (list_ascii_of_string p) -> c <> a /\ c <> b) ->
  String.prefix p (replace_char a b s) = String.prefix p s.
Proof.
  revert s. induction p as [| x p IH]; intros s Hp; [destruct s; reflexivity |].
  destruct s as [| c s]; [reflexivity |].
  cbn [replace_char]. rewrite !prefix_cons.
  rewrite IH by (intros c' Hc'; apply Hp; right; exact Hc').
  destruct (Hp x (or_introl eq_refl)) as [Hxa Hxb].
  destruct (Ascii.eqb c a) eqn:Hca; [| reflexivity].
  apply Ascii.eqb_eq in Hca. subst c.
  apply Ascii.eqb_neq in Hxa, Hxb. rewrite Hxa, Hxb. reflexivity.
Qed.

Lemma contains_replace_char (a b : ascii) (p s : string) :
  (forall c, In c (list_ascii_of_string p) -> c <> a /\ c <> b) ->
  contains p (replace_char a b s) = contains p s.
Proof.
  intros Hp. induction s as [| c s IH].
  - reflexivity.
  - change (replace_char a b (String c s))
      with (String (if Ascii.eqb c a then b else c) (replace_char a b s)).
    cbn [contains]. rewrite IH.
    change (String (if Ascii.eqb c a then b else c) (replace_char a b s))
      with (replace_char a b (String c s)).
    rewrite prefix_replace_char by exact Hp. reflexivity.
Qed.

(** X20: how an alias is resolved when it is no member name.  An alias
    that mentions [month] is the monthly dataset, also when it mentions
    [hour] as well; an alias that mentions [prec] is the precipitation,
    also when it mentions [temp] as well.  Every member is found again
    from its own value. *)
Theorem alias_resolution_priority :
  forall alias : string,
    (contains "month" alias = true ->
     dataset_from_text alias = Some reanalysis_era5_land_monthly_means)
    /\ (contains "prec" alias = true ->
        variable_from_text alias = Some total_precipitation)
    /\ (forall m, dataset_from_text (dataset_value m) = Some m)
    /\ (forall m, variable_from_text (variable_value m) = Some m).
Proof.
  intros alias. split; [| split; [| split]].
  - intros Hm. unfold dataset_from_text.
    assert (contains "month" (replace_char "-" "_" alias) = true) as Hr.
    { rewrite contains_replace_char; [exact Hm |].
      intros c Hc. simpl in Hc.
      repeat (destruct Hc as [<- | Hc]; [split; discriminate |]). destruct Hc. }
    assert (forall s, contains "month" s = true ->
                      dataset_of_name s = Some reanalysis_era5_land -> False) as Hland.
    { intros s Hs. unfold dataset_of_name.
      destruct (String.eqb s "reanalysis_era5_land_monthly_means"); [discriminate |].
      destruct (String.eqb s "reanalysis_era5_land") eqn:He; [| discriminate].
      apply String.eqb_eq in He. subst s. vm_compute in Hs. discriminate Hs. }
    destruct (dataset_of_name alias) as [[|] |] eqn:H1;
      [reflexivity | destruct (Hland _ Hm H1) |].
    destruct (dataset_of_name (replace_char "-" "_" alias)) as [[|] |] eqn:H2;
      [reflexivity | destruct (Hland _ Hr H2) |].
    rewrite Hm.
    destruct (String.eqb alias _); reflexivity.
  - intros Hp. unfold variable_from_text, variable_of_name.
    destruct (String.eqb alias "total_precipitation"); [reflexivity |].
    destruct (String.eqb alias "temperature") eqn:He.
    + apply String.eqb_eq in He. subst alias. vm_compute in Hp. discriminate Hp.
    + rewrite Hp. reflexivity.
  - intros m. destruct m; vm_compute; reflexivity.
  - intros m. destruct m; vm_compute; reflexivity.
Qed.

(** X21: a bounding box whose coordinates already have one decimal, within
    360 degrees, comes out of the rounding of the CDS historic tool as it
    went in: floating-point arithmetic does not widen it. *)
Theorem one_decimal_box_is_kept :
  forall (k0 k1 k2 k3 : Z) (st : tool_state) (w : world),
    -3600 <= k0 <= 3600 -> -3600 <= k1 <= 3600 ->
    -3600 <= k2 <= 3600 -> -3600 <= k3 <= 3600 ->
    let box := VList [VFloat (tenths k0); VFloat (tenths k1);
                      VFloat (tenths k2); VFloat (tenths k3)] in
    round_bounding_box box st w = (Return box, st, w).
Proof.
  intros k0 k1 k2 k3 st w H0 H1 H2 H3 box.
  apply settled_area_rounds. exists k0, k1, k2, k3. auto.
Qed.

(** X22: an interrupt is handed over whole.  When the tool handler node
    answers with a directive to another node, the tool raised an interrupt,
    the target is the interrupt node, and the patch, applied to the
    conversation, leaves the messages as they are and makes the suspend
    context (the pending message, the interrupt and the name of the node to
    come back to) the one and only entry of [node_params]. *)
Theorem interrupt_is_handed_over :
  forall (self : BaseToolHandlerNode) (tools tools' : gmap string tool_object)
         (state : GraphState) (w w' : world) (goto : string) (u : state_update),
    tool_handler_template self tools state w = (Return (Command goto u), tools', w') ->
    exists id calls c t i st',
      last (messages state) = Some (AIMessage id calls)
      /\ last calls = Some c
      /\ tools !! call_name c = Some t
      /\ invoke (tool_class t) (call_args c) (set_graph_state state (fields t)) w
         = (Interrupted i, st', w')
      /\ goto = handler_interrupt_node_name self
      /\ tools' !! call_name c = Some (with_fields t st')
      /\ apply_update state u
         = Return {| messages := messages state;
                     user_id := user_id state;
                     node_params :=
                       {[ goto := InterruptParams (AIMessage id calls) i
                                    (handler_node_name self) ]} |}.
Proof.
  intros self tools tools' state w w' goto u H.
  unfold tool_handler_template in H.
  destruct (last (messages state)) as [[id calls | | | |] |] eqn:Hlast;
    try discriminate H.
  destruct (last calls) as [c |] eqn:Hcall; try discriminate H.
  destruct (tools !! call_name c) as [t |] eqn:Ht; try discriminate H.
  destruct (invoke _ _ _ _) as [[[result | i | e] st'] w0] eqn:Hinvoke;
    try discriminate H.
  inversion H; subst. exists id, calls, c, t, i, st'.
  repeat split; try reflexivity; try assumption.
  apply lookup_insert_eq.
Qed.


(** ** The validation table of the CDS forecast tool *)

Lemma reads_only_ret {A : Type} (a : A) : reads_only (ret a).
Proof. intros st w. split; reflexivity. Qed.

Lemma reads_only_raise {A : Type} (e : exn) : reads_only (@raise A e).
Proof. intros st w. split; reflexivity. Qed.

Lemma reads_only_lift {A : Type} (o : outcome A) : reads_only (lift o).
Proof. intros st w. unfold lift. destruct o; split; reflexivity. Qed.

Lemma reads_only_get_world : reads_only get_world.
Proof. intros st w. split; reflexivity. Qed.

Lemma reads_only_get_self : reads_only get_self.
Proof. intros st w. split; reflexivity. Qed.

Lemma reads_only_bind {A B : Type} (m : M A) (k : A -> M B) :
  reads_only m -> (forall a, reads_only (k a)) -> reads_only (bind m k).
Proof.
  intros Hm Hk st w. unfold bind. specialize (Hm st w).
  destruct (m st w) as [[o st1] w1]. simpl in Hm. destruct Hm as [-> ->].
  destruct o as [a | i | e]; [apply Hk | split; reflexivity ..].
Qed.

Lemma reads_only_mapM {A B : Type} (f : A -> M B) (l : list A) :
  (forall x, reads_only (f x)) -> reads_only (mapM f l).
Proof.
  intros Hf. induction l as [| x l IH]; cbn [mapM]; [apply reads_only_ret |].
  apply reads_only_bind; [apply Hf | intros y].
  apply reads_only_bind; [exact IH | intros ys; apply reads_only_ret].
Qed.

Ltac reads_only_step :=
  first
    [ apply reads_only_ret | apply reads_only_raise | apply reads_only_lift
    | apply reads_only_get_world | apply reads_only_get_self
    | apply reads_only_bind; [| intros ?]
    | match goal with
      | |- reads_only (match ?x with _ => _ end) => destruct x
      | |- reads_only (if ?b then _ else _) => destruct b
      end ].

Lemma reads_only_inv {A : Type} (m : M A) (o : outcome A) st w st' w' :
  reads_only m -> m st w = (o, st', w') -> st' = st /\ w' = w.
Proof. intros Hm H. destruct (Hm st w) as [Hst Hw]. rewrite H in Hst, Hw. auto. Qed.

Lemma reads_only_apply_rules (arg : string) (rules : list rule) (ka : pydict) :
  Forall (fun r : rule => reads_only (r ka)) rules ->
  forall invalid, reads_only (apply_rules arg rules ka invalid).
Proof.
  induction 1 as [| r rules Hr _ IH]; intros invalid; cbn [apply_rules].
  - apply reads_only_ret.
  - apply reads_only_bind; [exact Hr | intros v; apply IH].
Qed.

(** A rule set that recorded nothing: its first rule returned [None]. *)
Lemma apply_rules_accept (arg : string) (r : rule) (rest : list rule) (ka : pydict)
      st w st' w' :
  apply_rules arg (r :: rest) ka [] st w = (Return [], st', w') ->
  exists st1 w1,
    r ka st w = (Return VNone, st1, w1)
    /\ apply_rules arg rest ka [] st1 w1 = (Return [], st', w').
Proof.
  intros H. cbn [apply_rules] in H. step_inv H.
  destruct (is_none a) eqn:Hnone.
  - apply is_none_true in Hnone. subst a. eauto.
  - exfalso. apply (apply_rules_nonempty _ _ _ _ _ _ _ _ _ H);
      [apply dict_set_nonempty | reflexivity].
Qed.

Section ForecastValidation.
Context `{ext : External}.

Import CDSForecast.

Lemma reads_only_from_str (v : value) : reads_only (CDSForecast.variable_from_str v).
Proof. unfold CDSForecast.variable_from_str. repeat reads_only_step. Qed.

Lemma reads_only_members_of (ka : pydict) : reads_only (members_of ka).
Proof.
  unfold members_of, getitem. repeat reads_only_step.
  apply reads_only_mapM. apply reads_only_from_str.
Qed.

Lemma reads_only_invalid_variables (l : list value) :
  reads_only (CDSForecast.invalid_variables l).
Proof.
  induction l as [| v l IH]; cbn [CDSForecast.invalid_variables];
    [apply reads_only_ret |].
  apply reads_only_bind; [apply reads_only_from_str | intros m].
  apply reads_only_bind; [exact IH | intros rest; apply reads_only_ret].
Qed.

Ltac reads_only_rule :=
  repeat first
    [ apply reads_only_members_of | apply reads_only_invalid_variables
    | reads_only_step
    | progress unfold getitem, strptime_value, format_rule, area_rule, horizon_rule ].

Lemma forecast_rules_read_only (arg : string) (ka : pydict) :
  Forall (fun r : rule => reads_only (r ka))
    (default [] (dict_get arg validation_rules)).
Proof.
  unfold validation_rules. cbn [dict_get].
  repeat match goal with
         | |- context [String.eqb arg ?k] => destruct (String.eqb arg k)
         end;
    cbn [default]; repeat constructor; reads_only_rule.
Qed.

Lemma forecast_rules_keep_state (arg : string) (ka invalid out : pydict) st w st' w' :
  apply_rules arg (default [] (dict_get arg validation_rules)) ka invalid st w
  = (Return out, st', w') ->
  st' = st /\ w' = w.
Proof.
  intros H.
  destruct (reads_only_apply_rules arg _ ka (forecast_rules_read_only arg ka) invalid st w)
    as [Hst Hw].
  rewrite H in Hst, Hw. simpl in Hst, Hw. auto.
Qed.

Ltac forecast_step H :=
  rewrite validate_fields_cons in H; step_inv H;
  match goal with
  | Hs : apply_rules _ _ _ _ _ _ = (Return ?a, _, _) |- _ =>
      assert (a = []) as ->
          by (destruct a; [reflexivity |]; exfalso;
              apply (validate_fields_nonempty _ _ _ _ _ _ _ _ _ H);
              [discriminate | reflexivity]);
      let Hst := fresh "Hst" in
      let Hw := fresh "Hw" in
      destruct (forecast_rules_keep_state _ _ _ _ _ _ _ _ Hs) as [Hst Hw];
      subst
  end.

(** What a returning validation of the forecast tool went through: the
    rules of the variables and of the lead time recorded nothing, and
    nothing was changed. *)
Lemma forecast_validation_steps (self : BaseAgentTool) (ka : pydict) st w st' w' :
  args_schema self = schema ->
  _set_args_validation_rules self = validation_rules ->
  check_validation_rules self ka st w = (Return tt, st', w') ->
  st' = st /\ w' = w
  /\ apply_rules "forecast_variables"
       (default [] (dict_get "forecast_variables" validation_rules)) ka [] st w
     = (Return [], st, w)
  /\ apply_rules "lead_time" (default [] (dict_get "lead_time" validation_rules)) ka []
       st w
     = (Return [], st, w).
Proof.
  intros Hschema Hrules H. apply check_validation_rules_inv in H.
  rewrite Hschema, Hrules in H. unfold schema, dict_keys in H. cbn [map fst] in H.
  forecast_step H. rename Hstep into Hvars.
  forecast_step H. clear Hstep.
  forecast_step H. clear Hstep.
  forecast_step H. rename Hstep into Hlead.
  forecast_step H. clear Hstep.
  forecast_step H. clear Hstep.
  cbn [validate_fields] in H. unfold ret in H. inversion H; subst.
  auto.
Qed.

Local Arguments bind {A B} m k st w /.
Local Arguments ret {A} a st w /.
Local Arguments lift {A} o st w /.
Local Arguments raise {A} e st w /.
Local Arguments get_world st w /.
Local Arguments getitem {V} d k /.
Local Arguments py_str : simpl never.
Local Arguments CDSForecast.variable_from_text : simpl never.
Local Arguments strptime : simpl never.
Local Arguments relativedelta_months : simpl never.
Local Arguments dt_gt : simpl never.

Lemma forecast_members_of_names (vs : list string) st w :
  mapM CDSForecast.variable_from_str (map VStr vs) st w
  = (Return (map CDSForecast.variable_from_text vs), st, w).
Proof.
  induction vs as [| v vs IH]; [reflexivity |].
  cbn [map mapM]. cbn. rewrite IH. reflexivity.
Qed.

Lemma forecast_invalid_spec (vs : list string) st w :
  CDSForecast.invalid_variables (map VStr vs) st w
  = (Return (map VStr (List.filter
                         (fun v => match CDSForecast.variable_from_text v with
                                   | Some _ => false
                                   | None => true
                                   end) vs)), st, w).
Proof.
  induction vs as [| v vs IH]; [reflexivity |].
  cbn [map CDSForecast.invalid_variables List.filter]. cbn. rewrite IH.
  destruct (CDSForecast.variable_from_text v); reflexivity.
Qed.

(** X23: what the validation of the CDS forecast tool guarantees about the
    variables.  When it returns, every alias names a forecast variable, and
    if one of them is GloFAS the list has no other item. *)
Theorem glofas_stands_alone :
  forall (self : BaseAgentTool) (vs : list string) (area i t z j : value)
         st w st' w',
    args_schema self = CDSForecast.schema ->
    _set_args_validation_rules self = CDSForecast.validation_rules ->
    check_validation_rules self
      (CDSForecast.tool_args (VList (map VStr vs)) area i t z j) st w
    = (Return tt, st', w') ->
    Forall (fun v => exists m, CDSForecast.variable_from_text v = Some m) vs
    /\ (existsb is_glofas (map CDSForecast.variable_from_text vs) = true ->
        (length vs <= 1)%nat).
Proof.
  intros self vs area i t z j st w st' w' Hschema Hrules H.
  destruct (forecast_validation_steps self _ st w st' w' Hschema Hrules H)
    as (_ & _ & Hvars & _).
  clear H. cbn [dict_get validation_rules String.eqb Ascii.eqb Bool.eqb default] in Hvars.
  apply apply_rules_accept in Hvars. destruct Hvars as (st1 & w1 & Hfirst & Hvars).
  apply apply_rules_accept in Hvars. destruct Hvars as (st2 & w2 & Hsecond & _).
  split.
  - clear Hsecond. unfold CDSForecast.tool_args in Hfirst. cbn in Hfirst.
    rewrite forecast_invalid_spec in Hfirst. cbn in Hfirst.
    destruct (List.filter _ vs) as [| bad rest] eqn:Hbad; cbn in Hfirst;
      [| inversion Hfirst].
    apply List.Forall_forall. intros v Hv.
    destruct (CDSForecast.variable_from_text v) as [m |] eqn:Hm; [exists m; reflexivity |].
    exfalso. assert (In v []) as Hin; [| destruct Hin].
    rewrite <- Hbad. apply filter_In. split; [exact Hv |]. rewrite Hm. reflexivity.
  - intros Hglofas. clear Hfirst.
    unfold CDSForecast.tool_args, members_of in Hsecond. cbn in Hsecond.
    rewrite forecast_members_of_names in Hsecond. cbn in Hsecond.
    rewrite Hglofas in Hsecond. cbn in Hsecond.
    rewrite length_map in Hsecond.
    destruct (length vs) as [| [| n]]; [lia | lia | inversion Hsecond].
Qed.

(** X24: what the validation of the CDS forecast tool guarantees about a
    lead time that is given.  When it returns, the lead time is a date, and
    it is not after the first of the current month plus one month when
    GloFAS is among the variables, plus six months otherwise. *)
Theorem lead_time_within_horizon :
  forall (self : BaseAgentTool) (vs : list string) (area i z j : value) (lead : string)
         st w st' w',
    args_schema self = CDSForecast.schema ->
    _set_args_validation_rules self = CDSForecast.validation_rules ->
    check_validation_rules self
      (CDSForecast.tool_args (VList (map VStr vs)) area i (VStr lead) z j) st w
    = (Return tt, st', w') ->
    exists d,
      strptime lead "%Y-%m-%d" = Some d
      /\ dt_gt d
           (relativedelta_months
              (if existsb is_glofas (map CDSForecast.variable_from_text vs) then 1 else 6)
              (replace_day_1 (now w)))
         = false.
Proof.
  intros self vs area i z j lead st w st' w' Hschema Hrules H.
  destruct (forecast_validation_steps self _ st w st' w' Hschema Hrules H)
    as (_ & _ & _ & Hlead).
  clear H. cbn [dict_get validation_rules String.eqb Ascii.eqb Bool.eqb default] in Hlead.
  pose proof (forecast_rules_read_only "lead_time"
                (CDSForecast.tool_args (VList (map VStr vs)) area i (VStr lead) z j))
    as Hro.
  cbn [dict_get validation_rules String.eqb Ascii.eqb Bool.eqb default] in Hro.
  inversion Hro as [| r1 l1 Hr1 Hro1]; subst r1 l1.
  inversion Hro1 as [| r2 l2 Hr2 Hro2]; subst r2 l2.
  inversion Hro2 as [| r3 l3 Hr3 Hro3]; subst r3 l3.
  clear Hro Hro1 Hro2 Hro3.
  apply apply_rules_accept in Hlead. destruct Hlead as (st1 & w1 & Hformat & Hlead).
  destruct (reads_only_inv _ _ _ _ _ _ Hr1 Hformat) as [-> ->].
  apply apply_rules_accept in Hlead. destruct Hlead as (st2 & w2 & Hmonth & Hlead).
  destruct (reads_only_inv _ _ _ _ _ _ Hr2 Hmonth) as [-> ->]. clear Hmonth.
  apply apply_rules_accept in Hlead. destruct Hlead as (st3 & w3 & Hsix & Hlead).
  destruct (reads_only_inv _ _ _ _ _ _ Hr3 Hsix) as [-> ->].
  apply apply_rules_accept in Hlead. destruct Hlead as (st4 & w4 & Hone & _).
  clear Hr1 Hr2 Hr3.
  unfold format_rule, CDSForecast.tool_args in Hformat. cbn in Hformat.
  unfold try_strptime in Hformat. cbn in Hformat.
  destruct (strptime lead "%Y-%m-%d") as [d |] eqn:Hd; [| inversion Hformat].
  clear Hformat. exists d. split; [reflexivity |].
  unfold horizon_rule, CDSForecast.tool_args, members_of, strptime_value in Hsix, Hone.
  cbn in Hsix, Hone. rewrite forecast_members_of_names in Hsix, Hone.
  cbn in Hsix, Hone. rewrite Hd in Hsix, Hone.
  destruct (existsb is_glofas (map CDSForecast.variable_from_text vs));
    cbn in Hsix, Hone.
  - destruct (dt_gt d _); [inversion Hone | reflexivity].
  - destruct (dt_gt d _); [inversion Hsix | reflexivity].
Qed.

End ForecastValidation.

(** ** The further properties at concrete inputs *)

Lemma required_check_outcome_witness :
  exists l,
    (forall arg,
        In arg l <->
        exists info, In (arg, info) cds_historic_schema /\ is_required info = true
                     /\ dict_get arg no_dataset_bad_start = Some VNone)
    /\ check_required_args (@CDSHistoricNotebookTool silent) no_dataset_bad_start
         cds_historic_fields empty_world
       = match l with
         | [] => (Return tt, cds_historic_fields, empty_world)
         | _ =>
             (Interrupted
                {| interrupt_tool := CDS_HISTORIC_NOTEBOOK_TOOL;
                   interrupt_type := PROVIDE_ARGS;
                   interrupt_reason :=
                     "Missing required arguments: " +:+ repr_names l +:+ ".";
                   interrupt_data := MissingArgsData l cds_historic_schema |},
              set_execution_confirmed false cds_historic_fields, empty_world)
         end.
Proof.
  apply (required_check_outcome (@CDSHistoricNotebookTool silent) no_dataset_bad_start
           cds_historic_fields empty_world).
  reflexivity.
Defined.

Lemma required_check_missing_key_witness :
  exists arg info,
    In (arg, info) cds_historic_schema /\ is_required info = true
    /\ dict_get arg [("area", VStr "Italy")] = None
    /\ check_required_args (@CDSHistoricNotebookTool silent) [("area", VStr "Italy")]
         cds_historic_fields empty_world
       = (Raised (KeyError arg), cds_historic_fields, empty_world)
    /\ _run (@CDSHistoricNotebookTool silent) [("area", VStr "Italy")]
         cds_historic_fields empty_world
       = (Raised (KeyError arg), cds_historic_fields, empty_world).
Proof.
  apply (required_check_missing_key (@CDSHistoricNotebookTool silent)
           [("area", VStr "Italy")] cds_historic_fields empty_world).
  reflexivity.
Defined.

Lemma inferred_outputs_carry_extension_witness :
  exists zarr book,
    dict_get "zarr_output" alpine_box_inferred = Some (VStr zarr)
    /\ endswith zarr ".zarr" = true
    /\ dict_get "jupyter_notebook" alpine_box_inferred = Some (VStr book)
    /\ endswith book ".ipynb" = true.
Proof.
  apply (@inferred_outputs_carry_extension agreeable "reanalysis-era5-land" ["temperature"]
           (VList [VFloat 6.61%float; VFloat 35.48%float; VFloat 18.52%float;
                   VFloat 47.1%float])
           (Some "2024-01-01") (Some "2024-03-01") (Some "alps") (Some "alps.ipynb")
           cds_confirmed_fields empty_world cds_confirmed_fields empty_world
           alpine_box_inferred cds_confirmed_fields empty_world);
    vm_compute; reflexivity.
Defined.

Lemma inferred_period_is_ordered_witness :
  exists start,
    dict_get "start_time" alpine_box_collapsed = Some (VStr start)
    /\ dict_get "end_time" alpine_box_collapsed = Some (VStr "2024-01-01")
    /\ start = (if str_gt "2024-03-01" "2024-01-01" then "2024-01-01" else "2024-03-01")
    /\ str_gt start "2024-01-01" = false.
Proof.
  apply (@inferred_period_is_ordered agreeable "reanalysis-era5-land" ["temperature"]
           (VList [VFloat 6.61%float; VFloat 35.48%float; VFloat 18.52%float;
                   VFloat 47.1%float])
           "2024-03-01" "2024-01-01" (Some "alps") (Some "alps.ipynb")
           cds_confirmed_fields empty_world cds_confirmed_fields empty_world
           alpine_box_collapsed cds_confirmed_fields empty_world);
    vm_compute; reflexivity.
Defined.

Lemma named_area_asks_for_confirmation_witness :
  exists tool_args',
    dict_get "area" tool_args' = Some alpine_degrees
    /\ _run (@CDSHistoricNotebookTool surveyor) italy_by_name cds_confirmed_fields
         empty_world
       = (Interrupted
            {| interrupt_tool := CDS_HISTORIC_NOTEBOOK_TOOL;
               interrupt_type := CONFIRM_ARGS;
               interrupt_reason :=
                 "Please confirm the execution of the tool with the provided arguments.";
               interrupt_data := ConfirmArgsData tool_args' cds_historic_schema |},
          set_execution_confirmed false cds_confirmed_fields, count_llm_call empty_world).
Proof.
  apply (@named_area_asks_for_confirmation surveyor "reanalysis-era5-land" ["temperature"]
           "Italy" (Some "2024-01-01") (Some "2024-03-01") (Some "italy.zarr")
           (Some "italy.ipynb") cds_confirmed_fields empty_world cds_confirmed_fields
           empty_world cds_confirmed_fields empty_world alpine_degrees).
  - vm_compute; reflexivity.
  - vm_compute; reflexivity.
  - intros st w. vm_compute; reflexivity.
Defined.

Lemma confirmed_run_saves_one_notebook_witness :
  exists tool_args' zarr book nb st' w',
    _run (@CDSHistoricNotebookTool agreeable) alpine_box cds_confirmed_fields empty_world
    = (Return (VDict [("data_source", VStr zarr); ("notebook", VStr book)]), st', w')
    /\ dict_get "zarr_output" tool_args' = Some (VStr zarr)
    /\ dict_get "jupyter_notebook" tool_args' = Some (VStr book)
    /\ executed w'
       = (executed empty_world ++ [(CDS_HISTORIC_NOTEBOOK_TOOL, tool_args')])%list
    /\ saved w' = (saved empty_world ++ [nb])%list
    /\ llm_calls w' = llm_calls empty_world
    /\ notebook st' = Some nb
    /\ execution_confirmed st' = false
    /\ (notebooks empty_world !! (user_id (ada_state []), book) = None ->
        nb_name nb = VStr book /\ nb_authors nb = user_id (ada_state [])).
Proof.
  apply (@confirmed_run_saves_one_notebook agreeable "reanalysis-era5-land" ["temperature"]
           [VFloat 6.61%float; VFloat 35.48%float; VFloat 18.52%float; VFloat 47.1%float]
           (Some "2024-01-01") (Some "2024-03-01") (Some "alps") (Some "alps.ipynb")
           cds_confirmed_fields empty_world cds_confirmed_fields empty_world
           cds_confirmed_fields empty_world (ada_state []) alpine_degrees).
  - vm_compute; reflexivity.
  - vm_compute; reflexivity.
  - intros st w. vm_compute; reflexivity.
  - reflexivity.
  - reflexivity.
  - reflexivity.
Defined.

Lemma validated_area_has_four_items_witness :
  length [VFloat 6.61%float; VFloat 35.48%float; VFloat 18.52%float; VFloat 47.1%float]
  = 4%nat.
Proof.
  apply (proj1 (@validated_area_has_four_items agreeable
                  [VFloat 6.61%float; VFloat 35.48%float; VFloat 18.52%float;
                   VFloat 47.1%float]
                  cds_confirmed_fields cds_confirmed_fields empty_world empty_world)
           (VStr "reanalysis-era5-land") (VList [VStr "temperature"])
           (VStr "2024-01-01") (VStr "2024-03-01") (VStr "alps") (VStr "alps.ipynb")).
  vm_compute; reflexivity.
Defined.

Lemma spi_inference_always_returns_witness :
  exists tool_args' st' w',
    infer_args (@SPIForecastNotebookTool agreeable) spi_june cds_confirmed_fields
      empty_world
    = (Return tool_args', st', w')
    /\ dict_get "reference_period" tool_args' = Some (VTuple [VInt 1981; VInt 2010])
    /\ dict_get "init_time" tool_args' = Some (VStr "2025-06-01")
    /\ dict_get "area" tool_args' = Some alpine_degrees
    /\ st' = cds_confirmed_fields /\ w' = empty_world.
Proof.
  destruct (@spi_inference_always_returns agreeable alpine_degrees
              (VTuple [VInt 1981; VInt 2010]) (VStr "2025-06-01") VNone VNone
              cds_confirmed_fields empty_world)
    as (tool_args' & st' & w' & Hrun & Hp & Hi & _ & _ & Ha & Hst & Hw).
  exists tool_args', st', w'.
  split; [exact Hrun |]. split; [exact Hp |].
  split; [apply Hi; reflexivity |]. split; [exact Ha |]. split; [exact Hst | exact Hw].
Defined.

Lemma short_reference_period_raises_witness :
  check_validation_rules (@SPIForecastNotebookTool agreeable)
    (spi_forecast_tool_args alpine_degrees VNone VNone VNone VNone)
    spi_forecast_fields empty_world
  = (Raised TypeError, spi_forecast_fields, empty_world)
  /\ check_validation_rules (@SPIForecastNotebookTool agreeable)
       (spi_forecast_tool_args alpine_degrees (VTuple [VInt 1990]) VNone VNone VNone)
       spi_forecast_fields empty_world
     = (Raised IndexError, spi_forecast_fields, empty_world)
  /\ check_validation_rules (@SPIForecastNotebookTool agreeable)
       (spi_forecast_tool_args alpine_degrees (VList [VInt 1990]) VNone VNone VNone)
       spi_forecast_fields empty_world
     = (Raised IndexError, spi_forecast_fields, empty_world).
Proof.
  apply (@short_reference_period_raises agreeable alpine_degrees VNone VNone VNone
           [VInt 1990] spi_forecast_fields empty_world).
  simpl. lia.
Defined.

Lemma spi_default_lead_time_is_january_witness :
  exists tool_args' st' w' init lead,
    infer_args (@SPIForecastNotebookTool agreeable)
      (spi_forecast_tool_args alpine_degrees (VTuple [VInt 1981; VInt 2010]) VNone VNone
         VNone) spi_forecast_fields empty_world
    = (Return tool_args', st', w')
    /\ dict_get "init_time" tool_args'
       = Some (VStr (@strftime agreeable init "%Y-%m-%d"))
    /\ dict_get "lead_time" tool_args'
       = Some (VStr (@strftime agreeable lead "%Y-%m-%d"))
    /\ (year init, month init, day init) = (2025, 6, 1)
    /\ (year lead, month lead, day lead) = (2025, 1, 1)
    /\ dt_gt lead init = false
    /\ dt_lt lead init = true.
Proof.
  apply (@spi_default_lead_time_is_january agreeable alpine_degrees
           (VTuple [VInt 1981; VInt 2010]) VNone spi_forecast_fields empty_world).
  simpl. lia.
Defined.

Lemma default_period_is_february_to_january_witness :
  exists start stop : datetime,
    dict_get "start_time" alpine_box_defaulted
    = Some (VStr (@strftime agreeable start "%Y-%m-01"))
    /\ dict_get "end_time" alpine_box_defaulted
       = Some (VStr (@strftime agreeable stop "%Y-%m-01"))
    /\ (year start, month start) = (2025, 2)
    /\ (year stop, month stop) = (2025, 1).
Proof.
  apply (@default_period_is_february_to_january agreeable "reanalysis-era5-land"
           ["temperature"]
           (VList [VFloat 6.61%float; VFloat 35.48%float; VFloat 18.52%float;
                   VFloat 47.1%float])
           (Some "alps") (Some "alps.ipynb")
           cds_confirmed_fields empty_world cds_confirmed_fields empty_world
           alpine_box_defaulted cds_confirmed_fields empty_world);
    vm_compute; reflexivity.
Defined.

Lemma update_last_call_changes_last_only_witness :
  exists front c a,
    two_pending_calls = (front ++ [c])%list
    /\ dict_update_value (call_args c) (VDict [("code_request", VStr "plot the data")])
       = Return a
    /\ [plain_call;
        {| call_name := call_name code_editor_call;
           call_args :=
             dict_update (call_args code_editor_call)
               [("code_request", VStr "plot the data")];
           call_id := call_id code_editor_call |}]
       = (front ++ [{| call_name := call_name c; call_args := a;
                       call_id := call_id c |}])%list.
Proof.
  apply (update_last_call_changes_last_only two_pending_calls _
           (VDict [("code_request", VStr "plot the data")])).
  reflexivity.
Defined.

Lemma handlers_only_ask_witness :
  only_asked empty_world
    (snd (handle (@BaseToolInterruptProvideArgsHandler silent)
            (AIMessage "m1" [cds_call_without_dataset]) cds_missing_dataset_interrupt
            CDS_INGESTOR_TOOL_HANDLER [("response", VStr "forget it")]
            cds_historic_fields empty_world)).
Proof.
  apply (@handlers_only_ask silent PROVIDE_ARGS (@BaseToolInterruptProvideArgsHandler silent)).
  left. reflexivity.
Defined.

Lemma output_confirmation_resumes_witness :
  handle (@BaseToolInterruptOutputConfirmationHandler coder)
    (AIMessage "m3" [code_editor_call]) (code_editor_output_interrupt "plot(data)")
    CODE_EDITOR_TOOL_HANDLER [("response", VStr "yes, add it")] code_editor_fields
    empty_world
  = (Return (Command CODE_EDITOR_TOOL_HANDLER
               (resume_update (AIMessage "m3" [code_editor_call]))),
     set_output_confirmed true code_editor_fields,
     count_llm_call (count_llm_call empty_world)).
Proof.
  apply (proj1 (@output_confirmation_resumes coder
                  (interrupt_tool (code_editor_output_interrupt "plot(data)"))
                  (interrupt_reason (code_editor_output_interrupt "plot(data)"))
                  (call_args code_editor_call)
                  [("notebook", VStr "analysis.ipynb");
                   ("generated_code", VStr "plot(data)")]
                  "m3" [code_editor_call] CODE_EDITOR_TOOL_HANDLER
                  [("response", VStr "yes, add it")] code_editor_fields empty_world)).
  vm_compute; reflexivity.
Defined.

Lemma unknown_notebook_is_invalid_witness :
  exists reason,
    _run (@CodeEditorTool coder)
      (code_editor_tool_args (VStr "missing.ipynb") (VStr "plot the data"))
      (set_graph_state (ada_state []) code_editor_fields) world_with_notebook
    = (Interrupted
         {| interrupt_tool := CODE_EDITOR_TOOL;
            interrupt_type := INVALID_ARGS;
            interrupt_reason := "Invalid arguments: ['source'].";
            interrupt_data :=
              InvalidArgsData [("source", VStr reason)] code_editor_schema |},
       set_execution_confirmed false (set_graph_state (ada_state []) code_editor_fields),
       world_with_notebook).
Proof.
  apply (@unknown_notebook_is_invalid coder (ada_state [])).
  - reflexivity.
  - reflexivity.
  - intros n Hn. injection Hn as <-. vm_compute; reflexivity.
Defined.

Lemma chatbot_enters_with_one_call_witness :
  exists id c rest,
    two_calls (ada_state [HumanMessage "h1" "plot the data"]) = (id, c :: rest)
    /\ {| upd_messages := [AIMessage "m9" [code_editor_call]]; upd_node_params := None;
          upd_requested_agent := None |}
       = {| upd_messages := [AIMessage id [c]]; upd_node_params := None;
            upd_requested_agent := None |}
    /\ In (call_name c) (tools_of CODE_EDITOR_SUBGRAPH)
    /\ [CHATBOT; CODE_EDITOR_SUBGRAPH] = [CHATBOT; CODE_EDITOR_SUBGRAPH]
    /\ (existsb (has_id id) (messages (ada_state [HumanMessage "h1" "plot the data"]))
        = false ->
        exists state',
          apply_update (ada_state [HumanMessage "h1" "plot the data"])
            {| upd_messages := [AIMessage "m9" [code_editor_call]];
               upd_node_params := None; upd_requested_agent := None |}
          = Return state'
          /\ last (messages state') = Some (AIMessage id [c])
          /\ node_params state'
             = node_params (ada_state [HumanMessage "h1" "plot the data"])).
Proof.
  apply (chatbot_enters_with_one_call two_calls
           (ada_state [HumanMessage "h1" "plot the data"]) CODE_EDITOR_SUBGRAPH).
  - reflexivity.
  - simpl. auto.
Defined.

Lemma pending_messages_are_applied_once_witness :
  chatbot two_calls state_after_exit = (Command CHATBOT_UPDATE_MESSAGES no_update, [])
  /\ add_messages (messages state_after_exit) [RemoveMessage "m1"; SystemMessage "left"]
     = Return [HumanMessage "h1" "ingest the alps"; SystemMessage "left"]
  /\ (∅ : gmap string node_param) = ∅
  /\ forall u history,
       chatbot two_calls
         {| messages := [HumanMessage "h1" "ingest the alps"; SystemMessage "left"];
            user_id := "ada"; node_params := ∅ |}
       <> (Command CHATBOT_UPDATE_MESSAGES u, history).
Proof.
  apply (pending_messages_are_applied_once two_calls state_after_exit
           {| messages := [HumanMessage "h1" "ingest the alps"; SystemMessage "left"];
              user_id := "ada"; node_params := ∅ |}
           [RemoveMessage "m1"; SystemMessage "left"]).
  - discriminate.
  - reflexivity.
  - reflexivity.
Defined.

Lemma alias_resolution_priority_witness :
  dataset_from_text "hourly or monthly" = Some reanalysis_era5_land_monthly_means
  /\ variable_from_text "temperature and precipitation" = Some total_precipitation.
Proof.
  split.
  - apply (proj1 (alias_resolution_priority "hourly or monthly")). reflexivity.
  - apply (proj1 (proj2 (alias_resolution_priority "temperature and precipitation"))).
    reflexivity.
Defined.

Lemma one_decimal_box_is_kept_witness :
  round_bounding_box alpine_degrees cds_confirmed_fields empty_world
  = (Return alpine_degrees, cds_confirmed_fields, empty_world).
Proof.
  apply (one_decimal_box_is_kept 66 354 186 471 cds_confirmed_fields empty_world); lia.
Defined.

Lemma interrupt_is_handed_over_witness :
  exists id calls c t i st',
    last (messages (ada_state [AIMessage "m1" [cds_call_without_dataset]]))
    = Some (AIMessage id calls)
    /\ last calls = Some c
    /\ cds_registry silent !! call_name c = Some t
    /\ invoke (tool_class t) (call_args c)
         (set_graph_state (ada_state [AIMessage "m1" [cds_call_without_dataset]])
            (fields t)) empty_world
       = (Interrupted i, st', empty_world)
    /\ CDS_INGESTOR_TOOL_INTERRUPT = handler_interrupt_node_name cds_ingestor_tool_handler
    /\ snd (fst (tool_handler_template cds_ingestor_tool_handler (cds_registry silent)
                   (ada_state [AIMessage "m1" [cds_call_without_dataset]]) empty_world))
       !! call_name c = Some (with_fields t st')
    /\ apply_update (ada_state [AIMessage "m1" [cds_call_without_dataset]])
         {| upd_messages := [];
            upd_node_params :=
              Some {[ CDS_INGESTOR_TOOL_INTERRUPT :=
                        InterruptParams (AIMessage "m1" [cds_call_without_dataset])
                          cds_missing_dataset_interrupt CDS_INGESTOR_TOOL_HANDLER ]};
            upd_requested_agent := None |}
       = Return {| messages := messages (ada_state [AIMessage "m1" [cds_call_without_dataset]]);
                   user_id := user_id (ada_state [AIMessage "m1" [cds_call_without_dataset]]);
                   node_params :=
                     {[ CDS_INGESTOR_TOOL_INTERRUPT :=
                          InterruptParams (AIMessage id calls) i
                            (handler_node_name cds_ingestor_tool_handler) ]} |}.
Proof.
  set (r := tool_handler_template cds_ingestor_tool_handler (cds_registry silent)
              (ada_state [AIMessage "m1" [cds_call_without_dataset]]) empty_world).
  assert (fst (fst r)
          = Return (Command CDS_INGESTOR_TOOL_INTERRUPT
                      {| upd_messages := [];
                         upd_node_params :=
                           Some {[ CDS_INGESTOR_TOOL_INTERRUPT :=
                                     InterruptParams
                                       (AIMessage "m1" [cds_call_without_dataset])
                                       cds_missing_dataset_interrupt
                                       CDS_INGESTOR_TOOL_HANDLER ]};
                         upd_requested_agent := None |})) as Hfirst
      by (vm_compute; reflexivity).
  assert (snd r = empty_world) as Hworld by (vm_compute; reflexivity).
  apply (interrupt_is_handed_over cds_ingestor_tool_handler (cds_registry silent)
           (snd (fst r)) (ada_state [AIMessage "m1" [cds_call_without_dataset]])
           empty_world empty_world CDS_INGESTOR_TOOL_INTERRUPT).
  fold r. destruct r as [[o t] w0]. simpl in Hfirst, Hworld. subst o w0. reflexivity.
Defined.

Lemma glofas_stands_alone_witness :
  Forall (fun v => exists m, CDSForecast.variable_from_text v = Some m) ["glofas"]
  /\ (existsb CDSForecast.is_glofas (map CDSForecast.variable_from_text ["glofas"]) = true ->
      (length ["glofas"] <= 1)%nat).
Proof.
  apply (@glofas_stands_alone agreeable (forecast_checks agreeable) ["glofas"]
           alpine_degrees VNone (VStr "2025-07-01") VNone VNone
           cds_historic_fields empty_world cds_historic_fields empty_world).
  - reflexivity.
  - reflexivity.
  - vm_compute; reflexivity.
Defined.

Lemma lead_time_within_horizon_witness :
  exists d,
    @strptime agreeable "2025-07-01" "%Y-%m-%d" = Some d
    /\ dt_gt d
         (relativedelta_months
            (if existsb CDSForecast.is_glofas
                  (map CDSForecast.variable_from_text ["glofas"]) then 1 else 6)
            (replace_day_1 (now empty_world)))
       = false.
Proof.
  apply (@lead_time_within_horizon agreeable (forecast_checks agreeable) ["glofas"]
           alpine_degrees VNone VNone VNone "2025-07-01"
           cds_historic_fields empty_world cds_historic_fields empty_world).
  - reflexivity.
  - reflexivity.
  - vm_compute; reflexivity.
Defined.
